(** * Exa MCP server: tool dispatch and response shaping

    A shallow embedding of [server.py]: the eight operation functions
    ([exa_web_search] ... [exa_fetch_subpages]), the dispatcher [call_tool]
    registered by [build_mcp_server] and the legacy dispatcher defined inline
    in [main].

    Python values that reach the code are JSON values (the argument bag of a
    tool call and the decoded upstream bodies), so one type [json] stands for
    them.  Strings are kept as their UTF-8 bytes.  The HTTP client (httpx) and
    the remote service are one oracle [upstream]: it receives the request and
    a world state and either raises or returns the decoded JSON body.  Every
    request is also appended to a trace, so that "no request was issued" and
    "requests were issued in this order" are statements about the trace.
    The operation functions take their arguments as [json] too: the
    dispatcher hands them the values of the argument bag unchecked.
    An exception is its class and its text; the classes that [Exception]
    does not cover (a cancellation, an interrupt) are told apart, because the
    handlers of the code are all [except Exception].  Only the upstream call
    is taken to raise them.  Logging calls have no effect on results and are
    left out. *)

From Stdlib Require Import List String Ascii ZArith Lia Bool DecimalString.
Import ListNotations.
Open Scope string_scope.
Open Scope Z_scope.
Set Warnings "-register-all".

(* ===================================================================== *)
(** ** Python values *)
(* ===================================================================== *)

Module Py.

(** A Python float: not-a-number, an infinity, or the number [m * 2^e]. *)
Inductive pyfloat : Type :=
| FNan
| FInf (negative : bool)
| FFin (m e : Z).

Inductive json : Type :=
| JNull
| JBool (b : bool)
| JInt (z : Z)
| JFloat (f : pyfloat)
| JStr (s : string)
| JList (l : list json)
| JDict (d : list (string * json)).

(** A [dict] with string keys, in insertion order. *)
Definition dict : Type := list (string * json).

Fixpoint dict_get (d : dict) (k : string) : option json :=
  match d with
  | [] => None
  | (k', v) :: r => if String.eqb k' k then Some v else dict_get r k
  end.

(** [d[k] = v]: overwrite in place, or append a new key. *)
Fixpoint dict_set (d : dict) (k : string) (v : json) : dict :=
  match d with
  | [] => [(k, v)]
  | (k', v') :: r =>
      if String.eqb k' k then (k', v) :: r else (k', v') :: dict_set r k v
  end.

(** [d.get(k, default)] on a value known to be a dict. *)
Definition get_or (d : dict) (k : string) (default : json) : json :=
  match dict_get d k with Some v => v | None => default end.

(** Truth value of a Python object ([if x], [not x], [x or y]). *)
Definition truthy (v : json) : bool :=
  match v with
  | JNull => false
  | JBool b => b
  | JInt z => negb (z =? 0)
  | JFloat (FFin m _) => negb (m =? 0)
  | JFloat _ => true
  | JStr s => negb (String.eqb s "")
  | JList l => match l with [] => false | _ => true end
  | JDict d => match d with [] => false | _ => true end
  end.

(** [a or b] *)
Definition py_or (a b : json) : json := if truthy a then a else b.

(** [isinstance(v, list)] *)
Definition is_list (v : json) : bool :=
  match v with JList _ => true | _ => false end.

Definition is_dict (v : json) : bool :=
  match v with JDict _ => true | _ => false end.

Definition type_name (v : json) : string :=
  match v with
  | JNull => "NoneType"
  | JBool _ => "bool"
  | JInt _ => "int"
  | JFloat _ => "float"
  | JStr _ => "str"
  | JList _ => "list"
  | JDict _ => "dict"
  end.

(** *** Exceptions

    The classes the code meets.  [PyOther] is any further class derived from
    [Exception] (the errors of the HTTP client).  The last four derive from
    [BaseException] only: [asyncio.CancelledError], [KeyboardInterrupt],
    [SystemExit] and [GeneratorExit]. *)

Inductive exn_class : Type :=
| PyException
| PyValueError
| PyTypeError
| PyAttributeError
| PyKeyError
| PyIndexError
| PyOther (name : string)
| PyCancelledError
| PyKeyboardInterrupt
| PySystemExit
| PyGeneratorExit.

(** An exception object: its class and [str(e)]. *)
Record exn : Type := mkExn { exn_cls : exn_class; exn_str : string }.

(** [isinstance(e, Exception)]: what [except Exception] catches. *)
Definition is_exception (e : exn) : bool :=
  match exn_cls e with
  | PyCancelledError | PyKeyboardInterrupt | PySystemExit | PyGeneratorExit =>
      false
  | _ => true
  end.

Inductive outcome (A : Type) : Type :=
| Ok (a : A)
| Raise (e : exn).
Arguments Ok {A} a.
Arguments Raise {A} e.

(** *** Attribute access, iteration, indexing and slicing *)

(** [v.get(k, default)]: only dicts have the method. *)
Definition py_get (v : json) (k : string) (default : json) : outcome json :=
  match v with
  | JDict d => Ok (get_or d k default)
  | _ => Raise (mkExn PyAttributeError
                  ("'" ++ type_name v ++ "' object has no attribute 'get'"))
  end.

Definition is_continuation (c : ascii) : bool :=
  let n := Z.of_nat (nat_of_ascii c) in (128 <=? n) && (n <? 192).

(** Splits UTF-8 bytes into code points; the first component collects the
    continuation bytes met before the next leading byte. *)
Fixpoint utf8_split (s : string) : string * list string :=
  match s with
  | EmptyString => (EmptyString, [])
  | String c r =>
      let (pending, chars) := utf8_split r in
      if is_continuation c then (String c pending, chars)
      else (EmptyString, String c pending :: chars)
  end.

(** The characters of a [str], each as a one-character [str].  Bytes that
    are no valid UTF-8 cannot come from a [str]; stray leading continuation
    bytes are kept as one item so that only the empty string has no item. *)
Definition utf8_chars (s : string) : list string :=
  let (pending, chars) := utf8_split s in
  match pending with
  | EmptyString => chars
  | _ => pending :: chars
  end.

(** [for item in v] *)
Definition py_iter (v : json) : outcome (list json) :=
  match v with
  | JList l => Ok l
  | JStr s => Ok (map JStr (utf8_chars s))
  | JDict d => Ok (map (fun kv => JStr (fst kv)) d)
  | _ => Raise (mkExn PyTypeError
                  ("'" ++ type_name v ++ "' object is not iterable"))
  end.

(** [v[0]].  A dict decoded from JSON has string keys only, so the integer
    key [0] is never found. *)
Definition py_index0 (v : json) : outcome json :=
  match v with
  | JList (x :: _) => Ok x
  | JList [] => Raise (mkExn PyIndexError "list index out of range")
  | JStr s =>
      match utf8_chars s with
      | c :: _ => Ok (JStr c)
      | [] => Raise (mkExn PyIndexError "string index out of range")
      end
  | JDict _ => Raise (mkExn PyKeyError "0")
  | _ => Raise (mkExn PyTypeError
                  ("'" ++ type_name v ++ "' object is not subscriptable"))
  end.

(** [l[:stop]] on a sequence: a negative [stop] counts from the end. *)
Definition slice_to {A : Type} (l : list A) (stop : option Z) : list A :=
  match stop with
  | None => l
  | Some k =>
      if k <? 0 then firstn (Z.to_nat (Z.of_nat (List.length l) + k)) l
      else firstn (Z.to_nat k) l
  end.

(** The stop index of a slice: [None], or an object with [__index__]. *)
Definition slice_index (stop : json) : outcome (option Z) :=
  match stop with
  | JNull => Ok None
  | JInt z => Ok (Some z)
  | JBool b => Ok (Some (Z.b2z b))
  | _ => Raise (mkExn PyTypeError
           "slice indices must be integers or None or have an __index__ method")
  end.

(** *** Dictionary keys

    A dict keyed by arbitrary values hashes the key and then matches it
    against a stored key by identity first, by [==] second.  Lists and dicts
    are unhashable; [None], strings and numbers are hashable, and numbers
    are equal when their values are ([True == 1 == 1.0]).  A NaN is hashable
    and [==] to nothing, itself included; but every NaN that [json.loads]
    decodes is one and the same object (the decoder's constant), and the
    values that become keys here all come from decoded upstream bodies, so
    a NaN key is found again by identity. *)

Inductive key : Type :=
| KNone
| KStr (s : string)
| KNum (m e : Z)
| KInf (negative : bool)
| KNan.

Fixpoint strip_twos (p : positive) : positive * Z :=
  match p with
  | xO q => let (r, k) := strip_twos q in (r, k + 1)
  | _ => (p, 0)
  end.

(** Canonical mantissa and exponent of [m * 2^e]: odd mantissa, or (0,0). *)
Definition canon (m e : Z) : key :=
  match m with
  | Z0 => KNum 0 0
  | Zpos p => let (r, k) := strip_twos p in KNum (Zpos r) (e + k)
  | Zneg p => let (r, k) := strip_twos p in KNum (Zneg r) (e + k)
  end.

Definition key_of (v : json) : option key :=
  match v with
  | JNull => Some KNone
  | JBool b => Some (canon (Z.b2z b) 0)
  | JInt z => Some (canon z 0)
  | JFloat (FFin m e) => Some (canon m e)
  | JFloat (FInf s) => Some (KInf s)
  | JFloat FNan => Some KNan
  | JStr s => Some (KStr s)
  | JList _ | JDict _ => None
  end.

Definition key_eqb (a b : key) : bool :=
  match a, b with
  | KNone, KNone => true
  | KStr s, KStr t => String.eqb s t
  | KNum m e, KNum m' e' => (m =? m') && (e =? e')
  | KInf s, KInf t => Bool.eqb s t
  | KNan, KNan => true
  | _, _ => false
  end.

(** [a is b or a == b] for two hashable values decoded from JSON: the test
    by which a dict lookup matches the key [b] against the stored key [a]. *)
Definition same_key (a b : json) : bool :=
  match key_of a, key_of b with
  | Some x, Some y => key_eqb x y
  | _, _ => false
  end.

Definition hashable (v : json) : bool :=
  match v with JList _ | JDict _ => false | _ => true end.

(** [hash(v)], needed before any dict operation with [v] as key. *)
Definition py_hash (v : json) : outcome unit :=
  if hashable v then Ok tt
  else Raise (mkExn PyTypeError ("unhashable type: '" ++ type_name v ++ "'")).

(** A dict with arbitrary hashable keys, in insertion order. *)
Definition kdict : Type := list (json * json).

Fixpoint kd_get (d : kdict) (k : json) : option json :=
  match d with
  | [] => None
  | (k', v) :: r => if same_key k' k then Some v else kd_get r k
  end.

Fixpoint kd_set (d : kdict) (k v : json) : kdict :=
  match d with
  | [] => [(k, v)]
  | (k', v') :: r =>
      if same_key k' k then (k', v) :: r else (k', v') :: kd_set r k v
  end.

End Py.
Export Py.

(* ===================================================================== *)
(** ** Effects: upstream requests and exceptions *)
(* ===================================================================== *)

Inductive http_method : Type := POST | GET.

(** What [client.post] / [client.get] is given. *)
Record request : Type := mkRequest {
  req_method : http_method;
  req_url : string;
  req_json : option json;
  req_headers : list (string * string);
  req_timeout : Z
}.

(** The outbound envelope, [types.TextContent(type=..., text=...)]. *)
Record TextContent : Type := mkTextContent { type : string; text : string }.

(** Exa endpoints *)
Definition EXA_SEARCH_ENDPOINT : string := "https://api.exa.ai/search".
Definition EXA_CONTENTS_ENDPOINT : string := "https://api.exa.ai/contents".
Definition EXA_FIND_SIMILAR_ENDPOINT : string := "https://api.exa.ai/findSimilar".
Definition EXA_ANSWER_ENDPOINT : string := "https://api.exa.ai/answer".
Definition EXA_RESEARCH_TASKS_ENDPOINT : string :=
  "https://api.exa.ai/research/v0/tasks".

(** U+2011, the non-breaking hyphen that some messages of [server.py] carry,
    as its three UTF-8 bytes. *)
Definition nb_hyphen : string :=
  String (ascii_of_nat 226) (String (ascii_of_nat 128)
    (String (ascii_of_nat 145) EmptyString)).

(** A catalog entry, [types.Tool(name=..., inputSchema=...)]: the name, the
    property names of the input schema and its required list.  Descriptions,
    property types and defaults are documentation only and are left out. *)
Record Tool : Type := mkTool {
  name : string;
  properties : list string;
  required : list string
}.

(** The catalog returned by [list_tools]. *)
Definition list_tools : list Tool :=
  [ mkTool "exa_web_search" ["query"; "num_results"; "include_text"] ["query"];
    mkTool "exa_fetch_content" ["url"] ["url"];
    mkTool "exa_fetch_contents" ["urls"; "livecrawl"] ["urls"];
    mkTool "exa_fetch_subpages"
      ["url"; "subpages"; "subpage_target"; "livecrawl"] ["url"];
    mkTool "exa_find_similar_links" ["url"; "include_text"; "num_results"]
      ["url"];
    mkTool "exa_answer_question" ["query"; "include_text"] ["query"];
    mkTool "exa_research_start" ["instructions"; "model"; "output_schema"]
      ["instructions"];
    mkTool "exa_research_poll" ["task_id"] ["task_id"] ].

Definition tool_names : list string := map name list_tools.

(** [needle in haystack] for strings. *)
Fixpoint mentions (needle haystack : string) : bool :=
  String.prefix needle haystack ||
  match haystack with
  | EmptyString => false
  | String _ r => mentions needle r
  end.

(* ===================================================================== *)
(** ** Test doubles

    Instances used to run the model on concrete inputs: an upstream that
    replays canned replies, and a plain serializer.  The development itself
    is parametric in both. *)
(* ===================================================================== *)

Module Sample.

(** The replies still to be served, in order. *)
Definition script : Type := list (outcome json).

Definition ConnectError : exn :=
  mkExn (PyOther "ConnectError") "All connection attempts failed".

(** Each request consumes the next canned reply. *)
Definition scripted (_ : request) (w : script) : outcome json * script :=
  match w with
  | [] => (Raise ConnectError, [])
  | r :: rest => (r, rest)
  end.

Definition quoted (s : string) : string :=
  String (ascii_of_nat 34) (s ++ String (ascii_of_nat 34) EmptyString).

Definition decimal (z : Z) : string := NilZero.string_of_int (Z.to_int z).

(** A compact one-line JSON text (no escaping, floats left symbolic). *)
Fixpoint dumps (j : json) : string :=
  match j with
  | JNull => "null"
  | JBool true => "true"
  | JBool false => "false"
  | JInt z => decimal z
  | JFloat _ => "<float>"
  | JStr s => quoted s
  | JList l => "[" ++ String.concat ", " (map dumps l) ++ "]"
  | JDict d =>
      "{" ++ String.concat ", "
               (map (fun kv => match kv with
                               | (k, v) => quoted k ++ ": " ++ dumps v
                               end) d) ++ "}"
  end.

Definition str_of (_ : json) : string := "<object>".

Definition slice_key_error (_ : json) : bool := false.

Definition slice_message (_ : json) : string := "unhashable type: 'slice'".

(** Canned upstream bodies. *)
Definition item_a : dict :=
  [("title", JStr "A"); ("url", JStr "https://a.com"); ("text", JStr "alpha")].
Definition item_b : dict :=
  [("title", JStr "B"); ("url", JStr "https://b.com");
   ("summary", JStr "bravo")].
Definition item_c : dict :=
  [("title", JStr "C"); ("url", JStr "https://c.com")].

Definition search_reply : json :=
  JDict [("results", JList [JDict item_a; JDict item_b; JDict item_c])].

Definition page_a : dict :=
  [("title", JStr "A"); ("url", JStr "https://a.com");
   ("text", JStr "FULL A")].

Definition only_a_reply : json := JDict [("results", JList [JDict page_a])].

Definition empty_reply : json := JDict [("results", JList [])].

(** A result whose url is an array, beside B; the record of B. *)
Definition item_x : dict :=
  [("title", JStr "X"); ("url", JList [JStr "x"])].

Definition page_b : dict :=
  [("title", JStr "B"); ("url", JStr "https://b.com");
   ("text", JStr "FULL B")].

Definition array_url_reply : json :=
  JDict [("results", JList [JDict item_x; JDict item_b])].

Definition only_b_reply : json := JDict [("results", JList [JDict page_b])].

(** Results without a usable url: none, and an empty one. *)
Definition item_no_url : dict := [("title", JStr "N")].
Definition item_empty_url : dict := [("title", JStr "E"); ("url", JStr "")].

Definition no_urls_reply : json :=
  JDict [("results", JList [JDict item_no_url; JDict item_empty_url])].

(** A page with two subpages, followed by a second result. *)
Definition sub_1 : dict :=
  [("title", JStr "S1"); ("url", JStr "https://root.com/1");
   ("text", JStr "one")].
Definition sub_2 : dict :=
  [("title", JStr "S2"); ("url", JStr "https://root.com/2")].

Definition root_page : dict :=
  [("title", JStr "Root"); ("url", JStr "https://root.com");
   ("text", JStr "root"); ("subpages", JList [JDict sub_1; JDict sub_2])].

Definition subpages_reply : json :=
  JDict [("results", JList [JDict root_page; JDict item_b])].

Definition bulk_failure : exn := mkExn (PyOther "HTTPStatusError") "bulk failure".

(** [asyncio.CancelledError()], whose text is empty. *)
Definition cancelled : exn := mkExn PyCancelledError "".

Definition not_found : exn := mkExn (PyOther "HTTPStatusError") "404 Not Found".

(** Argument bags. *)
Definition search_with_text : dict :=
  [("query", JStr "q"); ("include_text", JBool true)].

Definition subpages_empty_target : dict :=
  [("url", JStr "https://example.com"); ("subpage_target", JStr "")].

Definition subpages_bad_target : dict :=
  [("url", JStr "https://example.com"); ("subpage_target", JStr "not-a-list")].

End Sample.

Section Server.

(** The remote service together with the HTTP client: [post]/[get],
    [raise_for_status] and [response.json()] as one step. *)
Variable World : Type.
Variable upstream : request -> World -> outcome json * World.

(** The credential read from the environment at import time. *)
Variable EXA_API_KEY : string.

(** [json.dumps(_, indent=2)] of the standard library. *)
Variable json_dumps : json -> string.

(** [str(v)] for a value that is not a [str] (used by one f-string). *)
Variable py_str : json -> string.

(** [d[:stop]] on a dict [d] raises: a TypeError up to Python 3.11, where a
    slice is unhashable; from 3.12 on a KeyError, or a TypeError when [stop]
    is unhashable.  Which of the two, and the text, depend on the interpreter
    version. *)
Variable dict_slice_key_error : json -> bool.
Variable dict_slice_message : json -> string.

Definition dict_slice_error (stop : json) : exn :=
  mkExn (if dict_slice_key_error stop then PyKeyError else PyTypeError)
        (dict_slice_message stop).

Record state : Type := mkState { world : World; trace : list request }.

(** A computation: runs from a state, returns or raises, leaves a state. *)
Definition M (A : Type) : Type := state -> outcome A * state.

Definition ret {A : Type} (a : A) : M A := fun st => (Ok a, st).

Definition raise {A : Type} (e : exn) : M A := fun st => (Raise e, st).

Definition bind {A B : Type} (m : M A) (k : A -> M B) : M B :=
  fun st =>
    match m st with
    | (Ok a, st') => k a st'
    | (Raise e, st') => (Raise e, st')
    end.

(** [try: m  except Exception as e: h e]: an exception that is no
    [Exception] passes through the handler. *)
Definition catch {A : Type} (m : M A) (h : exn -> M A) : M A :=
  fun st =>
    match m st with
    | (Ok a, st') => (Ok a, st')
    | (Raise e, st') => if is_exception e then h e st' else (Raise e, st')
    end.

Definition lift {A : Type} (o : outcome A) : M A := fun st => (o, st).

Notation "x <- m ;; k" := (bind m (fun x => k))
  (at level 61, m at next level, right associativity).
Notation "m ;;; k" := (bind m (fun _ => k))
  (at level 61, right associativity).

(** [for x in l: out.append(f x)] *)
Fixpoint for_each {A : Type} (l : list json) (f : json -> M A) : M (list A) :=
  match l with
  | [] => ret []
  | x :: r => y <- f x ;; ys <- for_each r f ;; ret (y :: ys)
  end.

(** One upstream call; the request is recorded whatever the outcome. *)
Definition http (meth : http_method) (url : string) (body : option json)
    (headers : list (string * string)) (timeout : Z) : M json :=
  fun st =>
    let req := mkRequest meth url body headers timeout in
    let (r, w) := upstream req (world st) in
    (r, mkState w (trace st ++ [req])).

Definition Exception (msg : string) : exn := mkExn PyException msg.
Definition ValueError (msg : string) : exn := mkExn PyValueError msg.

(** [v[:stop]] *)
Definition py_slice (v stop : json) : outcome json :=
  match v with
  | JList l =>
      match slice_index stop with
      | Ok i => Ok (JList (slice_to l i))
      | Raise e => Raise e
      end
  | JStr s =>
      match slice_index stop with
      | Ok i => Ok (JStr (String.concat "" (slice_to (utf8_chars s) i)))
      | Raise e => Raise e
      end
  | JDict _ => Raise (dict_slice_error stop)
  | _ => Raise (mkExn PyTypeError
                  ("'" ++ type_name v ++ "' object is not subscriptable"))
  end.

(** [f"{v}"] *)
Definition py_format (v : json) : string :=
  match v with JStr s => s | _ => py_str v end.

(* --------------------------------------------------------------------- *)
(** *** Operation functions *)
(* --------------------------------------------------------------------- *)

(** [if not EXA_API_KEY: raise Exception(...)] *)
Definition check_api_key : M unit :=
  if String.eqb EXA_API_KEY "" then
    raise (Exception "EXA_API_KEY environment variable is not set")
  else ret tt.

Definition exa_web_search (query num_results : json) : M (list json) :=
  check_api_key ;;;
  let headers := [("x-api-key", EXA_API_KEY)] in
  let payload := JDict [("query", query); ("num_results", num_results);
                        ("text", JBool false)] in
  data <- http POST EXA_SEARCH_ENDPOINT (Some payload) headers 30 ;;
  found <- lift (py_get data "results" (JList [])) ;;
  sliced <- lift (py_slice found num_results) ;;
  items <- lift (py_iter sliced) ;;
  for_each items (fun item =>
    title <- lift (py_get item "title" JNull) ;;
    url <- lift (py_get item "url" JNull) ;;
    txt <- lift (py_get item "text" JNull) ;;
    snippet <- (if truthy txt then ret txt
                else summary <- lift (py_get item "summary" JNull) ;;
                     ret (py_or summary (JStr ""))) ;;
    ret (JDict [("title", title); ("url", url); ("snippet", snippet)])).

Definition exa_find_similar_links (url include_text num_results : json)
  : M (list json) :=
  check_api_key ;;;
  let headers := [("x-api-key", EXA_API_KEY)] in
  let payload := JDict [("url", url); ("text", include_text)] in
  data <- http POST EXA_FIND_SIMILAR_ENDPOINT (Some payload) headers 30 ;;
  found <- lift (py_get data "results" (JList [])) ;;
  sliced <- lift (py_slice found num_results) ;;
  items <- lift (py_iter sliced) ;;
  for_each items (fun item =>
    title <- lift (py_get item "title" JNull) ;;
    link <- lift (py_get item "url" JNull) ;;
    score <- lift (py_get item "score" JNull) ;;
    txt <- (if truthy include_text then
              t <- lift (py_get item "text" JNull) ;;
              if truthy t then ret t
              else summary <- lift (py_get item "summary" JNull) ;;
                   ret (py_or summary (JStr ""))
            else ret JNull) ;;
    ret (JDict [("title", title); ("url", link); ("score", score);
                ("text", txt)])).

Definition exa_answer_question (query include_text : json) : M json :=
  check_api_key ;;;
  let headers := [("x-api-key", EXA_API_KEY)] in
  let payload := JDict [("query", query); ("text", include_text)] in
  data <- http POST EXA_ANSWER_ENDPOINT (Some payload) headers 30 ;;
  ret data.

Definition exa_research_start (instructions model output_schema : json)
  : M json :=
  check_api_key ;;;
  let headers := [("x-api-key", EXA_API_KEY);
                  ("Content-Type", "application/json")] in
  let payload := [("instructions", instructions)] in
  let payload := if truthy model then dict_set payload "model" model
                 else payload in
  let payload := if truthy output_schema
                 then dict_set payload "output"
                        (JDict [("schema", output_schema)])
                 else payload in
  data <- http POST EXA_RESEARCH_TASKS_ENDPOINT (Some (JDict payload))
            headers 30 ;;
  ret data.

Definition exa_research_poll (task_id : json) : M json :=
  check_api_key ;;;
  let headers := [("x-api-key", EXA_API_KEY)] in
  let url := EXA_RESEARCH_TASKS_ENDPOINT ++ "/" ++ py_format task_id in
  data <- http GET url None headers 30 ;;
  ret data.

(** The [{title, url, text}] record built from an upstream item. *)
Definition content_record (item : json) : M json :=
  title <- lift (py_get item "title" JNull) ;;
  url <- lift (py_get item "url" JNull) ;;
  txt <- lift (py_get item "text" JNull) ;;
  ret (JDict [("title", title); ("url", url); ("text", txt)]).

Definition exa_fetch_content (url : json) : M json :=
  check_api_key ;;;
  let headers := [("x-api-key", EXA_API_KEY)] in
  let payload := JDict [("urls", JList [url]); ("text", JBool true)] in
  data <- http POST EXA_CONTENTS_ENDPOINT (Some payload) headers 30 ;;
  results <- lift (py_get data "results" (JList [])) ;;
  if negb (truthy results) then
    raise (Exception "No content returned from Exa for the given URL")
  else
    result <- lift (py_index0 results) ;;
    content_record result.

Definition exa_fetch_contents (urls livecrawl : json) : M (list json) :=
  check_api_key ;;;
  if negb (truthy urls) then
    raise (Exception ("Argument 'urls' must be a non" ++ nb_hyphen
                      ++ "empty list of URLs"))
  else
    let headers := [("x-api-key", EXA_API_KEY)] in
    let payload := [("urls", urls); ("text", JBool true)] in
    let payload := if truthy livecrawl
                   then dict_set payload "livecrawl" livecrawl
                   else payload in
    data <- http POST EXA_CONTENTS_ENDPOINT (Some (JDict payload))
              headers 60 ;;
    found <- lift (py_get data "results" (JList [])) ;;
    items <- lift (py_iter found) ;;
    for_each items content_record.

Definition exa_fetch_subpages (url subpages subpage_target livecrawl : json)
  : M json :=
  check_api_key ;;;
  let headers := [("x-api-key", EXA_API_KEY)] in
  let payload := [("urls", JList [url]); ("text", JBool true);
                  ("subpages", subpages)] in
  let payload := if truthy subpage_target
                 then dict_set payload "subpage_target" subpage_target
                 else payload in
  let payload := if truthy livecrawl
                 then dict_set payload "livecrawl" livecrawl
                 else payload in
  data <- http POST EXA_CONTENTS_ENDPOINT (Some (JDict payload)) headers 60 ;;
  results <- lift (py_get data "results" (JList [])) ;;
  if negb (truthy results) then
    raise (Exception "No content returned from Exa for the given URL")
  else
    result <- lift (py_index0 results) ;;
    page <- content_record result ;;
    nested <- lift (py_get result "subpages" (JList [])) ;;
    subs <- lift (py_iter nested) ;;
    subpages_results <- for_each subs content_record ;;
    ret (JDict [("page", page); ("subpages", JList subpages_results)]).

(* --------------------------------------------------------------------- *)
(** *** The dispatcher registered by [build_mcp_server] *)
(* --------------------------------------------------------------------- *)

Definition text_content (s : string) : TextContent := mkTextContent "text" s.

(** [[item.get("url") for item in results if item.get("url")]] *)
Fixpoint truthy_urls (results : list json) : M (list json) :=
  match results with
  | [] => ret []
  | item :: r =>
      c <- lift (py_get item "url" JNull) ;;
      if truthy c then
        u <- lift (py_get item "url" JNull) ;;
        us <- truthy_urls r ;;
        ret (u :: us)
      else truthy_urls r
  end.

(** [{item.get("url"): item for item in contents}], continuing from [acc] *)
Fixpoint url_index (contents : list json) (acc : kdict) : M kdict :=
  match contents with
  | [] => ret acc
  | item :: r =>
      k <- lift (py_get item "url" JNull) ;;
      lift (py_hash k) ;;;
      url_index r (kd_set acc k item)
  end.

(** [url_to_content.get(page_url, item)] once the key is hashed *)
Definition lookup_or (url_to_content : kdict) (page_url item : json) : json :=
  match kd_get url_to_content page_url with Some c => c | None => item end.

(** Body of the inner [try] (lines 692-698). *)
Definition enrich_bulk (results urls : list json) : M (list json) :=
  contents <- exa_fetch_contents (JList urls) JNull ;;
  url_to_content <- url_index contents [] ;;
  for_each results (fun item =>
    page_url <- lift (py_get item "url" JNull) ;;
    lift (py_hash page_url) ;;;
    ret (lookup_or url_to_content page_url item)).

(** Body of the inner [except Exception] (lines 700-707). *)
Definition enrich_per_url (results : list json) : M (list json) :=
  for_each results (fun item =>
    catch (u <- lift (py_get item "url" JNull) ;; exa_fetch_content u)
          (fun _ => ret item)).

(** The [try] block of [call_tool] (lines 682-763). *)
Definition call_tool_body (name : string) (arguments : dict)
  : M (list TextContent) :=
  if String.eqb name "exa_web_search" then
    let query := get_or arguments "query" JNull in
    if negb (truthy query) then
      raise (ValueError "Argument 'query' is required")
    else
      let num_results := get_or arguments "num_results" (JInt 3) in
      let include_text := get_or arguments "include_text" (JBool false) in
      results <- exa_web_search query num_results ;;
      results <- (if truthy include_text then
                    urls <- truthy_urls results ;;
                    catch (enrich_bulk results urls)
                          (fun _ => enrich_per_url results)
                  else ret results) ;;
      ret [text_content (json_dumps (JList results))]
  else if String.eqb name "exa_fetch_content" then
    let url := get_or arguments "url" JNull in
    if negb (truthy url) then
      raise (ValueError "Argument 'url' is required")
    else
      result <- exa_fetch_content url ;;
      ret [text_content (json_dumps result)]
  else if String.eqb name "exa_find_similar_links" then
    let url := get_or arguments "url" JNull in
    if negb (truthy url) then
      raise (ValueError "Argument 'url' is required")
    else
      let include_text := get_or arguments "include_text" (JBool false) in
      let num_results := get_or arguments "num_results" (JInt 3) in
      results <- exa_find_similar_links url include_text num_results ;;
      ret [text_content (json_dumps (JList results))]
  else if String.eqb name "exa_fetch_contents" then
    let urls := get_or arguments "urls" JNull in
    if negb (truthy urls) || negb (is_list urls) then
      raise (ValueError "Argument 'urls' must be a non-empty list")
    else
      let livecrawl := get_or arguments "livecrawl" JNull in
      results <- exa_fetch_contents urls livecrawl ;;
      ret [text_content (json_dumps (JList results))]
  else if String.eqb name "exa_fetch_subpages" then
    let url := get_or arguments "url" JNull in
    if negb (truthy url) then
      raise (ValueError "Argument 'url' is required")
    else
      let subpages := get_or arguments "subpages" (JInt 5) in
      let subpage_target := get_or arguments "subpage_target" JNull in
      if truthy subpage_target && negb (is_list subpage_target) then
        raise (ValueError
          "Argument 'subpage_target' must be an array of strings if provided")
      else
        let livecrawl := get_or arguments "livecrawl" JNull in
        result <- exa_fetch_subpages url subpages subpage_target livecrawl ;;
        ret [text_content (json_dumps result)]
  else if String.eqb name "exa_answer_question" then
    let query := get_or arguments "query" JNull in
    if negb (truthy query) then
      raise (ValueError "Argument 'query' is required")
    else
      let include_text := get_or arguments "include_text" (JBool false) in
      result <- exa_answer_question query include_text ;;
      ret [text_content (json_dumps result)]
  else if String.eqb name "exa_research_start" then
    let instructions := get_or arguments "instructions" JNull in
    if negb (truthy instructions) then
      raise (ValueError "Argument 'instructions' is required")
    else
      let model := get_or arguments "model" JNull in
      let output_schema := get_or arguments "output_schema" JNull in
      result <- exa_research_start instructions model output_schema ;;
      ret [text_content (json_dumps result)]
  else if String.eqb name "exa_research_poll" then
    let task_id := get_or arguments "task_id" JNull in
    if negb (truthy task_id) then
      raise (ValueError "Argument 'task_id' is required")
    else
      result <- exa_research_poll task_id ;;
      ret [text_content (json_dumps result)]
  else
    ret [text_content ("Error: Unknown tool '" ++ name ++ "'")].

(** [call_tool]: the body under [except Exception as e] (lines 764-766). *)
Definition call_tool (name : string) (arguments : dict)
  : M (list TextContent) :=
  catch (call_tool_body name arguments)
        (fun e => ret [text_content ("Error: " ++ exn_str e)]).

(* --------------------------------------------------------------------- *)
(** *** The legacy dispatcher defined inline in [main] *)
(* --------------------------------------------------------------------- *)

(** The [try] block of the legacy [call_tool] (lines 1027-1205), branch by
    branch as written there, the two repeated [elif]s included. *)
Definition legacy_call_tool_body (name : string) (arguments : dict)
  : M (list TextContent) :=
  if String.eqb name "exa_web_search" then
    let query := get_or arguments "query" JNull in
    if negb (truthy query) then
      raise (ValueError "Argument 'query' is required")
    else
      let num_results := get_or arguments "num_results" (JInt 3) in
      let include_text := get_or arguments "include_text" (JBool false) in
      results <- exa_web_search query num_results ;;
      results <- (if truthy include_text then
                    urls <- truthy_urls results ;;
                    catch (contents <- exa_fetch_contents (JList urls) JNull ;;
                           url_to_content <- url_index contents [] ;;
                           for_each results (fun item =>
                             page_url <- lift (py_get item "url" JNull) ;;
                             lift (py_hash page_url) ;;;
                             ret (lookup_or url_to_content page_url item)))
                          (fun _ =>
                           for_each results (fun item =>
                             catch (u <- lift (py_get item "url" JNull) ;;
                                    exa_fetch_content u)
                                   (fun _ => ret item)))
                  else ret results) ;;
      ret [text_content (json_dumps (JList results))]
  else if String.eqb name "exa_fetch_content" then
    let url := get_or arguments "url" JNull in
    if negb (truthy url) then
      raise (ValueError "Argument 'url' is required")
    else
      result <- exa_fetch_content url ;;
      ret [text_content (json_dumps result)]
  else if String.eqb name "exa_find_similar_links" then
    let url := get_or arguments "url" JNull in
    if negb (truthy url) then
      raise (ValueError "Argument 'url' is required")
    else
      let include_text := get_or arguments "include_text" (JBool false) in
      let num_results := get_or arguments "num_results" (JInt 3) in
      results <- exa_find_similar_links url include_text num_results ;;
      ret [text_content (json_dumps (JList results))]
  else if String.eqb name "exa_fetch_contents" then
    let urls := get_or arguments "urls" JNull in
    if negb (truthy urls) || negb (is_list urls) then
      raise (ValueError ("Argument 'urls' must be a non" ++ nb_hyphen
                         ++ "empty list"))
    else
      let livecrawl := get_or arguments "livecrawl" JNull in
      results <- exa_fetch_contents urls livecrawl ;;
      ret [text_content (json_dumps (JList results))]
  else if String.eqb name "exa_fetch_subpages" then
    let url := get_or arguments "url" JNull in
    if negb (truthy url) then
      raise (ValueError "Argument 'url' is required")
    else
      let subpages := get_or arguments "subpages" (JInt 5) in
      let subpage_target := get_or arguments "subpage_target" JNull in
      if truthy subpage_target && negb (is_list subpage_target) then
        raise (ValueError
          "Argument 'subpage_target' must be an array of strings if provided")
      else
        let livecrawl := get_or arguments "livecrawl" JNull in
        result <- exa_fetch_subpages url subpages subpage_target livecrawl ;;
        ret [text_content (json_dumps result)]
  else if String.eqb name "exa_fetch_contents" then
    let urls := get_or arguments "urls" JNull in
    if negb (truthy urls) || negb (is_list urls) then
      raise (ValueError ("Argument 'urls' must be a non" ++ nb_hyphen
                         ++ "empty list"))
    else
      let livecrawl := get_or arguments "livecrawl" JNull in
      results <- exa_fetch_contents urls livecrawl ;;
      ret [text_content (json_dumps (JList results))]
  else if String.eqb name "exa_fetch_subpages" then
    let url := get_or arguments "url" JNull in
    if negb (truthy url) then
      raise (ValueError "Argument 'url' is required")
    else
      let subpages := get_or arguments "subpages" (JInt 5) in
      let subpage_target := get_or arguments "subpage_target" JNull in
      if truthy subpage_target && negb (is_list subpage_target) then
        raise (ValueError
          "Argument 'subpage_target' must be an array of strings if provided")
      else
        let livecrawl := get_or arguments "livecrawl" JNull in
        result <- exa_fetch_subpages url subpages subpage_target livecrawl ;;
        ret [text_content (json_dumps result)]
  else if String.eqb name "exa_answer_question" then
    let query := get_or arguments "query" JNull in
    if negb (truthy query) then
      raise (ValueError "Argument 'query' is required")
    else
      let include_text := get_or arguments "include_text" (JBool false) in
      result <- exa_answer_question query include_text ;;
      ret [text_content (json_dumps result)]
  else if String.eqb name "exa_research_start" then
    let instructions := get_or arguments "instructions" JNull in
    if negb (truthy instructions) then
      raise (ValueError "Argument 'instructions' is required")
    else
      let model := get_or arguments "model" JNull in
      let output_schema := get_or arguments "output_schema" JNull in
      result <- exa_research_start instructions model output_schema ;;
      ret [text_content (json_dumps result)]
  else if String.eqb name "exa_research_poll" then
    let task_id := get_or arguments "task_id" JNull in
    if negb (truthy task_id) then
      raise (ValueError "Argument 'task_id' is required")
    else
      result <- exa_research_poll task_id ;;
      ret [text_content (json_dumps result)]
  else
    ret [text_content ("Error: Unknown tool '" ++ name ++ "'")].

(** The legacy [call_tool] (lines 1206-1213). *)
Definition legacy_call_tool (name : string) (arguments : dict)
  : M (list TextContent) :=
  catch (legacy_call_tool_body name arguments)
        (fun e => ret [text_content ("Error: " ++ exn_str e)]).

(* --------------------------------------------------------------------- *)
(** *** Vocabulary of the statements *)
(* --------------------------------------------------------------------- *)

(** The [url] field of a search stub or of a fetched record. *)
Definition url_of (item : json) : json :=
  match item with JDict d => get_or d "url" JNull | _ => JNull end.

(** The urls handed to the bulk fetch: the non-empty ones, in stub order. *)
Definition bulk_urls (results : list json) : list json :=
  filter truthy (map url_of results).

(** The lookup from url to fetched record built from a bulk reply; a later
    record replaces an earlier one that has the same url. *)
Definition url_lookup (contents : list json) : kdict :=
  fold_left (fun acc c => kd_set acc (url_of c) c) contents [].

(** The snippet as the specification words it: the item's text, falling back
    to its summary, falling back to the empty string. *)
Definition summary_or_empty (d : dict) : json :=
  match dict_get d "summary" with
  | Some s => if truthy s then s else JStr ""
  | None => JStr ""
  end.

Definition text_or_summary (d : dict) : json :=
  match dict_get d "text" with
  | Some t => if truthy t then t else summary_or_empty d
  | None => summary_or_empty d
  end.

(** The normalized shapes of the specification. *)
Definition search_stub (d : dict) : json :=
  JDict [("title", get_or d "title" JNull); ("url", get_or d "url" JNull);
         ("snippet", text_or_summary d)].

Definition similar_link (include_text : json) (d : dict) : json :=
  JDict [("title", get_or d "title" JNull); ("url", get_or d "url" JNull);
         ("score", get_or d "score" JNull);
         ("text", if truthy include_text then text_or_summary d else JNull)].

(** The first [min(k, number of items)] items. *)
Definition first_items {A : Type} (k : Z) (l : list A) : list A :=
  firstn (Z.to_nat (Z.min k (Z.of_nat (List.length l)))) l.

Definition keys_of (v : json) : list string :=
  match v with JDict d => map fst d | _ => [] end.

(** The value stored under a key of a normalized shape. *)
Definition field (v : json) (k : string) : option json :=
  match v with JDict d => dict_get d k | _ => None end.

Definition is_stub (v : json) : Prop :=
  exists title url snippet,
    v = JDict [("title", title); ("url", url); ("snippet", snippet)].

Definition is_record (v : json) : Prop :=
  exists title url txt,
    v = JDict [("title", title); ("url", url); ("text", txt)].

(** What enrichment may leave in a stub's position. *)
Definition stub_or_record (stub out : json) : Prop :=
  out = stub \/ is_record out.

(** The request that [exa_fetch_content] issues for one url. *)
Definition fetch_content_request (url : json) : request :=
  mkRequest POST EXA_CONTENTS_ENDPOINT
    (Some (JDict [("urls", JList [url]); ("text", JBool true)]))
    [("x-api-key", EXA_API_KEY)] 30.

(** The per-url fallback as the specification words it: one fetch-one call
    per stub, in order; a fetched record takes the stub's place, a failed
    fetch (an [Exception]) leaves the stub. *)
Inductive per_url_fallback : list json -> state -> list json -> state -> Prop :=
| fallback_done : forall st, per_url_fallback [] st [] st
| fallback_fetched : forall stub rest st content st1 out st2,
    exa_fetch_content (url_of stub) st = (Ok content, st1) ->
    per_url_fallback rest st1 out st2 ->
    per_url_fallback (stub :: rest) st (content :: out) st2
| fallback_kept : forall stub rest st e st1 out st2,
    exa_fetch_content (url_of stub) st = (Raise e, st1) ->
    is_exception e = true ->
    per_url_fallback rest st1 out st2 ->
    per_url_fallback (stub :: rest) st (stub :: out) st2.

(** What the bulk path puts in a stub's position. *)
Definition merged (contents : list json) (stub out : json) : Prop :=
  (exists c, In c contents /\ same_key (url_of c) (url_of stub) = true /\
             kd_get (url_lookup contents) (url_of stub) = Some c /\ out = c)
  \/
  ((forall c, In c contents -> same_key (url_of c) (url_of stub) = false) /\
   out = stub).

(** An exception that the upstream call raised for some request. *)
Definition from_upstream (e : exn) : Prop :=
  exists req w w', upstream req w = (Raise e, w').

(** Sent in this order from the world [w], none of the requests is answered
    by an exception outside [Exception]: no call is cancelled or
    interrupted. *)
Fixpoint uninterrupted (reqs : list request) (w : World) : bool :=
  match reqs with
  | [] => true
  | req :: rest =>
      match upstream req w with
      | (Ok _, w') => uninterrupted rest w'
      | (Raise e, w') => is_exception e && uninterrupted rest w'
      end
  end.

(** A computation that raises nothing but [Exception]s and exceptions of
    the kind [P]. *)
Definition raises_only (P : exn -> Prop) {A : Type} (m : M A) : Prop :=
  forall st e st', m st = (Raise e, st') -> is_exception e = true \/ P e.

(** A computation that raises nothing but [Exception]s of its own and what
    the upstream call raised. *)
Definition guarded {A : Type} (m : M A) : Prop := raises_only from_upstream m.

(** An outcome that is no exception outside [Exception]. *)
Definition caught {A : Type} (o : outcome A) : Prop :=
  forall e, o = Raise e -> is_exception e = true.

(** What a lookup built from records seen so far guarantees. *)
Definition lookup_sound (d : kdict) (seen : json -> Prop) : Prop :=
  (forall k v, In (k, v) d ->
      seen v /\ forall u, same_key k u = true -> same_key (url_of v) u = true) /\
  (forall c u, seen c -> same_key (url_of c) u = true -> kd_get d u <> None).

(* --------------------------------------------------------------------- *)
(** *** Vocabulary of the further properties *)
(* --------------------------------------------------------------------- *)

(** A computation that leaves the state as it found it. *)
Definition stateless {A : Type} (m : M A) : Prop :=
  forall st r st', m st = (r, st') -> st' = st.

(** Between two states exactly one request was issued: by this method, to
    this url, within this timeout, carrying the credential header. *)
Definition one_request (st st' : state) (meth : http_method) (url : string)
    (timeout : Z) : Prop :=
  exists req,
    trace st' = (trace st ++ [req])%list /\
    req_method req = meth /\ req_url req = url /\ req_timeout req = timeout /\
    In ("x-api-key", EXA_API_KEY) (req_headers req).

(** The [{title, url, text}] record of an upstream object. *)
Definition content_of (d : dict) : json :=
  JDict [("title", get_or d "title" JNull); ("url", get_or d "url" JNull);
         ("text", get_or d "text" JNull)].

(** A snippet or text field that was filled in: never null. *)
Definition filled (v : json) : Prop := truthy v = true \/ v = JStr "".

(** The checks that [call_tool] makes on the arguments of a catalog tool
    before it calls the operation function: every required property is
    truthy, [urls] is a list, [subpage_target] is a list when truthy. *)
Definition passes_validation (t : Tool) (arguments : dict) : bool :=
  forallb (fun p => truthy (get_or arguments p JNull)) (required t)
  && (if String.eqb (name t) "exa_fetch_contents"
      then is_list (get_or arguments "urls" JNull) else true)
  && (if String.eqb (name t) "exa_fetch_subpages"
      then negb (truthy (get_or arguments "subpage_target" JNull)
                 && negb (is_list (get_or arguments "subpage_target" JNull)))
      else true).

(** The optional arguments of the tools with the value that [call_tool]
    takes when the argument is missing ([arguments.get(key, default)]). *)
Definition argument_defaults : list (string * (string * json)) :=
  [ ("exa_web_search", ("num_results", JInt 3));
    ("exa_web_search", ("include_text", JBool false));
    ("exa_find_similar_links", ("include_text", JBool false));
    ("exa_find_similar_links", ("num_results", JInt 3));
    ("exa_fetch_contents", ("livecrawl", JNull));
    ("exa_fetch_subpages", ("subpages", JInt 5));
    ("exa_fetch_subpages", ("subpage_target", JNull));
    ("exa_fetch_subpages", ("livecrawl", JNull));
    ("exa_answer_question", ("include_text", JBool false));
    ("exa_research_start", ("model", JNull));
    ("exa_research_start", ("output_schema", JNull)) ].

(* ===================================================================== *)
(** ** Properties *)
(* ===================================================================== *)

Ltac run :=
  unfold bind, ret, lift, raise, catch in *; cbn beta iota in *.

Lemma bind_ok : forall {A B : Type} (m : M A) (k : A -> M B) st a st',
  m st = (Ok a, st') -> bind m k st = k a st'.
Proof. intros A B m k st a st' H. unfold bind. rewrite H. reflexivity. Qed.

Lemma bind_raise : forall {A B : Type} (m : M A) (k : A -> M B) st e st',
  m st = (Raise e, st') -> bind m k st = (Raise e, st').
Proof. intros A B m k st e st' H. unfold bind. rewrite H. reflexivity. Qed.

Lemma bind_inv_ok : forall {A B : Type} (m : M A) (k : A -> M B) st b st',
  bind m k st = (Ok b, st') ->
  exists a st1, m st = (Ok a, st1) /\ k a st1 = (Ok b, st').
Proof.
  intros A B m k st b st' H. unfold bind in H.
  destruct (m st) as [[a | e] st1].
  - exists a, st1. split; [reflexivity | exact H].
  - discriminate H.
Qed.

Lemma catch_ok : forall {A : Type} (m : M A) h st a st',
  m st = (Ok a, st') -> catch m h st = (Ok a, st').
Proof. intros A m h st a st' H. unfold catch. rewrite H. reflexivity. Qed.

Lemma catch_raise : forall {A : Type} (m : M A) h st e st',
  m st = (Raise e, st') -> is_exception e = true -> catch m h st = h e st'.
Proof.
  intros A m h st e st' H He. unfold catch. rewrite H, He. reflexivity.
Qed.

Lemma catch_pass : forall {A : Type} (m : M A) h st e st',
  m st = (Raise e, st') -> is_exception e = false ->
  catch m h st = (Raise e, st').
Proof.
  intros A m h st e st' H He. unfold catch. rewrite H, He. reflexivity.
Qed.

Lemma check_api_key_missing : forall st,
  EXA_API_KEY = "" ->
  check_api_key st =
    (Raise (Exception "EXA_API_KEY environment variable is not set"), st).
Proof. intros st H. unfold check_api_key. rewrite H. reflexivity. Qed.

Lemma check_api_key_present : forall st,
  EXA_API_KEY <> "" -> check_api_key st = (Ok tt, st).
Proof.
  intros st H. unfold check_api_key.
  destruct (String.eqb_spec EXA_API_KEY "") as [E | E];
    [contradiction | reflexivity].
Qed.

(** C4: with an empty credential every operation function raises the
    missing-credential error, whose text names EXA_API_KEY, whatever its
    arguments are (also arguments that its own validation would reject), and
    leaves the state as it was: no request reaches the trace. *)
Theorem credential_checked_first :
  EXA_API_KEY = "" ->
  forall st,
    let missing := Exception "EXA_API_KEY environment variable is not set" in
    mentions "EXA_API_KEY" (exn_str missing) = true /\
    (forall query num_results,
        exa_web_search query num_results st = (Raise missing, st)) /\
    (forall url, exa_fetch_content url st = (Raise missing, st)) /\
    (forall urls livecrawl,
        exa_fetch_contents urls livecrawl st = (Raise missing, st)) /\
    (forall url subpages subpage_target livecrawl,
        exa_fetch_subpages url subpages subpage_target livecrawl st
        = (Raise missing, st)) /\
    (forall url include_text num_results,
        exa_find_similar_links url include_text num_results st
        = (Raise missing, st)) /\
    (forall query include_text,
        exa_answer_question query include_text st = (Raise missing, st)) /\
    (forall instructions model output_schema,
        exa_research_start instructions model output_schema st
        = (Raise missing, st)) /\
    (forall task_id, exa_research_poll task_id st = (Raise missing, st)).
Proof.
  intros Hkey st missing.
  pose proof (check_api_key_missing st Hkey) as Hc.
  split; [reflexivity |].
  repeat split; intros;
    match goal with
    | |- ?f = _ => apply (bind_raise check_api_key _ st _ st Hc)
    end.
Qed.

Lemma ends_in_text : forall {A : Type} (m : M A) (f : A -> string) st l st',
  bind m (fun a => ret [text_content (f a)]) st = (Ok l, st') ->
  exists s, l = [text_content s].
Proof.
  intros A m f st l st' H.
  apply bind_inv_ok in H. destruct H as (a & st1 & _ & H).
  unfold ret in H. inversion H. eauto.
Qed.

Ltac guard_cases H :=
  repeat match type of H with
         | (if ?c then _ else _) _ = _ => destruct c
         end.

Lemma call_tool_body_single : forall name arguments st l st',
  call_tool_body name arguments st = (Ok l, st') ->
  exists s, l = [text_content s].
Proof.
  intros name arguments st l st' H. unfold call_tool_body in H.
  guard_cases H; try discriminate H;
    first [ eapply ends_in_text; exact H
          | apply bind_inv_ok in H; destruct H as (r & st1 & _ & H);
            eapply ends_in_text; exact H
          | unfold ret in H; inversion H; eauto ].
Qed.

(* --------------------------------------------------------------------- *)
(** *** Which exceptions can be raised *)
(* --------------------------------------------------------------------- *)

Lemma raises_only_ret : forall P {A : Type} (a : A), raises_only P (ret a).
Proof. intros P A a st e st' H. discriminate H. Qed.

Lemma raises_only_raise : forall P {A : Type} (e : exn),
  is_exception e = true -> raises_only P (@raise A e).
Proof. intros P A e He st e' st' H. inversion H; subst. left. exact He. Qed.

Lemma raises_only_lift : forall P {A : Type} (o : outcome A),
  caught o -> raises_only P (lift o).
Proof.
  intros P A o Ho st e st' H. unfold lift in H. inversion H; subst.
  left. apply Ho. reflexivity.
Qed.

Lemma raises_only_bind : forall P {A B : Type} (m : M A) (k : A -> M B),
  raises_only P m -> (forall a, raises_only P (k a)) ->
  raises_only P (bind m k).
Proof.
  intros P A B m k Hm Hk st e st' H. unfold bind in H.
  destruct (m st) as [[a | e0] st1] eqn:E.
  - eapply Hk. exact H.
  - inversion H; subst. eapply Hm. exact E.
Qed.

Lemma raises_only_catch : forall P {A : Type} (m : M A) (h : exn -> M A),
  raises_only P m -> (forall e, raises_only P (h e)) ->
  raises_only P (catch m h).
Proof.
  intros P A m h Hm Hh st e st' H. unfold catch in H.
  destruct (m st) as [[a | e0] st1] eqn:E; [discriminate H |].
  destruct (is_exception e0) eqn:He.
  - eapply Hh. exact H.
  - inversion H; subst. eapply Hm. exact E.
Qed.

Lemma raises_only_for_each : forall P {A : Type} (f : json -> M A) l,
  (forall x, raises_only P (f x)) -> raises_only P (for_each l f).
Proof.
  intros P A f l Hf. induction l as [| x r IH]; cbn [for_each].
  - apply raises_only_ret.
  - apply raises_only_bind; [apply Hf |]. intros y.
    apply raises_only_bind; [exact IH |]. intros ys. apply raises_only_ret.
Qed.

Lemma http_guarded : forall meth url body headers timeout,
  raises_only from_upstream (http meth url body headers timeout).
Proof.
  intros meth url body headers timeout st e st' H. unfold http in H.
  destruct (upstream (mkRequest meth url body headers timeout) (world st))
    as [[data | e0] w] eqn:E; inversion H; subst.
  right. exists (mkRequest meth url body headers timeout), (world st), w.
  exact E.
Qed.

Lemma py_get_caught : forall v k default, caught (py_get v k default).
Proof. intros v k default e H. destruct v; inversion H; reflexivity. Qed.

Lemma py_iter_caught : forall v, caught (py_iter v).
Proof. intros v e H. destruct v; inversion H; reflexivity. Qed.

Lemma py_index0_caught : forall v, caught (py_index0 v).
Proof.
  intros v e H. destruct v as [| | | | s | [| x l] |]; cbn [py_index0] in H;
    try (inversion H; reflexivity).
  destruct (utf8_chars s); inversion H; reflexivity.
Qed.

Lemma slice_index_caught : forall stop, caught (slice_index stop).
Proof. intros stop e H. destruct stop; inversion H; reflexivity. Qed.

Lemma py_slice_caught : forall v stop, caught (py_slice v stop).
Proof.
  intros v stop e H. destruct v; cbn [py_slice] in H;
    try (inversion H; reflexivity).
  - destruct (slice_index stop) as [i | e0] eqn:E; inversion H; subst.
    exact (slice_index_caught _ _ E).
  - destruct (slice_index stop) as [i | e0] eqn:E; inversion H; subst.
    exact (slice_index_caught _ _ E).
  - inversion H. unfold dict_slice_error, is_exception. cbn [exn_cls].
    destruct (dict_slice_key_error stop); reflexivity.
Qed.

Lemma py_hash_caught : forall v, caught (py_hash v).
Proof.
  intros v e H. unfold py_hash in H.
  destruct (hashable v); inversion H; reflexivity.
Qed.

Ltac raises_only_steps :=
  repeat first
    [ apply raises_only_ret
    | apply raises_only_raise; reflexivity
    | apply http_guarded
    | apply raises_only_lift;
      first [ apply py_get_caught | apply py_iter_caught
            | apply py_index0_caught | apply py_slice_caught
            | apply py_hash_caught ]
    | apply raises_only_for_each; intros
    | apply raises_only_bind; [| intros]
    | apply raises_only_catch; [| intros]
    | match goal with
      | |- raises_only _ (if ?c then _ else _) => destruct c
      end
    | progress unfold content_record, check_api_key ].

Lemma exa_web_search_guarded : forall query num_results,
  guarded (exa_web_search query num_results).
Proof. intros. unfold guarded, exa_web_search. cbv zeta. raises_only_steps. Qed.

Lemma exa_find_similar_links_guarded : forall url include_text num_results,
  guarded (exa_find_similar_links url include_text num_results).
Proof.
  intros. unfold guarded, exa_find_similar_links. cbv zeta. raises_only_steps.
Qed.

Lemma exa_answer_question_guarded : forall query include_text,
  guarded (exa_answer_question query include_text).
Proof.
  intros. unfold guarded, exa_answer_question. cbv zeta. raises_only_steps.
Qed.

Lemma exa_research_start_guarded : forall instructions model output_schema,
  guarded (exa_research_start instructions model output_schema).
Proof.
  intros. unfold guarded, exa_research_start. cbv zeta. raises_only_steps.
Qed.

Lemma exa_research_poll_guarded : forall task_id,
  guarded (exa_research_poll task_id).
Proof.
  intros. unfold guarded, exa_research_poll. cbv zeta. raises_only_steps.
Qed.

Lemma exa_fetch_content_guarded : forall url, guarded (exa_fetch_content url).
Proof.
  intros. unfold guarded, exa_fetch_content. cbv zeta. raises_only_steps.
Qed.

Lemma exa_fetch_contents_guarded : forall urls livecrawl,
  guarded (exa_fetch_contents urls livecrawl).
Proof.
  intros. unfold guarded, exa_fetch_contents. cbv zeta. raises_only_steps.
Qed.

Lemma exa_fetch_subpages_guarded :
  forall url subpages subpage_target livecrawl,
  guarded (exa_fetch_subpages url subpages subpage_target livecrawl).
Proof.
  intros. unfold guarded, exa_fetch_subpages. cbv zeta. raises_only_steps.
Qed.

Lemma truthy_urls_guarded : forall results, guarded (truthy_urls results).
Proof.
  intros results. unfold guarded.
  induction results as [| item r IH]; cbn [truthy_urls].
  - apply raises_only_ret.
  - apply raises_only_bind;
      [apply raises_only_lift; apply py_get_caught |].
    intros c. destruct (truthy c); [| exact IH].
    apply raises_only_bind;
      [apply raises_only_lift; apply py_get_caught |].
    intros u. apply raises_only_bind; [exact IH |].
    intros us. apply raises_only_ret.
Qed.

Lemma url_index_guarded : forall contents acc, guarded (url_index contents acc).
Proof.
  intros contents. unfold guarded.
  induction contents as [| item r IH]; intros acc; cbn [url_index].
  - apply raises_only_ret.
  - apply raises_only_bind;
      [apply raises_only_lift; apply py_get_caught |].
    intros k. apply raises_only_bind;
      [apply raises_only_lift; apply py_hash_caught |].
    intros _. apply IH.
Qed.

Lemma enrich_bulk_guarded : forall results urls,
  guarded (enrich_bulk results urls).
Proof.
  intros results urls. unfold guarded, enrich_bulk.
  apply raises_only_bind; [apply exa_fetch_contents_guarded |].
  intros contents.
  apply raises_only_bind; [apply url_index_guarded |].
  intros idx. raises_only_steps.
Qed.

Lemma enrich_per_url_guarded : forall results,
  guarded (enrich_per_url results).
Proof.
  intros results. unfold guarded, enrich_per_url.
  apply raises_only_for_each. intros item.
  apply raises_only_catch; [| intros e; apply raises_only_ret].
  apply raises_only_bind;
    [apply raises_only_lift; apply py_get_caught |].
  intros u. apply exa_fetch_content_guarded.
Qed.

Ltac guarded_steps :=
  repeat first
    [ apply raises_only_ret
    | apply raises_only_raise; reflexivity
    | apply exa_web_search_guarded
    | apply exa_find_similar_links_guarded
    | apply exa_answer_question_guarded
    | apply exa_research_start_guarded
    | apply exa_research_poll_guarded
    | apply exa_fetch_content_guarded
    | apply exa_fetch_contents_guarded
    | apply exa_fetch_subpages_guarded
    | apply truthy_urls_guarded
    | apply enrich_bulk_guarded
    | apply enrich_per_url_guarded
    | apply raises_only_bind; [| intros]
    | apply raises_only_catch; [| intros]
    | match goal with
      | |- raises_only _ (if ?c then _ else _) => destruct c
      end ].

(** Whatever [call_tool] does inside its [try], an exception that is no
    [Exception] can only be one that the upstream call raised. *)
Lemma call_tool_body_guarded : forall name arguments,
  guarded (call_tool_body name arguments).
Proof.
  intros name arguments. unfold call_tool_body. cbv zeta.
  unfold guarded. guarded_steps.
Qed.

(** The outcomes of a [try] block that ends in one text item, under the
    handler of the dispatchers. *)
Lemma text_or_escape : forall (body : M (list TextContent)) st,
  guarded body ->
  (forall l st', body st = (Ok l, st') -> exists s, l = [text_content s]) ->
  (exists t st',
      catch body (fun e => ret [text_content ("Error: " ++ exn_str e)]) st
      = (Ok [t], st') /\
      type t = "text" /\
      (forall e st1, body st = (Raise e, st1) ->
          is_exception e = true /\ text t = "Error: " ++ exn_str e /\
          st' = st1))
  \/
  (exists e st',
      catch body (fun e => ret [text_content ("Error: " ++ exn_str e)]) st
      = (Raise e, st') /\
      body st = (Raise e, st') /\
      is_exception e = false /\ from_upstream e).
Proof.
  intros body st Hg Hs. unfold catch.
  destruct (body st) as [[l | e] st1] eqn:Hbody.
  - left. destruct (Hs _ _ eq_refl) as [s ->].
    exists (text_content s), st1.
    split; [reflexivity | split; [reflexivity |]].
    intros e st2 H. discriminate H.
  - destruct (is_exception e) eqn:He.
    + left. exists (text_content ("Error: " ++ exn_str e)), st1.
      split; [reflexivity | split; [reflexivity |]].
      intros e' st2 H. inversion H; subst. auto.
    + right. exists e, st1.
      split; [reflexivity | split; [reflexivity | split; [exact He |]]].
      destruct (Hg _ _ _ Hbody) as [H | H]; [congruence | exact H].
Qed.

(** C3 (amended): for every tool name and argument bag [call_tool] returns
    exactly one text item and lets no [Exception] escape: when the
    dispatched operation (validation and upstream calls included) raises an
    [Exception] [e], the text is "Error: " followed by [str(e)], and nothing
    more is done.  The only exceptions that escape are those outside
    [Exception] (a cancellation, an interrupt), which [except Exception]
    does not catch, and they can only be what the upstream call raised. *)
Theorem call_tool_catches_exceptions : forall name arguments st,
  (exists t st',
      call_tool name arguments st = (Ok [t], st') /\
      type t = "text" /\
      (forall e st1,
          call_tool_body name arguments st = (Raise e, st1) ->
          is_exception e = true /\ text t = "Error: " ++ exn_str e /\
          st' = st1))
  \/
  (exists e st',
      call_tool name arguments st = (Raise e, st') /\
      call_tool_body name arguments st = (Raise e, st') /\
      is_exception e = false /\ from_upstream e).
Proof.
  intros name arguments st. unfold call_tool.
  apply text_or_escape.
  - apply call_tool_body_guarded.
  - intros l st' H. eapply call_tool_body_single. exact H.
Qed.

Lemma not_in_catalog : forall tool,
  ~ In tool tool_names ->
  String.eqb tool "exa_web_search" = false /\
  String.eqb tool "exa_fetch_content" = false /\
  String.eqb tool "exa_fetch_contents" = false /\
  String.eqb tool "exa_fetch_subpages" = false /\
  String.eqb tool "exa_find_similar_links" = false /\
  String.eqb tool "exa_answer_question" = false /\
  String.eqb tool "exa_research_start" = false /\
  String.eqb tool "exa_research_poll" = false.
Proof.
  intros tool H. cbn in H.
  repeat split; apply String.eqb_neq; intros ->; apply H; tauto.
Qed.

(** C8: a tool name outside the catalog makes [call_tool] return normally
    one text item reading "Error: Unknown tool '<name>'"; the arguments are
    not looked at and the state (hence the request trace) is unchanged. *)
Theorem unknown_tool_is_text_result : forall name arguments st,
  ~ In name tool_names ->
  call_tool name arguments st
  = (Ok [text_content ("Error: Unknown tool '" ++ name ++ "'")], st).
Proof.
  intros name arguments st H.
  destruct (not_in_catalog name H) as (E1 & E2 & E3 & E4 & E5 & E6 & E7 & E8).
  unfold call_tool, catch, call_tool_body.
  rewrite E1, E2, E3, E4, E5, E6, E7, E8. reflexivity.
Qed.

(** C9 (amended): when the arguments of the fetch-subpages tool carry a
    truthy url and a truthy [subpage_target] that is not a list, [call_tool]
    returns the validation error naming subpage_target and issues no request
    (the state is unchanged).  A falsy non-list value (empty string, 0,
    null, empty object) passes the guard and counts as "not provided". *)
Theorem subpage_target_must_be_list : forall arguments st url target,
  dict_get arguments "url" = Some url ->
  truthy url = true ->
  dict_get arguments "subpage_target" = Some target ->
  truthy target = true ->
  is_list target = false ->
  call_tool "exa_fetch_subpages" arguments st
  = (Ok [text_content
           "Error: Argument 'subpage_target' must be an array of strings if provided"],
     st)
  /\ mentions "subpage_target"
       "Error: Argument 'subpage_target' must be an array of strings if provided"
     = true.
Proof.
  intros arguments st url target Hu Htu Ht Htt Hl.
  split; [| reflexivity].
  unfold call_tool, catch, call_tool_body. cbn [String.eqb Ascii.eqb Bool.eqb].
  unfold get_or. rewrite Hu, Ht, Htu, Htt, Hl. reflexivity.
Qed.

(** C10: on the fetch-contents tool called without a usable [urls] argument
    the two dispatchers return different texts: the one registered by
    [build_mcp_server] writes "non-empty" with an ASCII hyphen, the legacy
    one in [main] with U+2011. *)
Theorem dispatchers_differ_on_urls_message : forall st,
  call_tool "exa_fetch_contents" [] st
  = (Ok [text_content "Error: Argument 'urls' must be a non-empty list"], st)
  /\
  legacy_call_tool "exa_fetch_contents" [] st
  = (Ok [text_content ("Error: Argument 'urls' must be a non" ++ nb_hyphen
                       ++ "empty list")], st)
  /\
  call_tool "exa_fetch_contents" [] st
  <> legacy_call_tool "exa_fetch_contents" [] st.
Proof.
  intros st.
  assert (H1 : call_tool "exa_fetch_contents" [] st
     = (Ok [text_content "Error: Argument 'urls' must be a non-empty list"], st))
    by reflexivity.
  assert (H2 : legacy_call_tool "exa_fetch_contents" [] st
     = (Ok [text_content ("Error: Argument 'urls' must be a non" ++ nb_hyphen
                          ++ "empty list")], st))
    by reflexivity.
  repeat split; trivial.
  rewrite H1, H2. intros H. inversion H.
Qed.

(** Apart from that message the two dispatchers are the same function. *)
Lemma dispatchers_agree_elsewhere : forall name arguments st,
  (name = "exa_fetch_contents" ->
   truthy (get_or arguments "urls" JNull) = true /\
   is_list (get_or arguments "urls" JNull) = true) ->
  call_tool name arguments st = legacy_call_tool name arguments st.
Proof.
  intros name arguments st H.
  unfold call_tool, legacy_call_tool, catch, call_tool_body,
    legacy_call_tool_body, enrich_bulk, enrich_per_url.
  destruct (String.eqb name "exa_web_search"); [reflexivity |].
  destruct (String.eqb name "exa_fetch_content"); [reflexivity |].
  destruct (String.eqb name "exa_find_similar_links"); [reflexivity |].
  destruct (String.eqb_spec name "exa_fetch_contents") as [E | E].
  - destruct (H E) as [-> ->]. reflexivity.
  - destruct (String.eqb name "exa_fetch_subpages"); reflexivity.
Qed.

(* --------------------------------------------------------------------- *)
(** *** Reshaping upstream replies *)
(* --------------------------------------------------------------------- *)

Lemma for_each_pure : forall {A : Type} (f : json -> M A) (g : json -> A) l st,
  (forall x s, In x l -> f x s = (Ok (g x), s)) ->
  for_each l f st = (Ok (map g l), st).
Proof.
  intros A f g l st. induction l as [| x r IH]; intros Hf.
  - reflexivity.
  - cbn [for_each map].
    rewrite (bind_ok _ _ st (g x) st) by (apply Hf; left; reflexivity).
    rewrite (bind_ok _ _ st (map g r) st); [reflexivity |].
    apply IH. intros y s Hy. apply Hf. right. exact Hy.
Qed.

Lemma http_replied : forall meth url body headers timeout st data,
  (forall req, exists w', upstream req (world st) = (Ok data, w')) ->
  exists st', http meth url body headers timeout st = (Ok data, st').
Proof.
  intros meth url body headers timeout st data H. unfold http.
  destruct (H (mkRequest meth url body headers timeout)) as [w' ->].
  eauto.
Qed.

Lemma firstn_min_length : forall {A : Type} (k : Z) (l : list A),
  0 <= k -> first_items k l = firstn (Z.to_nat k) l.
Proof.
  intros A k l Hk. unfold first_items.
  destruct (Z.le_gt_cases k (Z.of_nat (List.length l))) as [Hle | Hgt].
  - rewrite Z.min_l by exact Hle. reflexivity.
  - rewrite Z.min_r by lia. rewrite Nat2Z.id.
    rewrite firstn_all. symmetry. apply firstn_all2. lia.
Qed.

Lemma slice_to_nonneg : forall {A : Type} (k : Z) (l : list A),
  0 <= k -> slice_to l (Some k) = first_items k l.
Proof.
  intros A k l Hk. unfold slice_to.
  destruct (Z.ltb_spec k 0) as [Hneg | _]; [lia |].
  symmetry. apply firstn_min_length. exact Hk.
Qed.

Lemma first_items_map : forall {A B : Type} (f : A -> B) k (l : list A),
  first_items k (map f l) = map f (first_items k l).
Proof.
  intros A B f k l. unfold first_items.
  rewrite length_map. apply firstn_map.
Qed.

(** The loop body of [exa_web_search] on a dict computes [search_stub]. *)
Lemma snippet_fallback : forall d,
  (if truthy (get_or d "text" JNull) then get_or d "text" JNull
   else py_or (get_or d "summary" JNull) (JStr ""))
  = text_or_summary d.
Proof.
  intros d. unfold text_or_summary, summary_or_empty, get_or, py_or.
  destruct (dict_get d "text") as [t |];
    destruct (dict_get d "summary") as [u |]; cbn [truthy];
    repeat match goal with
           | |- context [truthy ?v] => destruct (truthy v)
           end; reflexivity.
Qed.

Lemma search_loop_body : forall d st,
  (title <- lift (py_get (JDict d) "title" JNull) ;;
   url <- lift (py_get (JDict d) "url" JNull) ;;
   txt <- lift (py_get (JDict d) "text" JNull) ;;
   snippet <- (if truthy txt then ret txt
               else summary <- lift (py_get (JDict d) "summary" JNull) ;;
                    ret (py_or summary (JStr ""))) ;;
   ret (JDict [("title", title); ("url", url); ("snippet", snippet)])) st
  = (Ok (search_stub d), st).
Proof.
  intros d st. unfold search_stub. rewrite <- snippet_fallback.
  run. cbn [py_get]. destruct (truthy (get_or d "text" JNull)); reflexivity.
Qed.

Lemma similar_loop_body : forall include_text d st,
  (title <- lift (py_get (JDict d) "title" JNull) ;;
   link <- lift (py_get (JDict d) "url" JNull) ;;
   score <- lift (py_get (JDict d) "score" JNull) ;;
   txt <- (if truthy include_text then
             t <- lift (py_get (JDict d) "text" JNull) ;;
             if truthy t then ret t
             else summary <- lift (py_get (JDict d) "summary" JNull) ;;
                  ret (py_or summary (JStr ""))
           else ret JNull) ;;
   ret (JDict [("title", title); ("url", link); ("score", score);
               ("text", txt)])) st
  = (Ok (similar_link include_text d), st).
Proof.
  intros include_text d st. unfold similar_link. rewrite <- snippet_fallback.
  run. cbn [py_get]. destruct (truthy include_text); [| reflexivity].
  destruct (truthy (get_or d "text" JNull)); reflexivity.
Qed.

Lemma dict_get_app_other : forall (d : dict) (k : string) (v : json) (k' : string),
  k <> k' -> dict_get (d ++ [(k, v)])%list k' = dict_get d k'.
Proof.
  intros d k v k' Hk. induction d as [| [k0 v0] r IH]; cbn [dict_get app].
  - destruct (String.eqb_spec k k'); [contradiction | reflexivity].
  - destruct (String.eqb k0 k'); [reflexivity | exact IH].
Qed.

Lemma dict_get_app_new : forall (d : dict) (k : string) (v : json),
  dict_get d k = None -> dict_get (d ++ [(k, v)])%list k = Some v.
Proof.
  intros d k v. induction d as [| [k0 v0] r IH]; cbn [dict_get app]; intros H.
  - rewrite String.eqb_refl. reflexivity.
  - destruct (String.eqb k0 k); [discriminate H | exact (IH H)].
Qed.

Lemma default_num_results : forall arguments st,
  dict_get arguments "num_results" = None ->
  call_tool "exa_web_search" arguments st
  = call_tool "exa_web_search" (arguments ++ [("num_results", JInt 3)])%list st.
Proof.
  intros arguments st H.
  unfold call_tool, call_tool_body, get_or. cbn [String.eqb Ascii.eqb Bool.eqb].
  rewrite (dict_get_app_new _ _ (JInt 3) H), H.
  rewrite !dict_get_app_other by discriminate. reflexivity.
Qed.

(** C5 (amended): for an upstream reply that is an object whose results
    field is a list of objects (or is absent) and for a num_results [k >= 0],
    [exa_web_search] returns the first min(k, number of items) items in
    upstream order, each as exactly title, url, snippet, the snippet being
    the item's text, else its summary, else the empty string; and a call of
    the search tool that omits num_results is dispatched as with 3. *)
Theorem search_returns_first_k : forall query k data ds st,
  EXA_API_KEY <> "" ->
  0 <= k ->
  (forall req, exists w', upstream req (world st) = (Ok data, w')) ->
  py_get data "results" (JList []) = Ok (JList (map JDict ds)) ->
  (exists st',
      exa_web_search query (JInt k) st
      = (Ok (map search_stub (first_items k ds)), st')) /\
  Forall (fun out => keys_of out = ["title"; "url"; "snippet"])
         (map search_stub (first_items k ds)) /\
  (forall arguments st0,
      dict_get arguments "num_results" = None ->
      call_tool "exa_web_search" arguments st0
      = call_tool "exa_web_search" (arguments ++ [("num_results", JInt 3)])%list st0).
Proof.
  intros query k data ds st Hkey Hk Hup Hres.
  split; [| split].
  - unfold exa_web_search.
    rewrite (bind_ok _ _ _ _ _ (check_api_key_present st Hkey)).
    destruct (http_replied POST EXA_SEARCH_ENDPOINT
                (Some (JDict [("query", query); ("num_results", JInt k);
                              ("text", JBool false)]))
                [("x-api-key", EXA_API_KEY)] 30 st data Hup) as [st' Hhttp].
    exists st'. rewrite (bind_ok _ _ _ _ _ Hhttp).
    unfold lift at 1. unfold bind at 1. rewrite Hres.
    unfold py_slice, slice_index, lift at 1. unfold bind at 1.
    rewrite (slice_to_nonneg k _ Hk), first_items_map.
    unfold py_iter, lift at 1. unfold bind at 1.
    rewrite (for_each_pure _ (fun item => search_stub
               (match item with JDict d => d | _ => [] end))).
    + rewrite map_map. reflexivity.
    + intros x s Hx. apply in_map_iff in Hx. destruct Hx as (d & <- & _).
      apply search_loop_body.
  - apply Forall_forall. intros out Hout. apply in_map_iff in Hout.
    destruct Hout as (d & <- & _). reflexivity.
  - apply default_num_results.
Qed.

(** C6 (amended): for an upstream reply that is an object whose results
    field is a list of objects (or is absent) and for a num_results [k >= 0],
    [exa_find_similar_links] returns the first [k] items, each as exactly
    title, url, score, text; the text field is [None] when include_text is
    false, whatever the item holds, and otherwise the item's text, else its
    summary, else the empty string. *)
Theorem find_similar_shape : forall url include_text k data ds st,
  EXA_API_KEY <> "" ->
  0 <= k ->
  (forall req, exists w', upstream req (world st) = (Ok data, w')) ->
  py_get data "results" (JList []) = Ok (JList (map JDict ds)) ->
  (exists st',
      exa_find_similar_links url include_text (JInt k) st
      = (Ok (map (similar_link include_text) (firstn (Z.to_nat k) ds)), st')) /\
  Forall (fun out => keys_of out = ["title"; "url"; "score"; "text"])
         (map (similar_link include_text) (firstn (Z.to_nat k) ds)) /\
  (truthy include_text = false ->
   forall d, field (similar_link include_text d) "text" = Some JNull) /\
  (truthy include_text = true ->
   forall d, field (similar_link include_text d) "text"
             = Some (text_or_summary d)).
Proof.
  intros url include_text k data ds st Hkey Hk Hup Hres.
  split; [| split; [| split]].
  - unfold exa_find_similar_links.
    rewrite (bind_ok _ _ _ _ _ (check_api_key_present st Hkey)).
    destruct (http_replied POST EXA_FIND_SIMILAR_ENDPOINT
                (Some (JDict [("url", url); ("text", include_text)]))
                [("x-api-key", EXA_API_KEY)] 30 st data Hup) as [st' Hhttp].
    exists st'. rewrite (bind_ok _ _ _ _ _ Hhttp).
    unfold lift at 1. unfold bind at 1. rewrite Hres.
    unfold py_slice, slice_index, lift at 1. unfold bind at 1.
    rewrite (slice_to_nonneg k _ Hk), first_items_map.
    rewrite (firstn_min_length k ds Hk).
    unfold py_iter, lift at 1. unfold bind at 1.
    rewrite (for_each_pure _ (fun item => similar_link include_text
               (match item with JDict d => d | _ => [] end))).
    + rewrite map_map. reflexivity.
    + intros x s Hx. apply in_map_iff in Hx. destruct Hx as (d & <- & _).
      apply similar_loop_body.
  - apply Forall_forall. intros out Hout. apply in_map_iff in Hout.
    destruct Hout as (d & <- & _). reflexivity.
  - intros Hf d. unfold similar_link, field. cbn. rewrite Hf. reflexivity.
  - intros Ht d. unfold similar_link, field. cbn. rewrite Ht. reflexivity.
Qed.

(* --------------------------------------------------------------------- *)
(** *** Empty result lists *)
(* --------------------------------------------------------------------- *)

Lemma utf8_chars_nonempty : forall s, s <> "" -> utf8_chars s <> [].
Proof.
  intros [| c r] H; [contradiction |].
  unfold utf8_chars. cbn [utf8_split].
  destruct (utf8_split r) as [pending chars].
  destruct (is_continuation c); discriminate.
Qed.

(** On a truthy value [v[0]] never raises [IndexError]. *)
Lemma py_index0_in_bounds : forall v e,
  truthy v = true -> py_index0 v = Raise e -> exn_cls e <> PyIndexError.
Proof.
  intros v e Ht H. destruct v as [| b | z | f | s | l | d]; cbn in H;
    try (inversion H; discriminate).
  - destruct (utf8_chars s) eqn:Hs; [| discriminate H].
    exfalso. apply (utf8_chars_nonempty s); [| exact Hs].
    intros ->. discriminate Ht.
  - destruct l; [discriminate Ht | discriminate H].
Qed.

Lemma py_get_error : forall v k default e,
  py_get v k default = Raise e -> exn_cls e = PyAttributeError.
Proof.
  intros v k default e H. destruct v; cbn in H; inversion H; reflexivity.
Qed.

Lemma py_iter_error : forall v e,
  py_iter v = Raise e -> exn_cls e = PyTypeError.
Proof.
  intros v e H. destruct v; cbn in H; inversion H; reflexivity.
Qed.

Lemma content_record_error : forall item st e st',
  content_record item st = (Raise e, st') -> exn_cls e = PyAttributeError.
Proof.
  intros item st e st' H. destruct item; cbn in H;
    inversion H; reflexivity.
Qed.

Lemma for_each_error : forall {A : Type} (f : json -> M A) (P : exn -> Prop) l,
  (forall x st e st', f x st = (Raise e, st') -> P e) ->
  forall st e st', for_each l f st = (Raise e, st') -> P e.
Proof.
  intros A f P l Hf. induction l as [| x r IH]; intros st e st' H.
  - discriminate H.
  - cbn [for_each] in H. unfold bind in H.
    destruct (f x st) as [[y | e1] st1] eqn:Hx.
    + destruct (for_each r f st1) as [[ys | e2] st2] eqn:Hr.
      * discriminate H.
      * inversion H; subst. eapply IH. exact Hr.
    + inversion H; subst. eapply Hf. exact Hx.
Qed.

(** C7: when the upstream contents reply carries an empty results list,
    fetch-one and fetch-subpages both fail with the "no content" error; and
    whatever the reply is, neither can fail with an out-of-bounds access:
    the first element is read only from a non-empty results value. *)
Theorem empty_results_is_no_content : forall data st,
  EXA_API_KEY <> "" ->
  (forall req, exists w', upstream req (world st) = (Ok data, w')) ->
  (py_get data "results" (JList []) = Ok (JList []) ->
   (forall url, exists st',
       exa_fetch_content url st
       = (Raise (Exception "No content returned from Exa for the given URL"),
          st')) /\
   (forall url subpages subpage_target livecrawl, exists st',
       exa_fetch_subpages url subpages subpage_target livecrawl st
       = (Raise (Exception "No content returned from Exa for the given URL"),
          st'))) /\
  (forall url e st',
      exa_fetch_content url st = (Raise e, st') ->
      exn_cls e <> PyIndexError) /\
  (forall url subpages subpage_target livecrawl e st',
      exa_fetch_subpages url subpages subpage_target livecrawl st
      = (Raise e, st') ->
      exn_cls e <> PyIndexError).
Proof.
  intros data st Hkey Hup.
  pose proof (check_api_key_present st Hkey) as Hc.
  split; [| split].
  - intros Hres. split.
    + intros url. unfold exa_fetch_content.
      rewrite (bind_ok _ _ _ _ _ Hc).
      destruct (http_replied POST EXA_CONTENTS_ENDPOINT
                  (Some (JDict [("urls", JList [url]); ("text", JBool true)]))
                  [("x-api-key", EXA_API_KEY)] 30 st data Hup) as [st' Hh].
      exists st'. rewrite (bind_ok _ _ _ _ _ Hh).
      unfold lift, bind. rewrite Hres. reflexivity.
    + intros url subpages subpage_target livecrawl. unfold exa_fetch_subpages.
      rewrite (bind_ok _ _ _ _ _ Hc).
      match goal with
      | |- context [http ?m ?u ?b ?h ?t] =>
          destruct (http_replied m u b h t st data Hup) as [st' Hh]
      end.
      exists st'. rewrite (bind_ok _ _ _ _ _ Hh).
      unfold lift, bind. rewrite Hres. reflexivity.
  - intros url e st' H. unfold exa_fetch_content in H.
    rewrite (bind_ok _ _ _ _ _ Hc) in H.
    match type of H with
    | context [http ?m ?u ?b ?h ?t] =>
        destruct (http_replied m u b h t st data Hup) as [st1 Hh]
    end.
    rewrite (bind_ok _ _ _ _ _ Hh) in H. unfold lift at 1, bind at 1 in H.
    destruct (py_get data "results" (JList [])) as [results | e0] eqn:Hres.
    + destruct (truthy results) eqn:Ht; cbn [negb] in H.
      * unfold lift at 1, bind at 1 in H.
        destruct (py_index0 results) as [result | e1] eqn:Hi.
        -- rewrite (content_record_error _ _ _ _ H). discriminate.
        -- inversion H; subst. eapply py_index0_in_bounds; eassumption.
      * inversion H. discriminate.
    + inversion H; subst. rewrite (py_get_error _ _ _ _ Hres). discriminate.
  - intros url subpages subpage_target livecrawl e st' H.
    unfold exa_fetch_subpages in H.
    rewrite (bind_ok _ _ _ _ _ Hc) in H.
    match type of H with
    | context [http ?m ?u ?b ?h ?t] =>
        destruct (http_replied m u b h t st data Hup) as [st1 Hh]
    end.
    rewrite (bind_ok _ _ _ _ _ Hh) in H. unfold lift at 1, bind at 1 in H.
    destruct (py_get data "results" (JList [])) as [results | e0] eqn:Hres.
    + destruct (truthy results) eqn:Ht; cbn [negb] in H.
      * unfold lift at 1, bind at 1 in H.
        destruct (py_index0 results) as [result | e1] eqn:Hi.
        -- unfold bind at 1 in H.
           destruct (content_record result st1) as [[page | e2] st2] eqn:Hp.
           ++ unfold lift at 1, bind at 1 in H.
              destruct (py_get result "subpages" (JList [])) as [nested | e3]
                eqn:Hn.
              ** unfold lift at 1, bind at 1 in H.
                 destruct (py_iter nested) as [subs | e4] eqn:Hs.
                 --- unfold bind at 1 in H.
                     destruct (for_each subs content_record st2)
                       as [[rs | e5] st3] eqn:Hf.
                     +++ discriminate H.
                     +++ inversion H; subst.
                         rewrite (for_each_error content_record
                                    (fun e => exn_cls e = PyAttributeError)
                                    subs content_record_error _ _ _ Hf).
                         discriminate.
                 --- inversion H; subst.
                     rewrite (py_iter_error _ _ Hs). discriminate.
              ** inversion H; subst.
                 rewrite (py_get_error _ _ _ _ Hn). discriminate.
           ++ inversion H; subst.
              rewrite (content_record_error _ _ _ _ Hp). discriminate.
        -- inversion H; subst. eapply py_index0_in_bounds; eassumption.
      * inversion H. discriminate.
    + inversion H; subst. rewrite (py_get_error _ _ _ _ Hres). discriminate.
Qed.

(* --------------------------------------------------------------------- *)
(** *** Enrichment of search results *)
(* --------------------------------------------------------------------- *)

Lemma for_each_Forall : forall {A : Type} (f : json -> M A) (P : A -> Prop) l,
  (forall x st y st', f x st = (Ok y, st') -> P y) ->
  forall st out st', for_each l f st = (Ok out, st') -> Forall P out.
Proof.
  intros A f P l Hf. induction l as [| x r IH]; intros st out st' H.
  - inversion H. constructor.
  - cbn [for_each] in H.
    apply bind_inv_ok in H. destruct H as (y & st1 & Hy & H).
    apply bind_inv_ok in H. destruct H as (ys & st2 & Hys & H).
    inversion H; subst. constructor; eauto.
Qed.

Lemma for_each_length : forall {A : Type} (f : json -> M A) l st out st',
  for_each l f st = (Ok out, st') -> List.length out = List.length l.
Proof.
  intros A f l. induction l as [| x r IH]; intros st out st' H.
  - inversion H. reflexivity.
  - cbn [for_each] in H.
    apply bind_inv_ok in H. destruct H as (y & st1 & Hy & H).
    apply bind_inv_ok in H. destruct H as (ys & st2 & Hys & H).
    inversion H; subst. cbn [List.length]. f_equal. eauto.
Qed.

(** A successful search yields stubs, and needs the credential. *)
Lemma exa_web_search_stubs : forall query num_results st stubs st',
  exa_web_search query num_results st = (Ok stubs, st') ->
  Forall is_stub stubs /\ EXA_API_KEY <> "".
Proof.
  intros query num_results st stubs st' H. unfold exa_web_search in H.
  apply bind_inv_ok in H. destruct H as ([] & st0 & Hc & H).
  split.
  - apply bind_inv_ok in H. destruct H as (data & st1 & _ & H).
    apply bind_inv_ok in H. destruct H as (found & st2 & _ & H).
    apply bind_inv_ok in H. destruct H as (sliced & st3 & _ & H).
    apply bind_inv_ok in H. destruct H as (items & st4 & _ & H).
    eapply for_each_Forall; [| exact H].
    clear. intros x st y st' H.
    apply bind_inv_ok in H. destruct H as (title & s1 & _ & H).
    apply bind_inv_ok in H. destruct H as (url & s2 & _ & H).
    apply bind_inv_ok in H. destruct H as (txt & s3 & _ & H).
    apply bind_inv_ok in H. destruct H as (snippet & s4 & _ & H).
    inversion H. exists title, url, snippet. reflexivity.
  - unfold check_api_key in Hc.
    destruct (String.eqb_spec EXA_API_KEY ""); [discriminate Hc | assumption].
Qed.

(** A successful bulk fetch yields [{title, url, text}] records. *)
Lemma exa_fetch_contents_records : forall urls livecrawl st contents st',
  exa_fetch_contents urls livecrawl st = (Ok contents, st') ->
  Forall is_record contents.
Proof.
  intros urls livecrawl st contents st' H. unfold exa_fetch_contents in H.
  apply bind_inv_ok in H. destruct H as ([] & st0 & _ & H).
  destruct (negb (truthy urls)); [discriminate H |].
  apply bind_inv_ok in H. destruct H as (data & st1 & _ & H).
  apply bind_inv_ok in H. destruct H as (found & st2 & _ & H).
  apply bind_inv_ok in H. destruct H as (items & st3 & _ & H).
  eapply for_each_Forall; [| exact H].
  clear. intros x st y st' H. unfold content_record in H.
  apply bind_inv_ok in H. destruct H as (title & s1 & _ & H).
  apply bind_inv_ok in H. destruct H as (url & s2 & _ & H).
  apply bind_inv_ok in H. destruct H as (txt & s3 & _ & H).
  inversion H. exists title, url, txt. reflexivity.
Qed.

Lemma stub_is_dict : forall v, is_stub v -> exists d, v = JDict d.
Proof. intros v (t & u & s & ->). eauto. Qed.

Lemma record_is_dict : forall v, is_record v -> exists d, v = JDict d.
Proof. intros v (t & u & s & ->). eauto. Qed.

Lemma py_get_url : forall d, py_get (JDict d) "url" JNull = Ok (url_of (JDict d)).
Proof. reflexivity. Qed.

(** The list comprehension over dicts is a filter. *)
Lemma truthy_urls_dicts : forall results st,
  Forall (fun v => exists d, v = JDict d) results ->
  truthy_urls results st = (Ok (bulk_urls results), st).
Proof.
  intros results st H. unfold bulk_urls.
  induction H as [| x r [d ->] _ IH]; [reflexivity |].
  cbn [truthy_urls map filter]. unfold lift at 1, bind at 1.
  rewrite py_get_url.
  destruct (truthy (url_of (JDict d))); [| exact IH].
  unfold lift at 1, bind at 1. unfold bind. rewrite IH. reflexivity.
Qed.

(** The dict comprehension over records with hashable urls is a fold. *)
Lemma url_index_dicts : forall contents acc st,
  Forall (fun v => exists d, v = JDict d) contents ->
  Forall (fun c => hashable (url_of c) = true) contents ->
  url_index contents acc st
  = (Ok (fold_left (fun a c => kd_set a (url_of c) c) contents acc), st).
Proof.
  intros contents acc st Hd. revert acc.
  induction Hd as [| x r [d ->] _ IH]; intros acc Hh; [reflexivity |].
  inversion Hh as [| ? ? Hx Hr]; subst.
  cbn [url_index fold_left]. unfold lift at 1, bind at 1.
  rewrite py_get_url. unfold lift at 1, bind at 1, py_hash.
  rewrite Hx. apply IH. exact Hr.
Qed.

Lemma merge_loop_dicts : forall idx results st,
  Forall (fun v => exists d, v = JDict d) results ->
  Forall (fun s => hashable (url_of s) = true) results ->
  for_each results (fun item =>
    page_url <- lift (py_get item "url" JNull) ;;
    lift (py_hash page_url) ;;;
    ret (lookup_or idx page_url item)) st
  = (Ok (map (fun stub => lookup_or idx (url_of stub) stub) results), st).
Proof.
  intros idx results st Hd Hh. apply for_each_pure.
  intros x s Hx.
  rewrite Forall_forall in Hd, Hh.
  destruct (Hd x Hx) as [d ->]. specialize (Hh _ Hx).
  unfold lift at 1, bind at 1. rewrite py_get_url.
  unfold lift, bind, py_hash. rewrite Hh. reflexivity.
Qed.

(** Key equality is equality of canonical keys, hence symmetric and
    transitive. *)
Lemma key_eqb_eq : forall a b, key_eqb a b = true <-> a = b.
Proof.
  intros a b. split.
  - destruct a, b; cbn [key_eqb]; try discriminate; intros H.
    + reflexivity.
    + apply String.eqb_eq in H. congruence.
    + apply andb_true_iff in H. destruct H as [H1 H2].
      apply Z.eqb_eq in H1. apply Z.eqb_eq in H2. congruence.
    + apply Bool.eqb_prop in H. congruence.
    + reflexivity.
  - intros <-. destruct a; cbn [key_eqb].
    + reflexivity.
    + apply String.eqb_refl.
    + rewrite !Z.eqb_refl. reflexivity.
    + apply Bool.eqb_reflx.
    + reflexivity.
Qed.

Lemma same_key_true : forall a b,
  same_key a b = true <-> exists k, key_of a = Some k /\ key_of b = Some k.
Proof.
  intros a b. unfold same_key. split.
  - destruct (key_of a) as [x |], (key_of b) as [y |]; try discriminate.
    intros H. apply key_eqb_eq in H. subst. eauto.
  - intros (k & -> & ->). apply key_eqb_eq. reflexivity.
Qed.

Lemma same_key_sym : forall a b, same_key a b = true -> same_key b a = true.
Proof.
  intros a b H. apply same_key_true in H. destruct H as (k & Ha & Hb).
  apply same_key_true. eauto.
Qed.

Lemma same_key_trans : forall a b c,
  same_key a b = true -> same_key b c = true -> same_key a c = true.
Proof.
  intros a b c H1 H2.
  apply same_key_true in H1. destruct H1 as (k & Ha & Hb).
  apply same_key_true in H2. destruct H2 as (k' & Hb' & Hc).
  apply same_key_true. exists k. split; congruence.
Qed.

Lemma kd_get_entry : forall d u v,
  kd_get d u = Some v -> exists k, In (k, v) d /\ same_key k u = true.
Proof.
  intros d u v. induction d as [| [k0 v0] r IH]; cbn [kd_get]; intros H.
  - discriminate H.
  - destruct (same_key k0 u) eqn:E.
    + inversion H; subst. exists k0. split; [left; reflexivity | exact E].
    + destruct (IH H) as (k & Hin & Hk). exists k. split; [right |]; assumption.
Qed.

Lemma kd_set_entries : forall d k v k0 v0,
  In (k0, v0) (kd_set d k v) ->
  In (k0, v0) d \/ (v0 = v /\ (k0 = k \/ same_key k0 k = true)).
Proof.
  intros d k v k0 v0. induction d as [| [k1 v1] r IH]; cbn [kd_set]; intros H.
  - destruct H as [H | []]. inversion H. right. auto.
  - destruct (same_key k1 k) eqn:E.
    + destruct H as [H | H].
      * inversion H; subst. right. auto.
      * left. right. exact H.
    + destruct H as [H | H].
      * left. left. exact H.
      * destruct (IH H) as [Hin | Hnew]; [left; right; exact Hin | right; exact Hnew].
Qed.

Lemma kd_get_set_hit : forall d k v u,
  same_key k u = true -> kd_get (kd_set d k v) u <> None.
Proof.
  intros d k v u Hk. induction d as [| [k1 v1] r IH]; cbn [kd_set kd_get].
  - rewrite Hk. discriminate.
  - destruct (same_key k1 k) eqn:E; cbn [kd_get].
    + rewrite (same_key_trans _ _ _ E Hk). discriminate.
    + destruct (same_key k1 u); [discriminate | exact IH].
Qed.

Lemma kd_get_set_keeps : forall d k v u,
  kd_get d u <> None -> kd_get (kd_set d k v) u <> None.
Proof.
  intros d k v u. induction d as [| [k1 v1] r IH]; cbn [kd_set kd_get];
    intros H.
  - contradiction.
  - destruct (same_key k1 k) eqn:E; cbn [kd_get];
      destruct (same_key k1 u); try discriminate; auto.
Qed.

Lemma lookup_sound_step : forall d seen c,
  lookup_sound d seen ->
  lookup_sound (kd_set d (url_of c) c) (fun x => seen x \/ x = c).
Proof.
  intros d seen c [H1 H2]. split.
  - intros k v Hin. apply kd_set_entries in Hin.
    destruct Hin as [Hold | [-> Hk]].
    + destruct (H1 _ _ Hold) as [Hs Hu]. split; [left; exact Hs | exact Hu].
    + split; [right; reflexivity |]. intros u Hu.
      destruct Hk as [-> | Hk]; [exact Hu |].
      eapply same_key_trans; [apply same_key_sym; exact Hk | exact Hu].
  - intros x u [Hs | ->] Hu.
    + apply kd_get_set_keeps. eapply H2; eassumption.
    + apply kd_get_set_hit. exact Hu.
Qed.

Lemma lookup_sound_ext : forall d (P Q : json -> Prop),
  (forall x, P x <-> Q x) -> lookup_sound d P -> lookup_sound d Q.
Proof.
  intros d P Q HPQ [H1 H2]. split.
  - intros k v Hin. destruct (H1 _ _ Hin) as [Hs Hu].
    split; [apply HPQ; exact Hs | exact Hu].
  - intros c u Hc. apply H2. apply HPQ. exact Hc.
Qed.

Lemma lookup_sound_fold : forall contents acc seen,
  lookup_sound acc seen ->
  lookup_sound (fold_left (fun a c => kd_set a (url_of c) c) contents acc)
               (fun x => seen x \/ In x contents).
Proof.
  intros contents. induction contents as [| c r IH]; intros acc seen H.
  - cbn. eapply lookup_sound_ext; [| exact H]. intros x. tauto.
  - cbn [fold_left].
    eapply lookup_sound_ext; [| apply IH; apply lookup_sound_step; exact H].
    intros x. cbn. intuition congruence.
Qed.

Lemma url_lookup_sound : forall contents,
  lookup_sound (url_lookup contents) (fun x => In x contents).
Proof.
  intros contents. unfold url_lookup.
  eapply lookup_sound_ext;
    [| apply (lookup_sound_fold contents [] (fun _ => False))].
  - intros x. tauto.
  - split; [intros k v [] | intros c u []].
Qed.

Lemma lookup_or_merged : forall contents stub,
  merged contents stub (lookup_or (url_lookup contents) (url_of stub) stub).
Proof.
  intros contents stub. unfold merged, lookup_or.
  destruct (url_lookup_sound contents) as [H1 H2].
  destruct (kd_get (url_lookup contents) (url_of stub)) as [c |] eqn:E.
  - left. exists c. destruct (kd_get_entry _ _ _ E) as (k & Hin & Hk).
    destruct (H1 _ _ Hin) as [Hs Hu]. auto.
  - right. split; [| reflexivity]. intros c Hc.
    destruct (same_key (url_of c) (url_of stub)) eqn:Eq; [| reflexivity].
    exfalso. exact (H2 c _ Hc Eq E).
Qed.

Lemma merged_everywhere : forall contents stubs,
  Forall2 (merged contents) stubs
    (map (fun stub => lookup_or (url_lookup contents) (url_of stub) stub)
         stubs).
Proof.
  intros contents stubs. induction stubs as [| s r IH]; cbn [map]; constructor.
  - apply lookup_or_merged.
  - exact IH.
Qed.

Ltac settle_step H :=
  inversion H; subst;
  (split;
   [ reflexivity
   | let e := fresh "e" in
     let He := fresh "He" in
     intros e He; inversion He; subst; left; try reflexivity ]).

(** With the credential set, fetch-one issues exactly one request and moves
    to the world the upstream leaves; what it raises is an [Exception] of
    its own, or what the upstream raised for that request. *)
Lemma exa_fetch_content_step : forall url st r st',
  EXA_API_KEY <> "" ->
  exa_fetch_content url st = (r, st') ->
  st' = mkState (snd (upstream (fetch_content_request url) (world st)))
                (trace st ++ [fetch_content_request url]) /\
  (forall e, r = Raise e ->
     is_exception e = true \/
     fst (upstream (fetch_content_request url) (world st)) = Raise e).
Proof.
  intros url st r st' Hkey H. unfold exa_fetch_content in H.
  rewrite (bind_ok _ _ _ _ _ (check_api_key_present st Hkey)) in H.
  unfold bind at 1, http in H. fold (fetch_content_request url) in H.
  destruct (upstream (fetch_content_request url) (world st)) as [[data | e0] w];
    cbn [fst snd].
  - unfold lift at 1, bind at 1 in H.
    destruct (py_get data "results" (JList [])) as [results | e1] eqn:E1;
      [| settle_step H; exact (py_get_caught _ _ _ _ E1)].
    destruct (negb (truthy results)); [settle_step H |].
    unfold lift at 1, bind at 1 in H.
    destruct (py_index0 results) as [result | e2] eqn:E2;
      [| settle_step H; exact (py_index0_caught _ _ E2)].
    destruct result; settle_step H.
  - inversion H; subst. split; [reflexivity |].
    intros e He. inversion He; subst. right. reflexivity.
Qed.

Lemma exa_fetch_content_trace : forall url st r st',
  EXA_API_KEY <> "" ->
  exa_fetch_content url st = (r, st') ->
  trace st' = (trace st ++ [fetch_content_request url])%list.
Proof.
  intros url st r st' Hkey H.
  destruct (exa_fetch_content_step _ _ _ _ Hkey H) as [-> _]. reflexivity.
Qed.

Lemma interrupted_later : forall (o : outcome json),
  match o with
  | Ok _ => false
  | Raise e => is_exception e && false
  end = false.
Proof. intros [data | e]; [reflexivity | apply andb_false_r]. Qed.

Lemma uninterrupted_step : forall req rest w,
  uninterrupted (req :: rest) w
  = match fst (upstream req w) with
    | Ok _ => uninterrupted rest (snd (upstream req w))
    | Raise e => is_exception e && uninterrupted rest (snd (upstream req w))
    end.
Proof.
  intros req rest w. cbn [uninterrupted].
  destruct (upstream req w) as [[data | e] w']; reflexivity.
Qed.

(** The per-url loop does what the specification says as long as no call
    is cancelled; the one exception it lets through is an exception outside
    [Exception] that the upstream raised, after which nothing more is
    requested. *)
Lemma enrich_per_url_outcomes : forall results,
  EXA_API_KEY <> "" ->
  Forall (fun v => exists d, v = JDict d) results ->
  forall st, exists r st' reqs,
    enrich_per_url results st = (r, st') /\
    trace st' = (trace st ++ reqs)%list /\
    (List.length reqs <= List.length results)%nat /\
    match r with
    | Ok out =>
        per_url_fallback results st out st' /\
        List.length out = List.length results /\
        reqs = map (fun stub => fetch_content_request (url_of stub)) results
    | Raise e =>
        is_exception e = false /\ from_upstream e /\
        uninterrupted
          (map (fun stub => fetch_content_request (url_of stub)) results)
          (world st) = false
    end.
Proof.
  intros results Hkey Hd. unfold enrich_per_url.
  induction Hd as [| x r [d ->] _ IH]; intros st.
  - exists (Ok []), st, []. cbn. rewrite app_nil_r.
    repeat split; try reflexivity. constructor.
  - cbn [for_each map]. rewrite uninterrupted_step.
    unfold bind at 1, catch at 1, lift at 1, bind at 1.
    rewrite py_get_url.
    destruct (exa_fetch_content (url_of (JDict d)) st) as [[c | e] st1] eqn:Hf;
      destruct (exa_fetch_content_step _ _ _ _ Hkey Hf) as [Hst1 Hraise];
      pose proof (exa_fetch_content_trace _ _ _ _ Hkey Hf) as Ht1;
      assert (Hw : snd (upstream (fetch_content_request (url_of (JDict d)))
                          (world st)) = world st1)
        by (rewrite Hst1; reflexivity);
      rewrite Hw.
    + destruct (IH st1) as ([out | e'] & st2 & reqs & Hloop & Htr & Hn & Hr).
      * destruct Hr as (Hrel & Hlen & Hreqs).
        exists (Ok (c :: out)), st2,
          (fetch_content_request (url_of (JDict d)) :: reqs).
        rewrite (bind_ok _ _ _ _ _ Hloop).
        split; [reflexivity |].
        split; [rewrite Htr, Ht1, <- app_assoc; reflexivity |].
        split; [cbn [List.length]; lia |].
        split; [eapply fallback_fetched; eassumption |].
        split; [cbn [List.length]; now rewrite Hlen | now rewrite Hreqs].
      * destruct Hr as (He' & Hup & Hint).
        exists (Raise e'), st2,
          (fetch_content_request (url_of (JDict d)) :: reqs).
        rewrite (bind_raise _ _ _ _ _ Hloop).
        split; [reflexivity |].
        split; [rewrite Htr, Ht1, <- app_assoc; reflexivity |].
        split; [cbn [List.length]; lia |].
        split; [exact He' | split; [exact Hup |]].
        rewrite Hint. apply interrupted_later.
    + destruct (is_exception e) eqn:He.
      * unfold ret at 1.
        destruct (IH st1)
          as ([out | e'] & st2 & reqs & Hloop & Htr & Hn & Hr).
        -- destruct Hr as (Hrel & Hlen & Hreqs).
           exists (Ok (JDict d :: out)), st2,
             (fetch_content_request (url_of (JDict d)) :: reqs).
           rewrite (bind_ok _ _ _ _ _ Hloop).
           split; [reflexivity |].
           split; [rewrite Htr, Ht1, <- app_assoc; reflexivity |].
           split; [cbn [List.length]; lia |].
           split; [eapply fallback_kept; eassumption |].
           split; [cbn [List.length]; now rewrite Hlen | now rewrite Hreqs].
        -- destruct Hr as (He' & Hup & Hint).
           exists (Raise e'), st2,
             (fetch_content_request (url_of (JDict d)) :: reqs).
           rewrite (bind_raise _ _ _ _ _ Hloop).
           split; [reflexivity |].
           split; [rewrite Htr, Ht1, <- app_assoc; reflexivity |].
           split; [cbn [List.length]; lia |].
           split; [exact He' | split; [exact Hup |]].
           rewrite Hint. apply interrupted_later.
      * exists (Raise e), st1, [fetch_content_request (url_of (JDict d))].
        destruct (Hraise e eq_refl) as [Hc | Hfst]; [congruence |].
        split; [reflexivity |].
        split; [exact Ht1 |].
        split; [cbn [List.length]; lia |].
        split; [exact He |].
        split.
        -- exists (fetch_content_request (url_of (JDict d))), (world st),
             (world st1).
           rewrite <- Hw.
           destruct (upstream (fetch_content_request (url_of (JDict d)))
                       (world st)) as [o w].
           cbn [fst snd] in *. now rewrite Hfst.
        -- rewrite Hfst, He. reflexivity.
Qed.

(** As long as no per-url call is cancelled the loop returns. *)
Lemma enrich_per_url_spec : forall results,
  EXA_API_KEY <> "" ->
  Forall (fun v => exists d, v = JDict d) results ->
  forall st,
    uninterrupted
      (map (fun stub => fetch_content_request (url_of stub)) results)
      (world st) = true ->
    exists out st',
      enrich_per_url results st = (Ok out, st') /\
      per_url_fallback results st out st' /\
      List.length out = List.length results /\
      trace st'
      = (trace st
         ++ map (fun stub => fetch_content_request (url_of stub)) results)%list.
Proof.
  intros results Hkey Hd st Hcalm.
  destruct (enrich_per_url_outcomes results Hkey Hd st)
    as ([out | e] & st' & reqs & Hrun & Htr & _ & Hr).
  - destruct Hr as (Hrel & Hlen & ->). exists out, st'. auto.
  - destruct Hr as (_ & _ & Hint). congruence.
Qed.

Lemma stubs_are_dicts : forall l,
  Forall is_stub l -> Forall (fun v => exists d, v = JDict d) l.
Proof.
  intros l H. eapply Forall_impl; [| exact H]. apply stub_is_dict.
Qed.

Lemma records_are_dicts : forall l,
  Forall is_record l -> Forall (fun v => exists d, v = JDict d) l.
Proof.
  intros l H. eapply Forall_impl; [| exact H]. apply record_is_dict.
Qed.

(** The search branch of [call_tool] once the search has returned. *)
Lemma search_branch : forall arguments query stubs st st1,
  dict_get arguments "query" = Some query ->
  truthy query = true ->
  truthy (get_or arguments "include_text" (JBool false)) = true ->
  exa_web_search query (get_or arguments "num_results" (JInt 3)) st
  = (Ok stubs, st1) ->
  call_tool "exa_web_search" arguments st
  = catch (results <- catch (enrich_bulk stubs (bulk_urls stubs))
                            (fun _ => enrich_per_url stubs) ;;
           ret [text_content (json_dumps (JList results))])
          (fun e => ret [text_content ("Error: " ++ exn_str e)]) st1.
Proof.
  intros arguments query stubs st st1 Hq Htq Hinc Hsearch.
  destruct (exa_web_search_stubs _ _ _ _ _ Hsearch) as [Hstubs _].
  unfold call_tool, call_tool_body. cbn [String.eqb Ascii.eqb Bool.eqb].
  unfold get_or at 1 2. rewrite Hq, Htq. cbn [negb].
  rewrite Hinc. unfold catch at 1 3.
  rewrite (bind_ok _ _ _ _ _ Hsearch).
  unfold bind at 1 3.
  rewrite (bind_ok _ _ _ _ _
             (truthy_urls_dicts stubs st1 (stubs_are_dicts _ Hstubs))).
  reflexivity.
Qed.

Lemma for_each_Forall2 : forall {A : Type} (f : json -> M A)
    (R : json -> A -> Prop) l,
  (forall x st y st', f x st = (Ok y, st') -> R x y) ->
  forall st out st', for_each l f st = (Ok out, st') -> Forall2 R l out.
Proof.
  intros A f R l Hf. induction l as [| x r IH]; intros st out st' H.
  - inversion H. constructor.
  - cbn [for_each] in H.
    apply bind_inv_ok in H. destruct H as (y & st1 & Hy & H).
    apply bind_inv_ok in H. destruct H as (ys & st2 & Hys & H).
    inversion H; subst. constructor; eauto.
Qed.

(** A fetch-one call that returns, returns a record. *)
Lemma exa_fetch_content_record : forall url st c st',
  exa_fetch_content url st = (Ok c, st') -> is_record c.
Proof.
  intros url st c st' H. unfold exa_fetch_content in H.
  apply bind_inv_ok in H. destruct H as ([] & s0 & _ & H).
  apply bind_inv_ok in H. destruct H as (data & s1 & _ & H).
  apply bind_inv_ok in H. destruct H as (results & s2 & _ & H).
  destruct (negb (truthy results)); [discriminate H |].
  apply bind_inv_ok in H. destruct H as (result & s3 & _ & H).
  unfold content_record in H.
  apply bind_inv_ok in H. destruct H as (title & s4 & _ & H).
  apply bind_inv_ok in H. destruct H as (u & s5 & _ & H).
  apply bind_inv_ok in H. destruct H as (txt & s6 & _ & H).
  inversion H. exists title, u, txt. reflexivity.
Qed.

Lemma per_url_fallback_shape : forall stubs st out st',
  per_url_fallback stubs st out st' -> Forall2 stub_or_record stubs out.
Proof.
  intros stubs st out st' H. induction H; constructor; try assumption.
  - right. eapply exa_fetch_content_record. eassumption.
  - left. reflexivity.
Qed.

(** A dict comprehension that completes has built the fold. *)
Lemma url_index_completed : forall contents acc st idx st',
  url_index contents acc st = (Ok idx, st') ->
  idx = fold_left (fun a c => kd_set a (url_of c) c) contents acc.
Proof.
  intros contents. induction contents as [| c r IH]; intros acc st idx st' H.
  - inversion H. reflexivity.
  - cbn [url_index fold_left] in H.
    apply bind_inv_ok in H. destruct H as (k & s1 & Hk & H).
    apply bind_inv_ok in H. destruct H as ([] & s2 & _ & H).
    destruct c; try discriminate Hk.
    inversion Hk; subst. eapply IH. exact H.
Qed.

(** The bulk path leaves a stub or a fetched record in every position. *)
Lemma enrich_bulk_shape : forall stubs urls st out st',
  enrich_bulk stubs urls st = (Ok out, st') ->
  Forall2 stub_or_record stubs out.
Proof.
  intros stubs urls st out st' H. unfold enrich_bulk in H.
  apply bind_inv_ok in H. destruct H as (contents & s1 & Hc & H).
  apply bind_inv_ok in H. destruct H as (idx & s2 & Hi & H).
  pose proof (exa_fetch_contents_records _ _ _ _ _ Hc) as Hrec.
  apply url_index_completed in Hi. fold (url_lookup contents) in Hi. subst idx.
  eapply for_each_Forall2; [| exact H].
  intros x s y s' Hx.
  apply bind_inv_ok in Hx. destruct Hx as (page_url & s3 & _ & Hx).
  apply bind_inv_ok in Hx. destruct Hx as ([] & s4 & _ & Hx).
  inversion Hx; subst. unfold stub_or_record, lookup_or.
  destruct (kd_get (url_lookup contents) page_url) as [c |] eqn:E;
    [right | left; reflexivity].
  destruct (kd_get_entry _ _ _ E) as (k & Hin & _).
  destruct (url_lookup_sound contents) as [H1 _].
  destruct (H1 _ _ Hin) as [Hc' _].
  rewrite Forall_forall in Hrec. apply Hrec. exact Hc'.
Qed.

(** C1 (amended): in a search call with include_text set, when the bulk
    contents fetch returns and the url values of the stubs and of the
    fetched records are hashable, as dictionary keys must be (null, a
    boolean, a number or a string), [call_tool] serializes a list with one
    entry per stub in stub order: a stub whose url is a key of the lookup
    built from the bulk reply is replaced by the record stored there, a stub
    whose url is not in the reply is kept as it was, and nothing is
    requested beyond the bulk fetch. *)
Theorem bulk_success_merges_by_url :
  forall arguments query stubs contents st st1 st2,
  dict_get arguments "query" = Some query ->
  truthy query = true ->
  truthy (get_or arguments "include_text" (JBool false)) = true ->
  exa_web_search query (get_or arguments "num_results" (JInt 3)) st
  = (Ok stubs, st1) ->
  exa_fetch_contents (JList (bulk_urls stubs)) JNull st1 = (Ok contents, st2) ->
  Forall (fun stub => hashable (url_of stub) = true) stubs ->
  Forall (fun c => hashable (url_of c) = true) contents ->
  exists out,
    call_tool "exa_web_search" arguments st
    = (Ok [text_content (json_dumps (JList out))], st2) /\
    List.length out = List.length stubs /\
    Forall2 stub_or_record stubs out /\
    Forall2 (merged contents) stubs out.
Proof.
  intros arguments query stubs contents st st1 st2
    Hq Htq Hinc Hsearch Hbulk Hhs Hhc.
  destruct (exa_web_search_stubs _ _ _ _ _ Hsearch) as [Hstubs Hkey].
  pose proof (exa_fetch_contents_records _ _ _ _ _ Hbulk) as Hrec.
  assert (Hmerge :
    enrich_bulk stubs (bulk_urls stubs) st1
    = (Ok (map (fun stub => lookup_or (url_lookup contents) (url_of stub) stub)
             stubs), st2)).
  { unfold enrich_bulk. rewrite (bind_ok _ _ _ _ _ Hbulk).
    rewrite (bind_ok _ _ _ _ _
               (url_index_dicts contents [] st2
                  (records_are_dicts _ Hrec) Hhc)).
    apply merge_loop_dicts; [apply stubs_are_dicts |]; assumption. }
  exists (map (fun stub => lookup_or (url_lookup contents) (url_of stub) stub)
            stubs).
  split; [| split; [| split]].
  - rewrite (search_branch _ _ _ _ _ Hq Htq Hinc Hsearch).
    unfold catch at 1. unfold bind at 1.
    rewrite (catch_ok _ _ _ _ _ Hmerge). reflexivity.
  - apply length_map.
  - eapply enrich_bulk_shape. exact Hmerge.
  - apply merged_everywhere.
Qed.

(** C2 (amended): in a search call with include_text set, when the bulk
    contents fetch fails, that is raises an [Exception], and no per-url call
    is cancelled, [call_tool] serializes the list produced by one fetch-one
    call per stub in stub order: the fetched record where that call
    returned, the unchanged stub where it raised.  No per-url failure aborts
    the call, the list has the length and order of the stubs, and the
    requests appear in the trace in stub order. *)
Theorem bulk_failure_falls_back_per_url :
  forall arguments query stubs e st st1 st2,
  dict_get arguments "query" = Some query ->
  truthy query = true ->
  truthy (get_or arguments "include_text" (JBool false)) = true ->
  exa_web_search query (get_or arguments "num_results" (JInt 3)) st
  = (Ok stubs, st1) ->
  exa_fetch_contents (JList (bulk_urls stubs)) JNull st1 = (Raise e, st2) ->
  is_exception e = true ->
  uninterrupted (map (fun stub => fetch_content_request (url_of stub)) stubs)
                (world st2) = true ->
  exists out st3,
    call_tool "exa_web_search" arguments st
    = (Ok [text_content (json_dumps (JList out))], st3) /\
    per_url_fallback stubs st2 out st3 /\
    List.length out = List.length stubs /\
    trace st3
    = (trace st2
       ++ map (fun stub => fetch_content_request (url_of stub)) stubs)%list.
Proof.
  intros arguments query stubs e st st1 st2 Hq Htq Hinc Hsearch Hbulk He Hcalm.
  destruct (exa_web_search_stubs _ _ _ _ _ Hsearch) as [Hstubs Hkey].
  assert (Hb : enrich_bulk stubs (bulk_urls stubs) st1 = (Raise e, st2))
    by (unfold enrich_bulk; apply bind_raise; exact Hbulk).
  destruct (enrich_per_url_spec stubs Hkey (stubs_are_dicts _ Hstubs) st2 Hcalm)
    as (out & st3 & Hloop & Hrel & Hlen & Htr).
  exists out, st3. split; [| auto].
  rewrite (search_branch _ _ _ _ _ Hq Htq Hinc Hsearch).
  unfold catch at 1. unfold bind at 1.
  rewrite (catch_raise _ _ _ _ _ Hb He), Hloop. reflexivity.
Qed.

(* ===================================================================== *)
(** ** Further properties of the operation functions *)
(* ===================================================================== *)

Lemma stateless_ret : forall {A : Type} (a : A), stateless (ret a).
Proof. intros A a st r st' H. inversion H. reflexivity. Qed.

Lemma stateless_raise : forall {A : Type} (e : exn), stateless (@raise A e).
Proof. intros A e st r st' H. inversion H. reflexivity. Qed.

Lemma stateless_lift : forall {A : Type} (o : outcome A), stateless (lift o).
Proof. intros A o st r st' H. inversion H. reflexivity. Qed.

Lemma stateless_bind : forall {A B : Type} (m : M A) (k : A -> M B),
  stateless m -> (forall a, stateless (k a)) -> stateless (bind m k).
Proof.
  intros A B m k Hm Hk st r st' H. unfold bind in H.
  destruct (m st) as [[a | e] st1] eqn:E.
  - rewrite <- (Hm _ _ _ E). eapply Hk. exact H.
  - inversion H; subst. eapply Hm. exact E.
Qed.

Lemma stateless_for_each : forall {A : Type} (f : json -> M A) l,
  (forall x, stateless (f x)) -> stateless (for_each l f).
Proof.
  intros A f l Hf. induction l as [| x r IH]; cbn [for_each].
  - apply stateless_ret.
  - apply stateless_bind; [apply Hf |]. intros y.
    apply stateless_bind; [exact IH |]. intros ys. apply stateless_ret.
Qed.

Ltac stateless_steps :=
  repeat first
    [ apply stateless_ret
    | apply stateless_raise
    | apply stateless_lift
    | apply stateless_for_each; intros
    | apply stateless_bind; [| intros]
    | match goal with
      | |- stateless (if ?c then _ else _) => destruct c
      end
    | progress unfold content_record ].

(** One upstream call followed by stateless work issues that one request. *)
Lemma one_call_then_stateless : forall {A : Type} meth url body headers timeout
    (k : json -> M A) st r st',
  (forall data, stateless (k data)) ->
  In ("x-api-key", EXA_API_KEY) headers ->
  bind (http meth url body headers timeout) k st = (r, st') ->
  trace st' = (trace st ++ [mkRequest meth url body headers timeout])%list /\
  one_request st st' meth url timeout.
Proof.
  intros A meth url body headers timeout k st r st' Hk Hh H.
  assert (Ht : trace st'
               = (trace st ++ [mkRequest meth url body headers timeout])%list).
  { unfold bind, http in H.
    destruct (upstream (mkRequest meth url body headers timeout) (world st))
      as [[data | e] w].
    - rewrite (Hk _ _ _ _ H). reflexivity.
    - inversion H. reflexivity. }
  split; [exact Ht |].
  exists (mkRequest meth url body headers timeout). repeat split; assumption.
Qed.

Ltac after_credential H Hkey st :=
  rewrite (bind_ok _ _ _ _ _ (check_api_key_present st Hkey)) in H;
  cbv zeta in H.

Ltac single_request H :=
  eapply one_call_then_stateless in H;
  [ exact (proj2 H)
  | intros; stateless_steps
  | cbn [In]; auto ].

(** X1: with the credential set, every operation function issues exactly
    one upstream request, whatever the reply and whether it returns or
    raises: a POST to its endpoint (a GET for the research poll), with the
    credential header, within 30 seconds, or 60 for the bulk and subpage
    fetches.  Nothing is retried. *)
Theorem operations_issue_one_request :
  EXA_API_KEY <> "" ->
  forall st st',
    (forall query num_results r,
        exa_web_search query num_results st = (r, st') ->
        one_request st st' POST EXA_SEARCH_ENDPOINT 30) /\
    (forall url include_text num_results r,
        exa_find_similar_links url include_text num_results st = (r, st') ->
        one_request st st' POST EXA_FIND_SIMILAR_ENDPOINT 30) /\
    (forall query include_text r,
        exa_answer_question query include_text st = (r, st') ->
        one_request st st' POST EXA_ANSWER_ENDPOINT 30) /\
    (forall instructions model output_schema r,
        exa_research_start instructions model output_schema st = (r, st') ->
        one_request st st' POST EXA_RESEARCH_TASKS_ENDPOINT 30) /\
    (forall task_id r,
        exa_research_poll (JStr task_id) st = (r, st') ->
        one_request st st' GET
          (EXA_RESEARCH_TASKS_ENDPOINT ++ "/" ++ task_id) 30) /\
    (forall url r,
        exa_fetch_content url st = (r, st') ->
        one_request st st' POST EXA_CONTENTS_ENDPOINT 30) /\
    (forall urls livecrawl r,
        truthy urls = true ->
        exa_fetch_contents urls livecrawl st = (r, st') ->
        one_request st st' POST EXA_CONTENTS_ENDPOINT 60) /\
    (forall url subpages subpage_target livecrawl r,
        exa_fetch_subpages url subpages subpage_target livecrawl st = (r, st') ->
        one_request st st' POST EXA_CONTENTS_ENDPOINT 60).
Proof.
  intros Hkey st st'.
  repeat split; intros.
  - unfold exa_web_search in H. after_credential H Hkey st. single_request H.
  - unfold exa_find_similar_links in H. after_credential H Hkey st.
    single_request H.
  - unfold exa_answer_question in H. after_credential H Hkey st.
    single_request H.
  - unfold exa_research_start in H. after_credential H Hkey st.
    single_request H.
  - unfold exa_research_poll in H. after_credential H Hkey st.
    single_request H.
  - unfold exa_fetch_content in H. after_credential H Hkey st.
    single_request H.
  - unfold exa_fetch_contents in H0. after_credential H0 Hkey st.
    rewrite H in H0. cbn [negb] in H0. single_request H0.
  - unfold exa_fetch_subpages in H. after_credential H Hkey st.
    single_request H.
Qed.

Ltac sent_request H :=
  eapply one_call_then_stateless in H;
  [ apply proj1 in H
  | intros; stateless_steps
  | cbn [In]; auto ].

(** X2: optional parameters reach the upstream payload only when they are
    truthy.  The bulk fetch sends urls and text = true, and livecrawl only
    when given; the subpage fetch sends urls = [url], text = true and the
    subpages count, and subpage_target and livecrawl only when given; the
    research start sends the instructions, the model only when given, and
    the output schema, wrapped as output.schema, only when given.  A null
    or empty optional value is never forwarded. *)
Theorem optional_parameters_sent_only_when_truthy :
  EXA_API_KEY <> "" ->
  forall st st',
    (forall urls livecrawl r,
        truthy urls = true ->
        exa_fetch_contents urls livecrawl st = (r, st') ->
        exists payload headers,
          trace st'
          = (trace st ++ [mkRequest POST EXA_CONTENTS_ENDPOINT
                            (Some (JDict payload)) headers 60])%list /\
          dict_get payload "urls" = Some urls /\
          dict_get payload "text" = Some (JBool true) /\
          dict_get payload "livecrawl"
          = (if truthy livecrawl then Some livecrawl else None)) /\
    (forall url subpages subpage_target livecrawl r,
        exa_fetch_subpages url subpages subpage_target livecrawl st = (r, st') ->
        exists payload headers,
          trace st'
          = (trace st ++ [mkRequest POST EXA_CONTENTS_ENDPOINT
                            (Some (JDict payload)) headers 60])%list /\
          dict_get payload "urls" = Some (JList [url]) /\
          dict_get payload "text" = Some (JBool true) /\
          dict_get payload "subpages" = Some subpages /\
          dict_get payload "subpage_target"
          = (if truthy subpage_target then Some subpage_target else None) /\
          dict_get payload "livecrawl"
          = (if truthy livecrawl then Some livecrawl else None)) /\
    (forall instructions model output_schema r,
        exa_research_start instructions model output_schema st = (r, st') ->
        exists payload headers,
          trace st'
          = (trace st ++ [mkRequest POST EXA_RESEARCH_TASKS_ENDPOINT
                            (Some (JDict payload)) headers 30])%list /\
          dict_get payload "instructions" = Some instructions /\
          dict_get payload "model"
          = (if truthy model then Some model else None) /\
          dict_get payload "output"
          = (if truthy output_schema
             then Some (JDict [("schema", output_schema)]) else None)).
Proof.
  intros Hkey st st'. split; [| split].
  - intros urls livecrawl r Hu H.
    unfold exa_fetch_contents in H. after_credential H Hkey st.
    rewrite Hu in H. cbn [negb] in H. sent_request H.
    eexists. eexists. split; [exact H |].
    destruct (truthy livecrawl); repeat split; reflexivity.
  - intros url subpages subpage_target livecrawl r H.
    unfold exa_fetch_subpages in H. after_credential H Hkey st.
    sent_request H.
    eexists. eexists. split; [exact H |].
    destruct (truthy subpage_target), (truthy livecrawl);
      repeat split; reflexivity.
  - intros instructions model output_schema r H.
    unfold exa_research_start in H. after_credential H Hkey st.
    sent_request H.
    eexists. eexists. split; [exact H |].
    destruct (truthy model), (truthy output_schema);
      repeat split; reflexivity.
Qed.

Lemma http_failed : forall meth url body headers timeout st e,
  (forall req, exists w', upstream req (world st) = (Raise e, w')) ->
  exists st', http meth url body headers timeout st = (Raise e, st').
Proof.
  intros meth url body headers timeout st e H. unfold http.
  destruct (H (mkRequest meth url body headers timeout)) as [w' ->].
  eauto.
Qed.

Ltac upstream_raises Hkey Hup st :=
  rewrite (bind_ok _ _ _ _ _ (check_api_key_present st Hkey));
  repeat match goal with
         | Ht : truthy _ = true |- _ => rewrite Ht
         end;
  cbn [negb]; cbv zeta;
  match goal with
  | |- context [http ?m ?u ?b ?h ?t] =>
      let st' := fresh "st'" in
      let Hh := fresh "Hh" in
      destruct (http_failed m u b h t st _ Hup) as [st' Hh];
      exists st'; apply (bind_raise _ _ _ _ _ Hh)
  end.

(** X3: the search request always asks the upstream for text = false and
    forwards num_results as it was given; the find-similar request carries
    the url and text = include_text only: num_results is not sent, so the
    limit of find-similar is applied to the reply on the client side
    alone. *)
Theorem search_and_similar_payloads :
  EXA_API_KEY <> "" ->
  forall st st',
    (forall query num_results r,
        exa_web_search query num_results st = (r, st') ->
        trace st'
        = (trace st
           ++ [mkRequest POST EXA_SEARCH_ENDPOINT
                 (Some (JDict [("query", query); ("num_results", num_results);
                               ("text", JBool false)]))
                 [("x-api-key", EXA_API_KEY)] 30])%list) /\
    (forall url include_text num_results r,
        exa_find_similar_links url include_text num_results st = (r, st') ->
        trace st'
        = (trace st
           ++ [mkRequest POST EXA_FIND_SIMILAR_ENDPOINT
                 (Some (JDict [("url", url); ("text", include_text)]))
                 [("x-api-key", EXA_API_KEY)] 30])%list).
Proof.
  intros Hkey st st'. split.
  - intros query num_results r H.
    unfold exa_web_search in H. after_credential H Hkey st.
    sent_request H. exact H.
  - intros url include_text num_results r H.
    unfold exa_find_similar_links in H. after_credential H Hkey st.
    sent_request H. exact H.
Qed.

(** X4: a failure of the upstream call (transport error, error status,
    undecodable body) leaves every operation function as the very exception
    the client raised: it is neither wrapped nor replaced nor swallowed. *)
Theorem upstream_errors_propagate_unchanged :
  EXA_API_KEY <> "" ->
  forall e st,
    (forall req, exists w', upstream req (world st) = (Raise e, w')) ->
    (forall query num_results, exists st',
        exa_web_search query num_results st = (Raise e, st')) /\
    (forall url include_text num_results, exists st',
        exa_find_similar_links url include_text num_results st
        = (Raise e, st')) /\
    (forall query include_text, exists st',
        exa_answer_question query include_text st = (Raise e, st')) /\
    (forall instructions model output_schema, exists st',
        exa_research_start instructions model output_schema st
        = (Raise e, st')) /\
    (forall task_id, exists st',
        exa_research_poll task_id st = (Raise e, st')) /\
    (forall url, exists st', exa_fetch_content url st = (Raise e, st')) /\
    (forall urls livecrawl,
        truthy urls = true ->
        exists st', exa_fetch_contents urls livecrawl st = (Raise e, st')) /\
    (forall url subpages subpage_target livecrawl, exists st',
        exa_fetch_subpages url subpages subpage_target livecrawl st
        = (Raise e, st')).
Proof.
  intros Hkey e st Hup. repeat split; intros.
  - unfold exa_web_search. upstream_raises Hkey Hup st.
  - unfold exa_find_similar_links. upstream_raises Hkey Hup st.
  - unfold exa_answer_question. upstream_raises Hkey Hup st.
  - unfold exa_research_start. upstream_raises Hkey Hup st.
  - unfold exa_research_poll. upstream_raises Hkey Hup st.
  - unfold exa_fetch_content. upstream_raises Hkey Hup st.
  - unfold exa_fetch_contents. upstream_raises Hkey Hup st.
  - unfold exa_fetch_subpages. upstream_raises Hkey Hup st.
Qed.

Ltac upstream_replies Hkey Hup st :=
  rewrite (bind_ok _ _ _ _ _ (check_api_key_present st Hkey)); cbv zeta;
  match goal with
  | |- context [http ?m ?u ?b ?h ?t] =>
      let st' := fresh "st'" in
      let Hh := fresh "Hh" in
      destruct (http_replied m u b h t st _ Hup) as [st' Hh];
      exists st'; rewrite (bind_ok _ _ _ _ _ Hh)
  end.

(** X5: the answer, research-start and research-poll operations hand the
    decoded upstream body back as it is, whatever JSON value it is (an
    object, but also a list, a string or null): nothing is reshaped or
    checked. *)
Theorem pass_through_operations_return_reply :
  EXA_API_KEY <> "" ->
  forall data st,
    (forall req, exists w', upstream req (world st) = (Ok data, w')) ->
    (forall query include_text, exists st',
        exa_answer_question query include_text st = (Ok data, st')) /\
    (forall instructions model output_schema, exists st',
        exa_research_start instructions model output_schema st
        = (Ok data, st')) /\
    (forall task_id, exists st',
        exa_research_poll task_id st = (Ok data, st')).
Proof.
  intros Hkey data st Hup. repeat split; intros.
  - unfold exa_answer_question. upstream_replies Hkey Hup st. reflexivity.
  - unfold exa_research_start. upstream_replies Hkey Hup st. reflexivity.
  - unfold exa_research_poll. upstream_replies Hkey Hup st. reflexivity.
Qed.

Lemma content_record_of : forall d st,
  content_record (JDict d) st = (Ok (content_of d), st).
Proof. reflexivity. Qed.

Lemma records_of_objects : forall ds st,
  for_each (map JDict ds) content_record st = (Ok (map content_of ds), st).
Proof.
  intros ds st.
  rewrite (for_each_pure content_record
             (fun item => content_of (match item with JDict d => d | _ => [] end))).
  - rewrite map_map. reflexivity.
  - intros x s Hx. apply in_map_iff in Hx. destruct Hx as (d & <- & _).
    apply content_record_of.
Qed.

(** X6: the bulk fetch returns one record per item of the upstream results
    list, all of them and in upstream order, each with exactly the fields
    title, url, text (null where the item lacks one).  The list follows the
    reply, not the urls asked for: it is not cut, padded or reordered to
    match them. *)
Theorem fetch_contents_one_record_per_item : forall urls livecrawl data ds st,
  EXA_API_KEY <> "" ->
  truthy urls = true ->
  (forall req, exists w', upstream req (world st) = (Ok data, w')) ->
  py_get data "results" (JList []) = Ok (JList (map JDict ds)) ->
  exists st',
    exa_fetch_contents urls livecrawl st = (Ok (map content_of ds), st') /\
    List.length (map content_of ds) = List.length ds /\
    Forall (fun out => keys_of out = ["title"; "url"; "text"])
           (map content_of ds).
Proof.
  intros urls livecrawl data ds st Hkey Hu Hup Hres.
  unfold exa_fetch_contents.
  rewrite (bind_ok _ _ _ _ _ (check_api_key_present st Hkey)).
  rewrite Hu. cbn [negb]. cbv zeta.
  match goal with
  | |- context [http ?m ?u ?b ?h ?t] =>
      destruct (http_replied m u b h t st _ Hup) as [st' Hh]
  end.
  exists st'. rewrite (bind_ok _ _ _ _ _ Hh).
  unfold lift at 1. unfold bind at 1. rewrite Hres.
  unfold lift at 1, py_iter. unfold bind at 1.
  split; [apply records_of_objects |].
  split; [apply length_map |].
  apply Forall_forall. intros out Hout. apply in_map_iff in Hout.
  destruct Hout as (d & <- & _). reflexivity.
Qed.

(** X7: fetch-one returns the record of the first item of the upstream
    results list and ignores every further item. *)
Theorem fetch_content_takes_first_result : forall url data d rest st,
  EXA_API_KEY <> "" ->
  (forall req, exists w', upstream req (world st) = (Ok data, w')) ->
  py_get data "results" (JList []) = Ok (JList (JDict d :: rest)) ->
  exists st', exa_fetch_content url st = (Ok (content_of d), st').
Proof.
  intros url data d rest st Hkey Hup Hres.
  unfold exa_fetch_content. upstream_replies Hkey Hup st.
  unfold lift at 1. unfold bind at 1. rewrite Hres. reflexivity.
Qed.

(** X8: fetch-subpages returns the bundle [{page, subpages}]: the page is
    the record of the first item of the upstream results list, the subpages
    are the records of the objects under that item's subpages field, in
    upstream order, and an item without that field gives the empty list. *)
Theorem fetch_subpages_bundle :
  forall url subpages subpage_target livecrawl data d rest subs st,
  EXA_API_KEY <> "" ->
  (forall req, exists w', upstream req (world st) = (Ok data, w')) ->
  py_get data "results" (JList []) = Ok (JList (JDict d :: rest)) ->
  get_or d "subpages" (JList []) = JList (map JDict subs) ->
  exists st',
    exa_fetch_subpages url subpages subpage_target livecrawl st
    = (Ok (JDict [("page", content_of d);
                  ("subpages", JList (map content_of subs))]), st') /\
    (dict_get d "subpages" = None -> subs = []).
Proof.
  intros url subpages subpage_target livecrawl data d rest subs st
    Hkey Hup Hres Hsubs.
  unfold exa_fetch_subpages. upstream_replies Hkey Hup st.
  split.
  - unfold lift at 1. unfold bind at 1. rewrite Hres. cbn [truthy negb].
    unfold lift at 1, py_index0. unfold bind at 1.
    rewrite (bind_ok _ _ _ _ _ (content_record_of d st')).
    unfold lift at 1, py_get. unfold bind at 1. rewrite Hsubs.
    unfold lift at 1, py_iter. unfold bind at 1.
    rewrite (bind_ok _ _ _ _ _ (records_of_objects subs st')). reflexivity.
  - intros Hnone. unfold get_or in Hsubs. rewrite Hnone in Hsubs.
    inversion Hsubs as [Hm]. destruct subs; [reflexivity | discriminate Hm].
Qed.

Lemma search_sliced : forall query num_results stop data ds st,
  EXA_API_KEY <> "" ->
  (forall req, exists w', upstream req (world st) = (Ok data, w')) ->
  py_get data "results" (JList []) = Ok (JList (map JDict ds)) ->
  slice_index num_results = Ok stop ->
  exists st',
    exa_web_search query num_results st
    = (Ok (map search_stub (slice_to ds stop)), st').
Proof.
  intros query num_results stop data ds st Hkey Hup Hres Hstop.
  unfold exa_web_search. upstream_replies Hkey Hup st.
  unfold lift at 1. unfold bind at 1. rewrite Hres.
  unfold lift at 1, py_slice. unfold bind at 1. rewrite Hstop.
  unfold lift at 1, py_iter. unfold bind at 1.
  assert (Hmap : slice_to (map JDict ds) stop = map JDict (slice_to ds stop)).
  { unfold slice_to. destruct stop as [k |]; [| reflexivity].
    rewrite length_map. destruct (k <? 0); apply firstn_map. }
  rewrite Hmap.
  rewrite (for_each_pure _ (fun item => search_stub
             (match item with JDict d => d | _ => [] end))).
  - rewrite map_map. reflexivity.
  - intros x s Hx. apply in_map_iff in Hx. destruct Hx as (d & <- & _).
    apply search_loop_body.
Qed.

(** X9: what the search does with a num_results that is no count.  With
    null it returns every upstream item; with a negative integer k it
    returns all items but the last |k| (none when there are at most |k|);
    with a value that is neither an integer, a boolean nor null (a string,
    a float, a list, an object) it raises the TypeError of the slice, and
    that only once the upstream has replied. *)
Theorem search_slice_semantics : forall query data ds st,
  EXA_API_KEY <> "" ->
  (forall req, exists w', upstream req (world st) = (Ok data, w')) ->
  py_get data "results" (JList []) = Ok (JList (map JDict ds)) ->
  (exists st',
      exa_web_search query JNull st = (Ok (map search_stub ds), st')) /\
  (forall k, k < 0 ->
      exists st',
        exa_web_search query (JInt k) st
        = (Ok (map search_stub
                 (firstn (List.length ds - Z.to_nat (- k)) ds)), st')) /\
  (forall v, v <> JNull -> (forall z, v <> JInt z) -> (forall b, v <> JBool b) ->
      exists st',
        exa_web_search query v st
        = (Raise (mkExn PyTypeError
             "slice indices must be integers or None or have an __index__ method"),
           st') /\
        one_request st st' POST EXA_SEARCH_ENDPOINT 30).
Proof.
  intros query data ds st Hkey Hup Hres. split; [| split].
  - apply (search_sliced query JNull None data ds st Hkey Hup Hres eq_refl).
  - intros k Hk.
    destruct (search_sliced query (JInt k) (Some k) data ds st Hkey Hup Hres
                eq_refl) as [st' H].
    exists st'. rewrite H. unfold slice_to.
    destruct (Z.ltb_spec k 0) as [_ | Hge]; [| lia].
    replace (Z.to_nat (Z.of_nat (List.length ds) + k))
      with (List.length ds - Z.to_nat (- k))%nat by lia.
    reflexivity.
  - intros v Hnull Hint Hbool.
    assert (Hbad : slice_index v
                   = Raise (mkExn PyTypeError
             "slice indices must be integers or None or have an __index__ method")).
    { destruct v; try reflexivity;
        [ contradiction | exfalso; eapply Hbool; reflexivity
        | exfalso; eapply Hint; reflexivity ]. }
    assert (Hrun : exists st',
      exa_web_search query v st
      = (Raise (mkExn PyTypeError
           "slice indices must be integers or None or have an __index__ method"),
         st')).
    { unfold exa_web_search. upstream_replies Hkey Hup st.
      unfold lift at 1. unfold bind at 1. rewrite Hres.
      unfold lift at 1, py_slice. unfold bind at 1. rewrite Hbad.
      reflexivity. }
    destruct Hrun as [st' Hrun]. exists st'. split; [exact Hrun |].
    unfold exa_web_search in Hrun. after_credential Hrun Hkey st.
    single_request Hrun.
Qed.

Lemma fallback_is_filled : forall item st v st',
  (summary <- lift (py_get item "summary" JNull) ;;
   ret (py_or summary (JStr ""))) st = (Ok v, st') ->
  filled v.
Proof.
  intros item st v st' H.
  apply bind_inv_ok in H. destruct H as (summary & s1 & _ & H).
  inversion H. unfold py_or, filled.
  destruct (truthy summary) eqn:E; [left; exact E | right; reflexivity].
Qed.

(** X10: the shapes that the operation functions return are field-stable.
    Whenever the search returns, every result has exactly the fields title,
    url, snippet and the snippet is never null: it is a truthy value or the
    empty string.  Whenever find-similar returns, every result has exactly
    title, url, score, text, the text being null without include_text and
    otherwise filled in the same way.  Whenever one of the three content
    fetches returns, every page is a record of exactly title, url, text.
    This holds for any upstream reply and any arguments. *)
Theorem results_are_field_stable : forall st st',
  (forall query num_results out,
      exa_web_search query num_results st = (Ok out, st') ->
      Forall (fun o => exists title url snippet,
                o = JDict [("title", title); ("url", url);
                           ("snippet", snippet)] /\ filled snippet) out) /\
  (forall url include_text num_results out,
      exa_find_similar_links url include_text num_results st = (Ok out, st') ->
      Forall (fun o => exists title link score txt,
                o = JDict [("title", title); ("url", link); ("score", score);
                           ("text", txt)] /\
                (if truthy include_text then filled txt else txt = JNull))
             out) /\
  (forall url out,
      exa_fetch_content url st = (Ok out, st') -> is_record out) /\
  (forall urls livecrawl out,
      exa_fetch_contents urls livecrawl st = (Ok out, st') ->
      Forall is_record out) /\
  (forall url subpages subpage_target livecrawl out,
      exa_fetch_subpages url subpages subpage_target livecrawl st
      = (Ok out, st') ->
      exists page subs,
        out = JDict [("page", page); ("subpages", JList subs)] /\
        is_record page /\ Forall is_record subs).
Proof.
  intros st st'. repeat split.
  - intros query num_results out H. unfold exa_web_search in H.
    apply bind_inv_ok in H. destruct H as ([] & s0 & _ & H).
    apply bind_inv_ok in H. destruct H as (data & s1 & _ & H).
    apply bind_inv_ok in H. destruct H as (found & s2 & _ & H).
    apply bind_inv_ok in H. destruct H as (sliced & s3 & _ & H).
    apply bind_inv_ok in H. destruct H as (items & s4 & _ & H).
    eapply for_each_Forall; [| exact H].
    clear. intros x st y st' H.
    apply bind_inv_ok in H. destruct H as (title & s1 & _ & H).
    apply bind_inv_ok in H. destruct H as (url & s2 & _ & H).
    apply bind_inv_ok in H. destruct H as (txt & s3 & _ & H).
    apply bind_inv_ok in H. destruct H as (snippet & s4 & Hs & H).
    inversion H. exists title, url, snippet. split; [reflexivity |].
    destruct (truthy txt) eqn:E.
    + inversion Hs; subst. left. exact E.
    + eapply fallback_is_filled. exact Hs.
  - intros url include_text num_results out H.
    unfold exa_find_similar_links in H.
    apply bind_inv_ok in H. destruct H as ([] & s0 & _ & H).
    apply bind_inv_ok in H. destruct H as (data & s1 & _ & H).
    apply bind_inv_ok in H. destruct H as (found & s2 & _ & H).
    apply bind_inv_ok in H. destruct H as (sliced & s3 & _ & H).
    apply bind_inv_ok in H. destruct H as (items & s4 & _ & H).
    eapply for_each_Forall; [| exact H].
    clear. intros x st y st' H.
    apply bind_inv_ok in H. destruct H as (title & s1 & _ & H).
    apply bind_inv_ok in H. destruct H as (link & s2 & _ & H).
    apply bind_inv_ok in H. destruct H as (score & s3 & _ & H).
    apply bind_inv_ok in H. destruct H as (txt & s4 & Hs & H).
    inversion H. exists title, link, score, txt. split; [reflexivity |].
    destruct (truthy include_text).
    + apply bind_inv_ok in Hs. destruct Hs as (t & s5 & _ & Hs).
      destruct (truthy t) eqn:E.
      * inversion Hs; subst. left. exact E.
      * eapply fallback_is_filled. exact Hs.
    + inversion Hs. reflexivity.
  - intros url out H. eapply exa_fetch_content_record. exact H.
  - intros urls livecrawl out H. eapply exa_fetch_contents_records. exact H.
  - intros url subpages subpage_target livecrawl out H.
    unfold exa_fetch_subpages in H.
    apply bind_inv_ok in H. destruct H as ([] & s0 & _ & H). cbv zeta in H.
    apply bind_inv_ok in H. destruct H as (data & s1 & _ & H).
    apply bind_inv_ok in H. destruct H as (results & s2 & _ & H).
    destruct (negb (truthy results)); [discriminate H |].
    apply bind_inv_ok in H. destruct H as (result & s3 & _ & H).
    apply bind_inv_ok in H. destruct H as (page & s4 & Hp & H).
    apply bind_inv_ok in H. destruct H as (nested & s5 & _ & H).
    apply bind_inv_ok in H. destruct H as (subs & s6 & _ & H).
    apply bind_inv_ok in H. destruct H as (rs & s7 & Hrs & H).
    inversion H. exists page, rs. split; [reflexivity |].
    assert (Hrec : forall x s y s', content_record x s = (Ok y, s') ->
                                    is_record y).
    { clear. intros x s y s' H. unfold content_record in H.
      apply bind_inv_ok in H. destruct H as (title & s1 & _ & H).
      apply bind_inv_ok in H. destruct H as (url & s2 & _ & H).
      apply bind_inv_ok in H. destruct H as (txt & s3 & _ & H).
      inversion H. exists title, url, txt. reflexivity. }
    split; [eapply Hrec; exact Hp |].
    eapply for_each_Forall; [exact Hrec | exact Hrs].
Qed.

(** X11: a reply that is not a JSON object (a list, a string, a number,
    null) makes each of the five reshaping operations raise the
    AttributeError of the missing [get] method, naming the type of the
    reply; the reply is not treated as "no results". *)
Theorem non_object_reply_raises_attribute_error : forall data st,
  EXA_API_KEY <> "" ->
  (forall req, exists w', upstream req (world st) = (Ok data, w')) ->
  is_dict data = false ->
  let err := mkExn PyAttributeError
               ("'" ++ type_name data ++ "' object has no attribute 'get'") in
  (forall query num_results, exists st',
      exa_web_search query num_results st = (Raise err, st')) /\
  (forall url include_text num_results, exists st',
      exa_find_similar_links url include_text num_results st
      = (Raise err, st')) /\
  (forall url, exists st', exa_fetch_content url st = (Raise err, st')) /\
  (forall urls livecrawl,
      truthy urls = true ->
      exists st', exa_fetch_contents urls livecrawl st = (Raise err, st')) /\
  (forall url subpages subpage_target livecrawl, exists st',
      exa_fetch_subpages url subpages subpage_target livecrawl st
      = (Raise err, st')).
Proof.
  intros data st Hkey Hup Hd err.
  assert (Hget : py_get data "results" (JList []) = Raise err)
    by (destruct data; try reflexivity; discriminate Hd).
  repeat split; intros.
  - unfold exa_web_search. upstream_replies Hkey Hup st.
    unfold lift at 1. unfold bind at 1. rewrite Hget. reflexivity.
  - unfold exa_find_similar_links. upstream_replies Hkey Hup st.
    unfold lift at 1. unfold bind at 1. rewrite Hget. reflexivity.
  - unfold exa_fetch_content. upstream_replies Hkey Hup st.
    unfold lift at 1. unfold bind at 1. rewrite Hget. reflexivity.
  - unfold exa_fetch_contents.
    rewrite (bind_ok _ _ _ _ _ (check_api_key_present st Hkey)).
    rewrite H. cbn [negb]. cbv zeta.
    match goal with
    | |- context [http ?m ?u ?b ?h ?t] =>
        destruct (http_replied m u b h t st _ Hup) as [st' Hh]
    end.
    exists st'. rewrite (bind_ok _ _ _ _ _ Hh).
    unfold lift at 1. unfold bind at 1. rewrite Hget. reflexivity.
  - unfold exa_fetch_subpages. upstream_replies Hkey Hup st.
    unfold lift at 1. unfold bind at 1. rewrite Hget. reflexivity.
Qed.

(* ===================================================================== *)
(** ** Further properties of the dispatcher *)
(* ===================================================================== *)

Ltac each_tool Hin :=
  cbn [list_tools In] in Hin;
  repeat (destruct Hin as [<- | Hin]); [.. | contradiction].

Ltac split_validation Hv :=
  unfold passes_validation in Hv;
  cbn [required name forallb String.eqb Ascii.eqb Bool.eqb] in Hv.

(** X12: for every tool of the catalog, arguments that fail the
    dispatcher's checks (a required property of the tool's schema missing or
    falsy, urls not a list, a truthy subpage_target that is not a list) get
    the text "Error: Argument '...", the state is untouched, so nothing is
    requested, and when it is a required property that is missing the
    message names that property. *)
Theorem invalid_arguments_are_rejected_before_any_request :
  forall t arguments st,
  In t list_tools ->
  passes_validation t arguments = false ->
  exists msg,
    call_tool (name t) arguments st
    = (Ok [text_content ("Error: Argument '" ++ msg)], st) /\
    (forall p, In p (required t) ->
               truthy (get_or arguments p JNull) = false ->
               String.prefix (p ++ "'") msg = true).
Proof.
  intros t arguments st Hin Hv. each_tool Hin; split_validation Hv;
    unfold call_tool, catch, call_tool_body;
    cbn [name required String.eqb Ascii.eqb Bool.eqb];
    repeat match type of Hv with
           | context [truthy ?v] => destruct (truthy v) eqn:?
           | context [is_list ?v] => destruct (is_list v) eqn:?
           end;
    cbn [negb andb orb] in *; try discriminate Hv;
    (eexists; split;
     [ reflexivity
     | intros p Hp Hf; cbn [In] in Hp; destruct Hp as [<- | []];
       first [ reflexivity | congruence ] ]).
Qed.

Ltac settle_validation Hv :=
  split_validation Hv;
  unfold call_tool, call_tool_body;
  cbn [name required String.eqb Ascii.eqb Bool.eqb];
  repeat match type of Hv with
         | context [truthy ?v] => destruct (truthy v) eqn:?
         | context [is_list ?v] => destruct (is_list v) eqn:?
         end;
  cbn [negb andb orb] in *; try discriminate Hv; cbv zeta.

Lemma first_call_raises : forall {A B : Type} (m : M A) (k : A -> M B) h
    st e st',
  m st = (Raise e, st') ->
  catch (bind m k) h st = if is_exception e then h e st' else (Raise e, st').
Proof.
  intros A B m k h st e st' H.
  unfold catch. rewrite (bind_raise _ _ _ _ _ H). reflexivity.
Qed.

(** X13: for every tool of the catalog, arguments that pass the
    dispatcher's checks but meet an empty credential get the text "Error:
    EXA_API_KEY environment variable is not set", and nothing is requested:
    at the dispatcher the argument checks come first, the credential check
    second, the network last. *)
Theorem dispatch_without_credential : forall t arguments st,
  EXA_API_KEY = "" ->
  In t list_tools ->
  passes_validation t arguments = true ->
  call_tool (name t) arguments st
  = (Ok [text_content "Error: EXA_API_KEY environment variable is not set"],
     st).
Proof.
  intros t arguments st Hkey Hin Hv.
  pose proof (check_api_key_missing st Hkey) as Hc.
  each_tool Hin; settle_validation Hv;
    match goal with
    | |- catch (bind ?m ?k) ?h st = _ =>
        let H := fresh "H" in
        assert (H : m st
                    = (Raise (Exception
                         "EXA_API_KEY environment variable is not set"), st))
          by apply (bind_raise check_api_key _ st _ st Hc);
        rewrite (first_call_raises m k h st _ st H); reflexivity
    end.
Qed.


(** X15: leaving an optional argument out is the same as passing the value
    the dispatcher takes for it: 3 for num_results, false for include_text,
    5 for subpages, null for livecrawl, subpage_target, model and
    output_schema.  The whole result is the same: text and requests. *)
Theorem omitted_argument_takes_default : forall tool key default arguments st,
  In (tool, (key, default)) argument_defaults ->
  dict_get arguments key = None ->
  call_tool tool arguments st
  = call_tool tool (arguments ++ [(key, default)])%list st.
Proof.
  intros tool key default arguments st Hin H.
  cbn [argument_defaults In] in Hin.
  repeat (destruct Hin as [Hin | Hin];
          [inversion Hin; subst; clear Hin |]); [.. | contradiction];
    unfold call_tool, call_tool_body, get_or;
    cbn [String.eqb Ascii.eqb Bool.eqb];
    rewrite (dict_get_app_new _ _ _ H), H;
    rewrite !dict_get_app_other by discriminate; reflexivity.
Qed.

(** X16: through the dispatcher the answer, research-start and
    research-poll tools return the serialization of the upstream body as it
    came: the text is [json.dumps] of the reply itself. *)
Theorem dispatch_serializes_reply_unchanged : forall arguments data st,
  EXA_API_KEY <> "" ->
  (forall req, exists w', upstream req (world st) = (Ok data, w')) ->
  (truthy (get_or arguments "query" JNull) = true ->
   exists st',
     call_tool "exa_answer_question" arguments st
     = (Ok [text_content (json_dumps data)], st')) /\
  (truthy (get_or arguments "instructions" JNull) = true ->
   exists st',
     call_tool "exa_research_start" arguments st
     = (Ok [text_content (json_dumps data)], st')) /\
  (truthy (get_or arguments "task_id" JNull) = true ->
   exists st',
     call_tool "exa_research_poll" arguments st
     = (Ok [text_content (json_dumps data)], st')).
Proof.
  intros arguments data st Hkey Hup.
  repeat split; intros Ht;
    unfold call_tool, call_tool_body; cbn [String.eqb Ascii.eqb Bool.eqb];
    rewrite Ht; cbn [negb]; cbv zeta;
    match goal with
    | |- exists _, catch (bind ?m ?k) ?h st = _ =>
        let H := fresh "H" in
        let s := fresh "s" in
        assert (H : exists st', m st = (Ok data, st'))
          by (unfold exa_answer_question, exa_research_start,
                exa_research_poll;
              upstream_replies Hkey Hup st; reflexivity);
        destruct H as [s H]; exists s;
        unfold catch; rewrite (bind_ok _ _ _ _ _ H); reflexivity
    end.
Qed.

Lemma kd_get_set_same : forall d k v u,
  same_key k u = true -> kd_get (kd_set d k v) u = Some v.
Proof.
  intros d k v u Hk. induction d as [| [k1 v1] r IH]; cbn [kd_set kd_get].
  - rewrite Hk. reflexivity.
  - destruct (same_key k1 k) eqn:E; cbn [kd_get].
    + rewrite (same_key_trans _ _ _ E Hk). reflexivity.
    + destruct (same_key k1 u) eqn:E1; [| exact IH].
      rewrite (same_key_trans _ _ _ E1 (same_key_sym _ _ Hk)) in E.
      discriminate E.
Qed.

Lemma kd_get_set_other : forall d k v u,
  same_key k u = false -> kd_get (kd_set d k v) u = kd_get d u.
Proof.
  intros d k v u Hk. induction d as [| [k1 v1] r IH]; cbn [kd_set kd_get].
  - rewrite Hk. reflexivity.
  - destruct (same_key k1 k) eqn:E; cbn [kd_get].
    + destruct (same_key k1 u) eqn:E1; [| reflexivity].
      rewrite (same_key_trans _ _ _ (same_key_sym _ _ E) E1) in Hk.
      discriminate Hk.
    + destruct (same_key k1 u); [reflexivity | exact IH].
Qed.

Lemma fold_keeps_lookup : forall after acc u,
  (forall c, In c after -> same_key (url_of c) u = false) ->
  kd_get (fold_left (fun a c => kd_set a (url_of c) c) after acc) u
  = kd_get acc u.
Proof.
  intros after. induction after as [| c r IH]; intros acc u H.
  - reflexivity.
  - cbn [fold_left]. rewrite IH by (intros c' Hc'; apply H; right; exact Hc').
    apply kd_get_set_other. apply H. left. reflexivity.
Qed.

(** X17: when the bulk reply carries several records with the same url, the
    lookup built from it keeps the last of them: a stub with that url is
    replaced by the record that comes last in the reply. *)
Theorem lookup_keeps_last_record : forall before c after u stub st idx st',
  url_index (before ++ c :: after)%list [] st = (Ok idx, st') ->
  same_key (url_of c) u = true ->
  (forall c', In c' after -> same_key (url_of c') u = false) ->
  kd_get idx u = Some c /\ lookup_or idx u stub = c.
Proof.
  intros before c after u stub st idx st' Hidx Hc Hafter.
  apply url_index_completed in Hidx. subst idx.
  assert (H : kd_get (fold_left (fun a x => kd_set a (url_of x) x)
                        (before ++ c :: after)%list []) u = Some c).
  { rewrite fold_left_app. cbn [fold_left].
    rewrite (fold_keeps_lookup after _ u Hafter).
    apply kd_get_set_same. exact Hc. }
  split; [exact H |]. unfold lookup_or. rewrite H. reflexivity.
Qed.

Lemma search_branch_plain : forall arguments query stubs st st1,
  dict_get arguments "query" = Some query ->
  truthy query = true ->
  truthy (get_or arguments "include_text" (JBool false)) = false ->
  exa_web_search query (get_or arguments "num_results" (JInt 3)) st
  = (Ok stubs, st1) ->
  call_tool "exa_web_search" arguments st
  = (Ok [text_content (json_dumps (JList stubs))], st1).
Proof.
  intros arguments query stubs st st1 Hq Htq Hinc Hsearch.
  unfold call_tool, call_tool_body. cbn [String.eqb Ascii.eqb Bool.eqb].
  unfold get_or at 1 2. rewrite Hq, Htq. cbn [negb].
  rewrite Hinc. unfold catch.
  rewrite (bind_ok _ _ _ _ _ Hsearch). reflexivity.
Qed.

(** X18: a search call without include_text (left out, false, or any falsy
    value) serializes the search stubs as they are and issues the search
    request only: no contents request is made. *)
Theorem search_without_text_is_one_request :
  forall arguments query stubs st st1,
  dict_get arguments "query" = Some query ->
  truthy query = true ->
  truthy (get_or arguments "include_text" (JBool false)) = false ->
  exa_web_search query (get_or arguments "num_results" (JInt 3)) st
  = (Ok stubs, st1) ->
  call_tool "exa_web_search" arguments st
  = (Ok [text_content (json_dumps (JList stubs))], st1) /\
  one_request st st1 POST EXA_SEARCH_ENDPOINT 30.
Proof.
  intros arguments query stubs st st1 Hq Htq Hinc Hsearch.
  split; [apply (search_branch_plain _ _ _ _ _ Hq Htq Hinc Hsearch) |].
  destruct (exa_web_search_stubs _ _ _ _ _ Hsearch) as [_ Hkey].
  unfold exa_web_search in Hsearch. after_credential Hsearch Hkey st.
  single_request Hsearch.
Qed.

Lemma no_urls_no_bulk_request : forall livecrawl st,
  EXA_API_KEY <> "" ->
  exists e,
    exa_fetch_contents (JList []) livecrawl st = (Raise e, st) /\
    is_exception e = true.
Proof.
  intros livecrawl st Hkey. unfold exa_fetch_contents.
  rewrite (bind_ok _ _ _ _ _ (check_api_key_present st Hkey)).
  cbn [truthy negb]. eexists. split; reflexivity.
Qed.

(** X19: in a search call with include_text set, when no stub carries a
    usable url (every url is missing, null or empty) no bulk request is
    sent: the bulk fetch rejects its empty url list before the network, and
    the per-url fallback runs straight after the search, with one fetch-one
    request per stub, cancellations apart.  When the search found nothing
    the result is the empty list and the search request is the only one. *)
Theorem search_without_urls_skips_bulk_request :
  forall arguments query stubs st st1,
  dict_get arguments "query" = Some query ->
  truthy query = true ->
  truthy (get_or arguments "include_text" (JBool false)) = true ->
  exa_web_search query (get_or arguments "num_results" (JInt 3)) st
  = (Ok stubs, st1) ->
  bulk_urls stubs = [] ->
  uninterrupted (map (fun stub => fetch_content_request (url_of stub)) stubs)
                (world st1) = true ->
  exists out st',
    call_tool "exa_web_search" arguments st
    = (Ok [text_content (json_dumps (JList out))], st') /\
    per_url_fallback stubs st1 out st' /\
    trace st'
    = (trace st1
       ++ map (fun stub => fetch_content_request (url_of stub)) stubs)%list /\
    (stubs = [] -> out = [] /\ st' = st1).
Proof.
  intros arguments query stubs st st1 Hq Htq Hinc Hsearch Hurls Hcalm.
  destruct (exa_web_search_stubs _ _ _ _ _ Hsearch) as [Hstubs Hkey].
  destruct (no_urls_no_bulk_request JNull st1 Hkey) as (e & He & Hcls).
  assert (Hb : enrich_bulk stubs (bulk_urls stubs) st1 = (Raise e, st1))
    by (rewrite Hurls; unfold enrich_bulk; apply bind_raise; exact He).
  destruct (enrich_per_url_spec stubs Hkey (stubs_are_dicts _ Hstubs) st1 Hcalm)
    as (out & st' & Hloop & Hrel & Hlen & Htr).
  exists out, st'.
  split; [| split; [assumption | split; [assumption |]]].
  - rewrite (search_branch _ _ _ _ _ Hq Htq Hinc Hsearch).
    unfold catch at 1. unfold bind at 1.
    rewrite (catch_raise _ _ _ _ _ Hb Hcls), Hloop. reflexivity.
  - intros ->. inversion Hrel; subst. split; reflexivity.
Qed.

Lemma url_index_stateless : forall contents acc,
  stateless (url_index contents acc).
Proof.
  intros contents. induction contents as [| c r IH]; intros acc;
    cbn [url_index].
  - apply stateless_ret.
  - apply stateless_bind; [apply stateless_lift |]. intros k.
    apply stateless_bind; [apply stateless_lift |]. intros _. apply IH.
Qed.

Lemma bulk_fetch_requests : forall urls livecrawl st r st',
  EXA_API_KEY <> "" ->
  exa_fetch_contents urls livecrawl st = (r, st') ->
  exists reqs,
    trace st' = (trace st ++ reqs)%list /\ (List.length reqs <= 1)%nat.
Proof.
  intros urls livecrawl st r st' Hkey H.
  unfold exa_fetch_contents in H. after_credential H Hkey st.
  destruct (truthy urls); cbn [negb] in H.
  - sent_request H. eexists. split; [exact H | cbn; lia].
  - inversion H. exists []. split; [now rewrite app_nil_r | cbn; lia].
Qed.

Lemma enrich_bulk_requests : forall stubs urls st r st',
  EXA_API_KEY <> "" ->
  enrich_bulk stubs urls st = (r, st') ->
  exists reqs,
    trace st' = (trace st ++ reqs)%list /\ (List.length reqs <= 1)%nat.
Proof.
  intros stubs urls st r st' Hkey H. unfold enrich_bulk in H.
  unfold bind at 1 in H.
  destruct (exa_fetch_contents (JList urls) JNull st) as [[cs | e] s1] eqn:E.
  - assert (Hs : st' = s1).
    { revert H. generalize dependent r.
      assert (Hst : stateless
                (url_to_content <- url_index cs [] ;;
                 for_each stubs (fun item =>
                   page_url <- lift (py_get item "url" JNull) ;;
                   lift (py_hash page_url) ;;;
                   ret (lookup_or url_to_content page_url item)))).
      { apply stateless_bind; [apply url_index_stateless |].
        intros idx. stateless_steps. }
      intros r H. exact (Hst _ _ _ H). }
    subst. eapply bulk_fetch_requests; eassumption.
  - inversion H; subst. eapply bulk_fetch_requests; eassumption.
Qed.

(** The ordering invariant and the request bound: once the search has
    returned, a search call with include_text set either serializes one
    entry per stub, each the stub or a fetched record, on either path (the
    bulk path completed, or it raised an [Exception], in the fetch or in the
    merge, and the per-url fallback ran), or lets through an exception
    outside [Exception] that the upstream raised.  In every case at most one
    bulk request and one request per stub were issued. *)
Lemma enrichment_paths : forall arguments query stubs st st1,
  dict_get arguments "query" = Some query ->
  truthy query = true ->
  truthy (get_or arguments "include_text" (JBool false)) = true ->
  exa_web_search query (get_or arguments "num_results" (JInt 3)) st
  = (Ok stubs, st1) ->
  exists r st' reqs,
    call_tool "exa_web_search" arguments st = (r, st') /\
    trace st' = (trace st1 ++ reqs)%list /\
    (List.length reqs <= 1 + List.length stubs)%nat /\
    match r with
    | Ok l =>
        exists out,
          l = [text_content (json_dumps (JList out))] /\
          List.length out = List.length stubs /\
          Forall2 stub_or_record stubs out /\
          (enrich_bulk stubs (bulk_urls stubs) st1 = (Ok out, st') \/
           exists e st2,
             enrich_bulk stubs (bulk_urls stubs) st1 = (Raise e, st2) /\
             is_exception e = true /\
             per_url_fallback stubs st2 out st' /\
             trace st'
             = (trace st2
                ++ map (fun stub => fetch_content_request (url_of stub))
                     stubs)%list)
    | Raise e =>
        is_exception e = false /\ from_upstream e /\
        (enrich_bulk stubs (bulk_urls stubs) st1 = (Raise e, st') \/
         exists e0 st2,
           enrich_bulk stubs (bulk_urls stubs) st1 = (Raise e0, st2) /\
           is_exception e0 = true /\
           uninterrupted
             (map (fun stub => fetch_content_request (url_of stub)) stubs)
             (world st2) = false)
    end.
Proof.
  intros arguments query stubs st st1 Hq Htq Hinc Hsearch.
  destruct (exa_web_search_stubs _ _ _ _ _ Hsearch) as [Hstubs Hkey].
  rewrite (search_branch _ _ _ _ _ Hq Htq Hinc Hsearch).
  destruct (enrich_bulk stubs (bulk_urls stubs) st1) as [[out | e] s2] eqn:Hb;
    destruct (enrich_bulk_requests _ _ _ _ _ Hkey Hb) as (reqs & Ht & Hn).
  - exists (Ok [text_content (json_dumps (JList out))]), s2, reqs.
    split; [| split; [exact Ht | split; [lia |]]].
    + unfold catch at 1. unfold bind at 1.
      rewrite (catch_ok _ _ _ _ _ Hb). reflexivity.
    + exists out. split; [reflexivity | split; [| split]].
      * unfold enrich_bulk in Hb.
        apply bind_inv_ok in Hb. destruct Hb as (cs & s3 & _ & Hb).
        apply bind_inv_ok in Hb. destruct Hb as (idx & s4 & _ & Hb).
        eapply for_each_length. exact Hb.
      * eapply enrich_bulk_shape. exact Hb.
      * left. reflexivity.
  - destruct (is_exception e) eqn:He.
    + destruct (enrich_per_url_outcomes stubs Hkey (stubs_are_dicts _ Hstubs) s2)
        as ([out | e'] & s3 & reqs' & Hloop & Htr & Hn' & Hr).
      * destruct Hr as (Hrel & Hlen & ->).
        exists (Ok [text_content (json_dumps (JList out))]), s3,
          (reqs ++ map (fun stub => fetch_content_request (url_of stub))
                     stubs)%list.
        split; [| split; [| split]].
        -- unfold catch at 1. unfold bind at 1.
           rewrite (catch_raise _ _ _ _ _ Hb He), Hloop. reflexivity.
        -- rewrite Htr, Ht. now rewrite <- app_assoc.
        -- rewrite length_app, length_map. lia.
        -- exists out. split; [reflexivity | split; [exact Hlen | split]].
           ++ eapply per_url_fallback_shape. exact Hrel.
           ++ right. exists e, s2. auto.
      * destruct Hr as (He' & Hup & Hint).
        exists (Raise e'), s3, (reqs ++ reqs')%list.
        split; [| split; [| split]].
        -- unfold catch at 1. unfold bind at 1.
           rewrite (catch_raise _ _ _ _ _ Hb He), Hloop, He'. reflexivity.
        -- rewrite Htr, Ht. now rewrite <- app_assoc.
        -- rewrite length_app. lia.
        -- split; [exact He' | split; [exact Hup |]].
           right. exists e, s2. auto.
    + exists (Raise e), s2, reqs.
      split; [| split; [exact Ht | split; [lia |]]].
      * unfold catch at 1. unfold bind at 1.
        rewrite (catch_pass _ _ _ _ _ Hb He), He. reflexivity.
      * split; [exact He | split; [| left; reflexivity]].
        destruct (enrich_bulk_guarded _ _ _ _ _ Hb) as [H | H];
          [congruence | exact H].
Qed.

(** X20: a search call with include_text set never issues more requests
    than the search, one bulk fetch and one fetch per stub, whatever the
    upstream does; and whichever path enrichment takes, the serialized list
    has one entry per stub, each the stub or a fetched record.  The call
    returns that list unless the upstream raises an exception outside
    [Exception] (a cancellation), which is the one thing it lets through. *)
Theorem enrichment_request_bound : forall arguments query stubs st st1,
  dict_get arguments "query" = Some query ->
  truthy query = true ->
  truthy (get_or arguments "include_text" (JBool false)) = true ->
  exa_web_search query (get_or arguments "num_results" (JInt 3)) st
  = (Ok stubs, st1) ->
  exists r st' reqs,
    call_tool "exa_web_search" arguments st = (r, st') /\
    trace st' = (trace st1 ++ reqs)%list /\
    (List.length reqs <= 1 + List.length stubs)%nat /\
    match r with
    | Ok l =>
        exists out,
          l = [text_content (json_dumps (JList out))] /\
          List.length out = List.length stubs /\
          Forall2 stub_or_record stubs out
    | Raise e => is_exception e = false /\ from_upstream e
    end.
Proof.
  intros arguments query stubs st st1 Hq Htq Hinc Hsearch.
  destruct (enrichment_paths _ _ _ _ _ Hq Htq Hinc Hsearch)
    as ([l | e] & st' & reqs & Hcall & Htr & Hn & Hr);
    [exists (Ok l), st', reqs | exists (Raise e), st', reqs];
    repeat (split; [assumption |]).
  - destruct Hr as (out & Hl & Hlen & Hshape & _). exists out. auto.
  - destruct Hr as (He & Hup & _). auto.
Qed.

(* ===================================================================== *)
(** ** Further properties of the legacy dispatcher *)
(* ===================================================================== *)

(** X21: the legacy dispatcher of [main] returns what the registered one
    returns, text and requests alike, for every tool name and argument bag
    except one case: the fetch-contents tool called with a [urls] that is
    empty, missing or not a list.  In particular the two [elif] branches
    that [main] repeats change nothing. *)
Theorem legacy_dispatcher_agrees : forall tool arguments st,
  (tool = "exa_fetch_contents" ->
   truthy (get_or arguments "urls" JNull) = true /\
   is_list (get_or arguments "urls" JNull) = true) ->
  legacy_call_tool tool arguments st = call_tool tool arguments st.
Proof.
  intros tool arguments st H.
  unfold call_tool, legacy_call_tool, catch, call_tool_body,
    legacy_call_tool_body, enrich_bulk, enrich_per_url.
  destruct (String.eqb tool "exa_web_search"); [reflexivity |].
  destruct (String.eqb tool "exa_fetch_content"); [reflexivity |].
  destruct (String.eqb tool "exa_find_similar_links"); [reflexivity |].
  destruct (String.eqb_spec tool "exa_fetch_contents") as [E | E].
  - destruct (H E) as [-> ->]. reflexivity.
  - destruct (String.eqb tool "exa_fetch_subpages"); reflexivity.
Qed.

Lemma call_tool_text_or_escape : forall tool arguments st,
  (exists t st', call_tool tool arguments st = (Ok [t], st') /\ type t = "text")
  \/
  (exists e st',
      call_tool tool arguments st = (Raise e, st') /\
      is_exception e = false /\ from_upstream e).
Proof.
  intros tool arguments st.
  destruct (text_or_escape (call_tool_body tool arguments) st
              (call_tool_body_guarded tool arguments)
              (fun l st' H => call_tool_body_single _ _ _ _ _ H))
    as [(t & st' & H & Ht & _) | (e & st' & H & _ & He & Hup)];
    [left | right]; eauto.
Qed.

(** X22: the legacy dispatcher, too, returns exactly one text item for every
    tool name and argument bag and lets no [Exception] escape.  Its handler
    is [except Exception] as well, so the one thing that leaves it is an
    exception outside [Exception] (a cancellation, an interrupt) that the
    upstream call raised. *)
Theorem legacy_call_tool_catches_exceptions : forall tool arguments st,
  (exists t st',
      legacy_call_tool tool arguments st = (Ok [t], st') /\ type t = "text")
  \/
  (exists e st',
      legacy_call_tool tool arguments st = (Raise e, st') /\
      is_exception e = false /\ from_upstream e).
Proof.
  intros tool arguments st.
  destruct (String.eqb_spec tool "exa_fetch_contents") as [-> | Hne].
  - destruct (truthy (get_or arguments "urls" JNull)
              && is_list (get_or arguments "urls" JNull)) eqn:E.
    + apply andb_true_iff in E.
      rewrite <- (dispatchers_agree_elsewhere _ _ _ (fun _ => E)).
      apply call_tool_text_or_escape.
    + left. unfold legacy_call_tool, catch, legacy_call_tool_body.
      cbn [String.eqb Ascii.eqb Bool.eqb].
      destruct (truthy (get_or arguments "urls" JNull)),
               (is_list (get_or arguments "urls" JNull));
        try discriminate E; cbn [negb orb];
        eexists; eexists; split; reflexivity.
  - rewrite <- (dispatchers_agree_elsewhere _ _ _
                  (fun Heq => False_ind _ (Hne Heq))).
    apply call_tool_text_or_escape.
Qed.

End Server.

(* ===================================================================== *)
(** ** Concrete runs *)
(* ===================================================================== *)

Import Sample.

Local Notation "'fresh' replies" := (mkState script replies [])
  (at level 10, replies at level 9).
Local Notation "'sample_call_tool'" :=
  (call_tool script scripted "test-key" dumps str_of slice_key_error slice_message).
Local Notation "'search_request' k" :=
  (mkRequest POST EXA_SEARCH_ENDPOINT
     (Some (JDict [("query", JStr "q"); ("num_results", JInt k);
                   ("text", JBool false)]))
     [("x-api-key", "test-key")] 30)
  (at level 10, k at level 9).
Local Notation "'contents_request' urls 'within' t" :=
  (mkRequest POST EXA_CONTENTS_ENDPOINT
     (Some (JDict [("urls", JList urls); ("text", JBool true)]))
     [("x-api-key", "test-key")] t)
  (at level 10, urls at level 9, t at level 9).

(** Stubs A, B, C and a bulk reply that carries A only. *)
Lemma bulk_success_merges_by_url_witness :
  exists out,
    sample_call_tool "exa_web_search" search_with_text
      (fresh [Ok search_reply; Ok only_a_reply])
    = (Ok [text_content (dumps (JList out))],
       mkState script []
         [search_request 3;
          contents_request [JStr "https://a.com"; JStr "https://b.com";
                            JStr "https://c.com"] within 60]) /\
    List.length out
    = List.length [search_stub item_a; search_stub item_b; search_stub item_c]
    /\
    Forall2 stub_or_record
      [search_stub item_a; search_stub item_b; search_stub item_c] out /\
    Forall2 (merged [JDict page_a])
      [search_stub item_a; search_stub item_b; search_stub item_c] out.
Proof.
  apply (bulk_success_merges_by_url script scripted "test-key" dumps str_of
           slice_key_error slice_message search_with_text (JStr "q")
           [search_stub item_a; search_stub item_b; search_stub item_c]
           [JDict page_a]
           (fresh [Ok search_reply; Ok only_a_reply])
           (mkState script [Ok only_a_reply] [search_request 3])
           (mkState script []
              [search_request 3;
               contents_request [JStr "https://a.com"; JStr "https://b.com";
                                 JStr "https://c.com"] within 60]));
    try reflexivity; repeat constructor.
Defined.

(** C1, as stated, fails when a url is not hashable.  The search returns X,
    whose url is an array, and B; the bulk fetch succeeds and returns the
    record of B, so that the url of B is a key of the lookup.  The merge
    raises a TypeError on the url of X, inside the same [try], the per-url
    fallback runs, and there the fetch for B fails: B is kept as a stub
    although the bulk reply carried its record. *)
Lemma bulk_success_array_url_counterexample :
  exa_fetch_contents script scripted "test-key"
    (JList (bulk_urls [search_stub item_x; search_stub item_b])) JNull
    (mkState script [Ok only_b_reply; Ok only_a_reply; Raise not_found]
       [search_request 3])
  = (Ok [JDict page_b],
     mkState script [Ok only_a_reply; Raise not_found]
       [search_request 3;
        contents_request [JList [JStr "x"]; JStr "https://b.com"] within 60])
  /\
  kd_get (url_lookup [JDict page_b]) (url_of (search_stub item_b))
  = Some (JDict page_b) /\
  sample_call_tool "exa_web_search" search_with_text
    (fresh [Ok array_url_reply; Ok only_b_reply; Ok only_a_reply;
            Raise not_found])
  = (Ok [text_content (dumps (JList [JDict page_a; search_stub item_b]))],
     mkState script []
       [search_request 3;
        contents_request [JList [JStr "x"]; JStr "https://b.com"] within 60;
        contents_request [JList [JStr "x"]] within 30;
        contents_request [JStr "https://b.com"] within 30]) /\
  search_stub item_b <> JDict page_b.
Proof.
  split; [vm_compute; reflexivity |].
  split; [vm_compute; reflexivity |].
  split; [vm_compute; reflexivity | discriminate].
Qed.

(** The same run, evaluated: A is replaced, B and C are kept. *)
Example bulk_success_run :
  sample_call_tool "exa_web_search" search_with_text
    (fresh [Ok search_reply; Ok only_a_reply])
  = (Ok [text_content
           (dumps (JList [JDict page_a; search_stub item_b;
                          search_stub item_c]))],
     mkState script []
       [search_request 3;
        contents_request [JStr "https://a.com"; JStr "https://b.com";
                          JStr "https://c.com"] within 60]).
Proof. vm_compute. reflexivity. Qed.

(** Bulk fetch fails; per-url fetch returns A, fails for B, finds nothing
    for C. *)
Lemma bulk_failure_falls_back_per_url_witness :
  exists out st3,
    sample_call_tool "exa_web_search" search_with_text
      (fresh [Ok search_reply; Raise bulk_failure; Ok only_a_reply;
              Raise not_found; Ok empty_reply])
    = (Ok [text_content (dumps (JList out))], st3) /\
    per_url_fallback script scripted "test-key"
      [search_stub item_a; search_stub item_b; search_stub item_c]
      (mkState script [Ok only_a_reply; Raise not_found; Ok empty_reply]
         [search_request 3;
          contents_request [JStr "https://a.com"; JStr "https://b.com";
                            JStr "https://c.com"] within 60])
      out st3 /\
    List.length out
    = List.length [search_stub item_a; search_stub item_b; search_stub item_c]
    /\
    trace script st3
    = ([search_request 3;
        contents_request [JStr "https://a.com"; JStr "https://b.com";
                          JStr "https://c.com"] within 60]
       ++ map (fun stub => fetch_content_request "test-key" (url_of stub))
            [search_stub item_a; search_stub item_b; search_stub item_c])%list.
Proof.
  apply (bulk_failure_falls_back_per_url script scripted "test-key" dumps
           str_of slice_key_error slice_message search_with_text (JStr "q")
           [search_stub item_a; search_stub item_b; search_stub item_c]
           bulk_failure
           (fresh [Ok search_reply; Raise bulk_failure; Ok only_a_reply;
                   Raise not_found; Ok empty_reply])
           (mkState script [Raise bulk_failure; Ok only_a_reply;
                            Raise not_found; Ok empty_reply]
              [search_request 3])).
  - reflexivity.
  - reflexivity.
  - reflexivity.
  - reflexivity.
  - reflexivity.
  - reflexivity.
  - reflexivity.
Defined.

(** The same run, evaluated: the record for A, then the stubs B and C;
    one fetch-one request per stub, in stub order. *)
Example bulk_failure_run :
  sample_call_tool "exa_web_search" search_with_text
    (fresh [Ok search_reply; Raise bulk_failure; Ok only_a_reply;
            Raise not_found; Ok empty_reply])
  = (Ok [text_content
           (dumps (JList [JDict page_a; search_stub item_b;
                          search_stub item_c]))],
     mkState script []
       [search_request 3;
        contents_request [JStr "https://a.com"; JStr "https://b.com";
                          JStr "https://c.com"] within 60;
        contents_request [JStr "https://a.com"] within 30;
        contents_request [JStr "https://b.com"] within 30;
        contents_request [JStr "https://c.com"] within 30]).
Proof. vm_compute. reflexivity. Qed.

(** C2, as stated, fails when a call is cancelled.  Here the bulk fetch
    fails with an HTTP error and the fallback fetches A; the fetch for B is
    cancelled, and the [asyncio.CancelledError] passes the [except
    Exception] around the fetch-one call: B is not kept, the loop stops, C
    is never asked for, and the call raises. *)
Lemma bulk_failure_cancelled_fetch_counterexample :
  exa_fetch_contents script scripted "test-key"
    (JList (bulk_urls [search_stub item_a; search_stub item_b;
                       search_stub item_c])) JNull
    (mkState script [Raise bulk_failure; Ok only_a_reply; Raise cancelled;
                     Ok empty_reply]
       [search_request 3])
  = (Raise bulk_failure,
     mkState script [Ok only_a_reply; Raise cancelled; Ok empty_reply]
       [search_request 3;
        contents_request [JStr "https://a.com"; JStr "https://b.com";
                          JStr "https://c.com"] within 60]) /\
  is_exception cancelled = false /\
  sample_call_tool "exa_web_search" search_with_text
    (fresh [Ok search_reply; Raise bulk_failure; Ok only_a_reply;
            Raise cancelled; Ok empty_reply])
  = (Raise cancelled,
     mkState script [Ok empty_reply]
       [search_request 3;
        contents_request [JStr "https://a.com"; JStr "https://b.com";
                          JStr "https://c.com"] within 60;
        contents_request [JStr "https://a.com"] within 30;
        contents_request [JStr "https://b.com"] within 30]).
Proof.
  split; [vm_compute; reflexivity |].
  split; [reflexivity | vm_compute; reflexivity].
Qed.

(** Likewise when the bulk fetch itself is cancelled: there is no fallback,
    the call raises after the bulk request. *)
Example cancelled_bulk_run :
  sample_call_tool "exa_web_search" search_with_text
    (fresh [Ok search_reply; Raise cancelled; Ok only_a_reply])
  = (Raise cancelled,
     mkState script [Ok only_a_reply]
       [search_request 3;
        contents_request [JStr "https://a.com"; JStr "https://b.com";
                          JStr "https://c.com"] within 60]).
Proof. vm_compute. reflexivity. Qed.

(** Without credential the bulk fetch reports the credential, not its empty
    url list, and the script is untouched. *)
Lemma credential_checked_first_witness :
  exa_fetch_contents script scripted "" (JList []) JNull
    (fresh [Ok only_a_reply])
  = (Raise (Exception "EXA_API_KEY environment variable is not set"),
     fresh [Ok only_a_reply]).
Proof.
  exact (proj1 (proj2 (proj2 (proj2
           (credential_checked_first script scripted "" str_of slice_key_error slice_message
              eq_refl (fresh [Ok only_a_reply])))))
           (JList []) JNull).
Defined.

Lemma search_returns_first_k_witness :
  exists st',
    exa_web_search script scripted "test-key" slice_key_error slice_message (JStr "hello")
      (JInt 2) (fresh [Ok search_reply])
    = (Ok (map search_stub (first_items 2 [item_a; item_b; item_c])), st').
Proof.
  refine (proj1 (search_returns_first_k script scripted "test-key" dumps
                   str_of slice_key_error slice_message (JStr "hello") 2 search_reply
                   [item_a; item_b; item_c] (fresh [Ok search_reply])
                   _ _ _ _)).
  - discriminate.
  - lia.
  - intros req. eexists. reflexivity.
  - reflexivity.
Defined.

(** [search("hello", num_results=2)]: two stubs, the second snippet taken
    from the summary. *)
Example search_two_results :
  exa_web_search script scripted "test-key" slice_key_error slice_message (JStr "hello")
    (JInt 2) (fresh [Ok search_reply])
  = (Ok [JDict [("title", JStr "A"); ("url", JStr "https://a.com");
                ("snippet", JStr "alpha")];
         JDict [("title", JStr "B"); ("url", JStr "https://b.com");
                ("snippet", JStr "bravo")]],
     mkState script []
       [mkRequest POST EXA_SEARCH_ENDPOINT
          (Some (JDict [("query", JStr "hello"); ("num_results", JInt 2);
                        ("text", JBool false)]))
          [("x-api-key", "test-key")] 30]).
Proof. vm_compute. reflexivity. Qed.

(** C5, as stated, fails for a negative num_results: with three upstream
    items and num_results = -1 the slice drops the last item and two stubs
    come back, where the first min(-1, 3) items are none. *)
Lemma search_negative_num_results_counterexample :
  exists st',
    exa_web_search script scripted "test-key" slice_key_error slice_message (JStr "hello")
      (JInt (-1)) (fresh [Ok search_reply])
    = (Ok [search_stub item_a; search_stub item_b], st') /\
    map search_stub (first_items (-1) [item_a; item_b; item_c]) = [] /\
    [search_stub item_a; search_stub item_b]
    <> map search_stub (first_items (-1) [item_a; item_b; item_c]).
Proof.
  eexists. split; [vm_compute; reflexivity |].
  split; [reflexivity | discriminate].
Qed.

Lemma find_similar_shape_witness :
  exists st',
    exa_find_similar_links script scripted "test-key" slice_key_error slice_message
      (JStr "https://seed.com") (JBool false) (JInt 2)
      (fresh [Ok search_reply])
    = (Ok (map (similar_link (JBool false))
             (firstn (Z.to_nat 2) [item_a; item_b; item_c])), st').
Proof.
  refine (proj1 (find_similar_shape script scripted "test-key" slice_key_error slice_message
                   (JStr "https://seed.com") (JBool false) 2 search_reply
                   [item_a; item_b; item_c] (fresh [Ok search_reply])
                   _ _ _ _)).
  - discriminate.
  - lia.
  - intros req. eexists. reflexivity.
  - reflexivity.
Defined.

(** Without include_text the text field is [None] although the upstream
    items carry a text or a summary; with it, the text or the summary. *)
Example find_similar_text_fields :
  (exists st',
      exa_find_similar_links script scripted "test-key" slice_key_error slice_message
        (JStr "https://seed.com") (JBool false) (JInt 2)
        (fresh [Ok search_reply])
      = (Ok [JDict [("title", JStr "A"); ("url", JStr "https://a.com");
                    ("score", JNull); ("text", JNull)];
             JDict [("title", JStr "B"); ("url", JStr "https://b.com");
                    ("score", JNull); ("text", JNull)]], st')) /\
  (exists st',
      exa_find_similar_links script scripted "test-key" slice_key_error slice_message
        (JStr "https://seed.com") (JBool true) (JInt 3)
        (fresh [Ok search_reply])
      = (Ok [JDict [("title", JStr "A"); ("url", JStr "https://a.com");
                    ("score", JNull); ("text", JStr "alpha")];
             JDict [("title", JStr "B"); ("url", JStr "https://b.com");
                    ("score", JNull); ("text", JStr "bravo")];
             JDict [("title", JStr "C"); ("url", JStr "https://c.com");
                    ("score", JNull); ("text", JStr "")]], st')).
Proof. split; eexists; vm_compute; reflexivity. Qed.

(** C6, as stated, fails for a negative num_results: with three upstream
    items and num_results = -1 two links come back, where the first -1
    items are none. *)
Lemma find_similar_negative_num_results_counterexample :
  exists st',
    exa_find_similar_links script scripted "test-key" slice_key_error slice_message
      (JStr "https://seed.com") (JBool false) (JInt (-1))
      (fresh [Ok search_reply])
    = (Ok [similar_link (JBool false) item_a;
           similar_link (JBool false) item_b], st') /\
    map (similar_link (JBool false))
      (firstn (Z.to_nat (-1)) [item_a; item_b; item_c]) = [] /\
    [similar_link (JBool false) item_a; similar_link (JBool false) item_b]
    <> map (similar_link (JBool false))
         (firstn (Z.to_nat (-1)) [item_a; item_b; item_c]).
Proof.
  eexists. split; [vm_compute; reflexivity |].
  split; [reflexivity | discriminate].
Qed.

Lemma empty_results_is_no_content_witness :
  (exists st',
      exa_fetch_content script scripted "test-key" (JStr "https://missing.com")
        (fresh [Ok empty_reply])
      = (Raise (Exception "No content returned from Exa for the given URL"),
         st')) /\
  (exists st',
      exa_fetch_subpages script scripted "test-key" (JStr "https://root.com")
        (JInt 5) JNull JNull (fresh [Ok empty_reply])
      = (Raise (Exception "No content returned from Exa for the given URL"),
         st')).
Proof.
  assert (Hkey : "test-key" <> "") by discriminate.
  assert (Hup : forall req, exists w',
             scripted req (world script (fresh [Ok empty_reply]))
             = (Ok empty_reply, w'))
    by (intros req; eexists; reflexivity).
  destruct (empty_results_is_no_content script scripted "test-key" empty_reply
              (fresh [Ok empty_reply]) Hkey Hup) as [Hempty _].
  destruct (Hempty eq_refl) as [Hone Hsub].
  split; [apply Hone | apply Hsub].
Defined.

Lemma unknown_tool_is_text_result_witness :
  sample_call_tool "nonexistent_tool" [] (fresh [Ok search_reply])
  = (Ok [text_content "Error: Unknown tool 'nonexistent_tool'"],
     fresh [Ok search_reply]).
Proof.
  apply (unknown_tool_is_text_result script scripted "test-key" dumps str_of
           slice_key_error slice_message "nonexistent_tool" [] (fresh [Ok search_reply])).
  cbn. intros H. repeat (destruct H as [H | H]; [discriminate H |]). exact H.
Defined.

Lemma subpage_target_must_be_list_witness :
  sample_call_tool "exa_fetch_subpages" subpages_bad_target
    (fresh [Ok only_a_reply])
  = (Ok [text_content
           "Error: Argument 'subpage_target' must be an array of strings if provided"],
     fresh [Ok only_a_reply])
  /\ mentions "subpage_target"
       "Error: Argument 'subpage_target' must be an array of strings if provided"
     = true.
Proof.
  apply (subpage_target_must_be_list script scripted "test-key" dumps str_of
           slice_key_error slice_message subpages_bad_target (fresh [Ok only_a_reply])
           (JStr "https://example.com") (JStr "not-a-list"));
    reflexivity.
Defined.

(** C9, as stated, fails for a non-list [subpage_target] that is falsy: the
    empty string passes the guard, the request is sent without a
    subpage_target and the page comes back; no error is reported. *)
Lemma subpage_target_empty_string_counterexample :
  dict_get subpages_empty_target "url" = Some (JStr "https://example.com") /\
  dict_get subpages_empty_target "subpage_target" = Some (JStr "") /\
  is_list (JStr "") = false /\
  exists t st',
    sample_call_tool "exa_fetch_subpages" subpages_empty_target
      (fresh [Ok only_a_reply])
    = (Ok [t], st') /\
    mentions "subpage_target" (text t) = false /\
    mentions "Error" (text t) = false /\
    trace script st'
    = [mkRequest POST EXA_CONTENTS_ENDPOINT
         (Some (JDict [("urls", JList [JStr "https://example.com"]);
                       ("text", JBool true); ("subpages", JInt 5)]))
         [("x-api-key", "test-key")] 60].
Proof.
  repeat split; try reflexivity.
  eexists. eexists. split; [vm_compute; reflexivity |].
  repeat split; vm_compute; reflexivity.
Qed.

(** The divergence of C10 on the sample instance. *)
Example dispatchers_differ_run :
  sample_call_tool "exa_fetch_contents" [] (fresh [])
  = (Ok [text_content "Error: Argument 'urls' must be a non-empty list"],
     fresh []) /\
  legacy_call_tool script scripted "test-key" dumps str_of slice_key_error slice_message
    "exa_fetch_contents" [] (fresh [])
  = (Ok [text_content ("Error: Argument 'urls' must be a non" ++ nb_hyphen
                       ++ "empty list")], fresh []) /\
  String.length "Error: Argument 'urls' must be a non-empty list" = 47%nat /\
  String.length ("Error: Argument 'urls' must be a non" ++ nb_hyphen
                 ++ "empty list") = 49%nat.
Proof. repeat split. Qed.

(** The url is validated before the subpage_target: with an empty url the
    error names the url. *)
Example subpages_url_checked_first :
  sample_call_tool "exa_fetch_subpages"
    [("url", JStr ""); ("subpage_target", JStr "not-a-list")]
    (fresh [Ok only_a_reply])
  = (Ok [text_content "Error: Argument 'url' is required"],
     fresh [Ok only_a_reply]).
Proof. reflexivity. Qed.

(** Errors surface as text: a validation error and an upstream failure. *)
Example call_tool_error_runs :
  sample_call_tool "exa_web_search" [] (fresh [Ok search_reply])
  = (Ok [text_content "Error: Argument 'query' is required"],
     fresh [Ok search_reply]) /\
  sample_call_tool "exa_fetch_content" [("url", JStr "https://a.com")]
    (fresh [Raise not_found])
  = (Ok [text_content "Error: 404 Not Found"],
     mkState script [] [contents_request [JStr "https://a.com"] within 30]).
Proof. split; reflexivity. Qed.

(** C3, as stated, fails for an exception that is no [Exception]: when the
    upstream call is cancelled, the [asyncio.CancelledError] passes the
    [except Exception] of [call_tool] and leaves it; no text item is
    returned. *)
Lemma cancelled_call_escapes_counterexample :
  is_exception cancelled = false /\
  sample_call_tool "exa_answer_question" [("query", JStr "q")]
    (fresh [Raise cancelled])
  = (Raise cancelled,
     mkState script []
       [mkRequest POST EXA_ANSWER_ENDPOINT
          (Some (JDict [("query", JStr "q"); ("text", JBool false)]))
          [("x-api-key", "test-key")] 30]).
Proof. split; reflexivity. Qed.

(* ===================================================================== *)
(** ** Concrete runs of the further properties *)
(* ===================================================================== *)

Lemma operations_issue_one_request_witness :
  one_request script "test-key" (fresh [Ok only_a_reply])
    (mkState script [] [contents_request [JStr "https://a.com"] within 30])
    POST EXA_CONTENTS_ENDPOINT 30.
Proof.
  assert (Hkey : "test-key" <> "") by discriminate.
  destruct (operations_issue_one_request script scripted "test-key" str_of
              slice_key_error slice_message Hkey (fresh [Ok only_a_reply])
              (mkState script []
                 [contents_request [JStr "https://a.com"] within 30]))
    as (_ & _ & _ & _ & _ & H & _).
  apply (H (JStr "https://a.com") (Ok (JDict page_a))). reflexivity.
Defined.

Lemma optional_parameters_sent_only_when_truthy_witness :
  exists payload headers,
    trace script
      (mkState script []
         [mkRequest POST EXA_CONTENTS_ENDPOINT
            (Some (JDict [("urls", JList [JStr "https://root.com"]);
                          ("text", JBool true); ("subpages", JInt 3);
                          ("livecrawl", JStr "always")]))
            [("x-api-key", "test-key")] 60])
    = (trace script (fresh [Ok only_a_reply])
       ++ [mkRequest POST EXA_CONTENTS_ENDPOINT (Some (JDict payload))
             headers 60])%list /\
    dict_get payload "urls" = Some (JList [JStr "https://root.com"]) /\
    dict_get payload "text" = Some (JBool true) /\
    dict_get payload "subpages" = Some (JInt 3) /\
    dict_get payload "subpage_target" = None /\
    dict_get payload "livecrawl" = Some (JStr "always").
Proof.
  assert (Hkey : "test-key" <> "") by discriminate.
  destruct (optional_parameters_sent_only_when_truthy script scripted
              "test-key" Hkey (fresh [Ok only_a_reply])
              (mkState script []
                 [mkRequest POST EXA_CONTENTS_ENDPOINT
                    (Some (JDict [("urls", JList [JStr "https://root.com"]);
                                  ("text", JBool true); ("subpages", JInt 3);
                                  ("livecrawl", JStr "always")]))
                    [("x-api-key", "test-key")] 60]))
    as (_ & H & _).
  apply (H (JStr "https://root.com") (JInt 3) (JList []) (JStr "always")
           (Ok (JDict [("page", JDict page_a); ("subpages", JList [])]))).
  reflexivity.
Defined.

Lemma search_and_similar_payloads_witness :
  trace script
    (mkState script []
       [mkRequest POST EXA_FIND_SIMILAR_ENDPOINT
          (Some (JDict [("url", JStr "https://seed.com");
                        ("text", JBool true)]))
          [("x-api-key", "test-key")] 30])
  = (trace script (fresh [Ok empty_reply])
     ++ [mkRequest POST EXA_FIND_SIMILAR_ENDPOINT
           (Some (JDict [("url", JStr "https://seed.com");
                         ("text", JBool true)]))
           [("x-api-key", "test-key")] 30])%list.
Proof.
  assert (Hkey : "test-key" <> "") by discriminate.
  destruct (search_and_similar_payloads script scripted "test-key" slice_key_error slice_message
              Hkey (fresh [Ok empty_reply])
              (mkState script []
                 [mkRequest POST EXA_FIND_SIMILAR_ENDPOINT
                    (Some (JDict [("url", JStr "https://seed.com");
                                  ("text", JBool true)]))
                    [("x-api-key", "test-key")] 30]))
    as (_ & H).
  apply (H (JStr "https://seed.com") (JBool true) (JInt 7) (Ok [])).
  reflexivity.
Defined.

Lemma upstream_errors_propagate_unchanged_witness :
  exists st',
    exa_web_search script scripted "test-key" slice_key_error slice_message (JStr "q") (JInt 3)
      (fresh [Raise not_found])
    = (Raise not_found, st').
Proof.
  assert (Hkey : "test-key" <> "") by discriminate.
  assert (Hup : forall req, exists w',
             scripted req (world script (fresh [Raise not_found]))
             = (Raise not_found, w'))
    by (intros req; eexists; reflexivity).
  exact (proj1 (upstream_errors_propagate_unchanged script scripted "test-key"
                  str_of slice_key_error slice_message Hkey not_found
                  (fresh [Raise not_found]) Hup)
           (JStr "q") (JInt 3)).
Defined.

Lemma pass_through_operations_return_reply_witness :
  exists st',
    exa_answer_question script scripted "test-key" (JStr "What is?")
      (JBool false) (fresh [Ok (JList [JStr "not an object"])])
    = (Ok (JList [JStr "not an object"]), st').
Proof.
  assert (Hkey : "test-key" <> "") by discriminate.
  assert (Hup : forall req, exists w',
             scripted req
               (world script (fresh [Ok (JList [JStr "not an object"])]))
             = (Ok (JList [JStr "not an object"]), w'))
    by (intros req; eexists; reflexivity).
  exact (proj1 (pass_through_operations_return_reply script scripted
                  "test-key" str_of Hkey (JList [JStr "not an object"])
                  (fresh [Ok (JList [JStr "not an object"])]) Hup)
           (JStr "What is?") (JBool false)).
Defined.

(** Two urls asked for, one item in the reply: one record comes back. *)
Lemma fetch_contents_one_record_per_item_witness :
  exists st',
    exa_fetch_contents script scripted "test-key"
      (JList [JStr "https://a.com"; JStr "https://b.com"]) JNull
      (fresh [Ok only_a_reply])
    = (Ok (map content_of [page_a]), st') /\
    List.length (map content_of [page_a]) = List.length [page_a] /\
    Forall (fun out => keys_of out = ["title"; "url"; "text"])
           (map content_of [page_a]).
Proof.
  apply (fetch_contents_one_record_per_item script scripted "test-key"
           (JList [JStr "https://a.com"; JStr "https://b.com"]) JNull
           only_a_reply [page_a] (fresh [Ok only_a_reply])).
  - discriminate.
  - reflexivity.
  - intros req. eexists. reflexivity.
  - reflexivity.
Defined.

Lemma fetch_content_takes_first_result_witness :
  exists st',
    exa_fetch_content script scripted "test-key" (JStr "https://a.com")
      (fresh [Ok search_reply])
    = (Ok (content_of item_a), st').
Proof.
  apply (fetch_content_takes_first_result script scripted "test-key"
           (JStr "https://a.com") search_reply item_a
           [JDict item_b; JDict item_c] (fresh [Ok search_reply])).
  - discriminate.
  - intros req. eexists. reflexivity.
  - reflexivity.
Defined.

(** A page with two subpages, the second without text, and a second
    result that is ignored. *)
Lemma fetch_subpages_bundle_witness :
  exists st',
    exa_fetch_subpages script scripted "test-key" (JStr "https://root.com")
      (JInt 5) JNull JNull (fresh [Ok subpages_reply])
    = (Ok (JDict [("page", content_of root_page);
                  ("subpages", JList (map content_of [sub_1; sub_2]))]), st')
    /\
    (dict_get root_page "subpages" = None -> [sub_1; sub_2] = []).
Proof.
  apply (fetch_subpages_bundle script scripted "test-key"
           (JStr "https://root.com") (JInt 5) JNull JNull subpages_reply
           root_page [JDict item_b] [sub_1; sub_2]
           (fresh [Ok subpages_reply])).
  - discriminate.
  - intros req. eexists. reflexivity.
  - reflexivity.
  - reflexivity.
Defined.

(** The same run, evaluated. *)
Example fetch_subpages_run :
  exa_fetch_subpages script scripted "test-key" (JStr "https://root.com")
    (JInt 5) JNull JNull (fresh [Ok subpages_reply])
  = (Ok (JDict
           [("page", JDict [("title", JStr "Root");
                            ("url", JStr "https://root.com");
                            ("text", JStr "root")]);
            ("subpages",
             JList [JDict [("title", JStr "S1");
                           ("url", JStr "https://root.com/1");
                           ("text", JStr "one")];
                    JDict [("title", JStr "S2");
                           ("url", JStr "https://root.com/2");
                           ("text", JNull)]])]),
     mkState script []
       [mkRequest POST EXA_CONTENTS_ENDPOINT
          (Some (JDict [("urls", JList [JStr "https://root.com"]);
                        ("text", JBool true); ("subpages", JInt 5)]))
          [("x-api-key", "test-key")] 60]).
Proof. vm_compute. reflexivity. Qed.

(** Three upstream items and num_results = -2: one stub comes back. *)
Lemma search_slice_semantics_witness :
  exists st',
    exa_web_search script scripted "test-key" slice_key_error slice_message (JStr "q")
      (JInt (-2)) (fresh [Ok search_reply])
    = (Ok (map search_stub
             (firstn (List.length [item_a; item_b; item_c]
                      - Z.to_nat (- (-2)))
                [item_a; item_b; item_c])), st').
Proof.
  assert (Hkey : "test-key" <> "") by discriminate.
  assert (Hup : forall req, exists w',
             scripted req (world script (fresh [Ok search_reply]))
             = (Ok search_reply, w'))
    by (intros req; eexists; reflexivity).
  refine (proj1 (proj2 (search_slice_semantics script scripted "test-key"
                          slice_key_error slice_message (JStr "q") search_reply
                          [item_a; item_b; item_c] (fresh [Ok search_reply])
                          Hkey Hup eq_refl)) (-2) _).
  lia.
Defined.

Lemma results_are_field_stable_witness :
  Forall (fun o => exists title url snippet,
            o = JDict [("title", title); ("url", url); ("snippet", snippet)]
            /\ (truthy snippet = true \/ snippet = JStr ""))
    [search_stub item_a; search_stub item_b; search_stub item_c].
Proof.
  apply (proj1 (results_are_field_stable script scripted "test-key"
                  slice_key_error slice_message (fresh [Ok search_reply])
                  (mkState script [] [search_request 3]))
           (JStr "q") (JInt 3)).
  reflexivity.
Defined.

Lemma non_object_reply_raises_attribute_error_witness :
  exists st',
    exa_fetch_content script scripted "test-key" (JStr "https://a.com")
      (fresh [Ok (JList [])])
    = (Raise (mkExn PyAttributeError "'list' object has no attribute 'get'"),
       st').
Proof.
  assert (Hkey : "test-key" <> "") by discriminate.
  assert (Hup : forall req, exists w',
             scripted req (world script (fresh [Ok (JList [])]))
             = (Ok (JList []), w'))
    by (intros req; eexists; reflexivity).
  exact (proj1 (proj2 (proj2
           (non_object_reply_raises_attribute_error script scripted "test-key"
              slice_key_error slice_message (JList []) (fresh [Ok (JList [])]) Hkey Hup eq_refl)))
           (JStr "https://a.com")).
Defined.

Lemma invalid_arguments_are_rejected_before_any_request_witness :
  exists msg,
    sample_call_tool "exa_research_poll" [("task_id", JStr "")]
      (fresh [Ok search_reply])
    = (Ok [text_content ("Error: Argument '" ++ msg)], fresh [Ok search_reply])
    /\ (forall p, In p ["task_id"] ->
                  truthy (get_or [("task_id", JStr "")] p JNull) = false ->
                  String.prefix (p ++ "'") msg = true).
Proof.
  apply (invalid_arguments_are_rejected_before_any_request script scripted
           "test-key" dumps str_of slice_key_error slice_message
           (mkTool "exa_research_poll" ["task_id"] ["task_id"])
           [("task_id", JStr "")] (fresh [Ok search_reply])).
  - cbn. tauto.
  - reflexivity.
Defined.

Lemma dispatch_without_credential_witness :
  call_tool script scripted "" dumps str_of slice_key_error slice_message "exa_fetch_contents"
    [("urls", JList [JStr "https://a.com"])] (fresh [Ok only_a_reply])
  = (Ok [text_content "Error: EXA_API_KEY environment variable is not set"],
     fresh [Ok only_a_reply]).
Proof.
  apply (dispatch_without_credential script scripted "" dumps str_of
           slice_key_error slice_message (mkTool "exa_fetch_contents" ["urls"; "livecrawl"]
                          ["urls"])
           [("urls", JList [JStr "https://a.com"])] (fresh [Ok only_a_reply])).
  - reflexivity.
  - cbn. tauto.
  - reflexivity.
Defined.


Lemma omitted_argument_takes_default_witness :
  sample_call_tool "exa_fetch_subpages" [("url", JStr "https://a.com")]
    (fresh [Ok only_a_reply])
  = sample_call_tool "exa_fetch_subpages"
      ([("url", JStr "https://a.com")] ++ [("subpages", JInt 5)])%list
      (fresh [Ok only_a_reply]).
Proof.
  apply (omitted_argument_takes_default script scripted "test-key" dumps
           str_of slice_key_error slice_message "exa_fetch_subpages" "subpages" (JInt 5)
           [("url", JStr "https://a.com")] (fresh [Ok only_a_reply])).
  - cbn. tauto.
  - reflexivity.
Defined.

Lemma dispatch_serializes_reply_unchanged_witness :
  exists st',
    sample_call_tool "exa_research_poll" [("task_id", JStr "task_123")]
      (fresh [Ok (JDict [("id", JStr "task_123");
                         ("status", JStr "complete")])])
    = (Ok [text_content
             (dumps (JDict [("id", JStr "task_123");
                            ("status", JStr "complete")]))], st').
Proof.
  assert (Hkey : "test-key" <> "") by discriminate.
  assert (Hup : forall req, exists w',
             scripted req
               (world script
                  (fresh [Ok (JDict [("id", JStr "task_123");
                                     ("status", JStr "complete")])]))
             = (Ok (JDict [("id", JStr "task_123");
                           ("status", JStr "complete")]), w'))
    by (intros req; eexists; reflexivity).
  apply (proj2 (proj2
           (dispatch_serializes_reply_unchanged script scripted "test-key"
              dumps str_of slice_key_error slice_message [("task_id", JStr "task_123")]
              (JDict [("id", JStr "task_123"); ("status", JStr "complete")])
              (fresh [Ok (JDict [("id", JStr "task_123");
                                 ("status", JStr "complete")])])
              Hkey Hup))).
  reflexivity.
Defined.

(** Two records for the same url: the later one is the one looked up. *)
Lemma lookup_keeps_last_record_witness :
  kd_get [(JStr "https://a.com",
           JDict [("title", JStr "A"); ("url", JStr "https://a.com");
                  ("text", JStr "NEWER")])]
    (JStr "https://a.com")
  = Some (JDict [("title", JStr "A"); ("url", JStr "https://a.com");
                 ("text", JStr "NEWER")]) /\
  lookup_or [(JStr "https://a.com",
              JDict [("title", JStr "A"); ("url", JStr "https://a.com");
                     ("text", JStr "NEWER")])]
    (JStr "https://a.com") (search_stub item_a)
  = JDict [("title", JStr "A"); ("url", JStr "https://a.com");
           ("text", JStr "NEWER")].
Proof.
  apply (lookup_keeps_last_record script [JDict page_a]
           (JDict [("title", JStr "A"); ("url", JStr "https://a.com");
                   ("text", JStr "NEWER")])
           [] (JStr "https://a.com") (search_stub item_a)
           (fresh []) _ (fresh [])).
  - reflexivity.
  - reflexivity.
  - intros c' [].
Defined.

Lemma search_without_text_is_one_request_witness :
  sample_call_tool "exa_web_search" [("query", JStr "q")]
    (fresh [Ok search_reply])
  = (Ok [text_content
           (dumps (JList [search_stub item_a; search_stub item_b;
                          search_stub item_c]))],
     mkState script [] [search_request 3]) /\
  one_request script "test-key" (fresh [Ok search_reply])
    (mkState script [] [search_request 3]) POST EXA_SEARCH_ENDPOINT 30.
Proof.
  apply (search_without_text_is_one_request script scripted "test-key" dumps
           str_of slice_key_error slice_message [("query", JStr "q")] (JStr "q")
           [search_stub item_a; search_stub item_b; search_stub item_c]
           (fresh [Ok search_reply]) (mkState script [] [search_request 3]));
    reflexivity.
Defined.

(** The search returns two results without a usable url, one with no url
    and one with an empty url: no bulk request is sent, and each stub gets
    its fetch-one request; the first is answered, the second fails. *)
Lemma search_without_urls_skips_bulk_request_witness :
  exists out st',
    sample_call_tool "exa_web_search" search_with_text
      (fresh [Ok no_urls_reply; Ok only_a_reply; Raise not_found])
    = (Ok [text_content (dumps (JList out))], st') /\
    per_url_fallback script scripted "test-key"
      [search_stub item_no_url; search_stub item_empty_url]
      (mkState script [Ok only_a_reply; Raise not_found] [search_request 3])
      out st' /\
    trace script st'
    = (trace script
         (mkState script [Ok only_a_reply; Raise not_found] [search_request 3])
       ++ map (fun stub => fetch_content_request "test-key" (url_of stub))
            [search_stub item_no_url; search_stub item_empty_url])%list
    /\ ([search_stub item_no_url; search_stub item_empty_url] = [] ->
        out = [] /\
        st' = mkState script [Ok only_a_reply; Raise not_found]
                [search_request 3]).
Proof.
  apply (search_without_urls_skips_bulk_request script scripted "test-key"
           dumps str_of slice_key_error slice_message search_with_text
           (JStr "q") [search_stub item_no_url; search_stub item_empty_url]
           (fresh [Ok no_urls_reply; Ok only_a_reply; Raise not_found])
           (mkState script [Ok only_a_reply; Raise not_found]
              [search_request 3]));
    reflexivity.
Defined.

(** The same run, evaluated: no request carries both urls; the record of
    the page that answered stands for the first stub, the second stub is
    kept. *)
Example search_without_urls_run :
  sample_call_tool "exa_web_search" search_with_text
    (fresh [Ok no_urls_reply; Ok only_a_reply; Raise not_found])
  = (Ok [text_content
           (dumps (JList [JDict page_a; search_stub item_empty_url]))],
     mkState script []
       [search_request 3;
        contents_request [JNull] within 30;
        contents_request [JStr ""] within 30]).
Proof. vm_compute. reflexivity. Qed.

Lemma enrichment_request_bound_witness :
  exists r st' reqs,
    sample_call_tool "exa_web_search" search_with_text
      (fresh [Ok search_reply; Raise bulk_failure; Ok only_a_reply;
              Raise not_found; Ok empty_reply])
    = (r, st') /\
    trace script st'
    = (trace script
         (mkState script [Raise bulk_failure; Ok only_a_reply;
                          Raise not_found; Ok empty_reply]
            [search_request 3])
       ++ reqs)%list /\
    (List.length reqs
     <= 1 + List.length [search_stub item_a; search_stub item_b;
                         search_stub item_c])%nat /\
    match r with
    | Ok l =>
        exists out,
          l = [text_content (dumps (JList out))] /\
          List.length out
          = List.length [search_stub item_a; search_stub item_b;
                         search_stub item_c] /\
          Forall2 stub_or_record
            [search_stub item_a; search_stub item_b; search_stub item_c] out
    | Raise e => is_exception e = false /\ from_upstream script scripted e
    end.
Proof.
  apply (enrichment_request_bound script scripted "test-key" dumps str_of
           slice_key_error slice_message search_with_text (JStr "q")
           [search_stub item_a; search_stub item_b; search_stub item_c]
           (fresh [Ok search_reply; Raise bulk_failure; Ok only_a_reply;
                   Raise not_found; Ok empty_reply])
           (mkState script [Raise bulk_failure; Ok only_a_reply;
                            Raise not_found; Ok empty_reply]
              [search_request 3]));
    reflexivity.
Defined.

Lemma legacy_dispatcher_agrees_witness :
  legacy_call_tool script scripted "test-key" dumps str_of slice_key_error slice_message
    "exa_fetch_contents" [("urls", JList [JStr "https://a.com"])]
    (fresh [Ok only_a_reply])
  = sample_call_tool "exa_fetch_contents"
      [("urls", JList [JStr "https://a.com"])] (fresh [Ok only_a_reply]).
Proof.
  apply (legacy_dispatcher_agrees script scripted "test-key" dumps str_of
           slice_key_error slice_message "exa_fetch_contents"
           [("urls", JList [JStr "https://a.com"])] (fresh [Ok only_a_reply])).
  intros _. split; reflexivity.
Defined.
